(** * Realtime synchronisation layer of the elevator-scheduling frontend

    A shallow embedding of the JavaScript sources
    - [frontend/src/api/api.js]      (REST client and the WebSocket client),
    - [frontend/src/App.js]          (the [App] component),
    - [frontend/src/components/Statistics.jsx] (statistics polling),
    - [frontend/src/components/Controls.jsx]   (the add-passenger form),
    - [frontend/src/components/EventStream.jsx] (the filter of the event list),
    - [frontend/src/components/Building.jsx]   (floors, call buttons),
    and of what the renders of [Statistics], [Building] and [EventStream]
    read of the state,
    as a deterministic transition system over one page: the module scope of
    [api.js], the state of the mounted components, and the part of the
    browser they talk to (WebSocket objects, timers, the clock, the network
    log, the console and alert dialogs).

    Asynchronous functions are split at their [await]: the synchronous
    prefix is one function, the continuation another one that receives the
    outcome of the request. React state setters follow React's rule: a
    setter is ignored on a component that is not mounted, bails out when
    the new value is [Object.is]-equal to the old one, and otherwise
    re-runs (clean-up first) the effects that depend on that piece of
    state. A new state is rendered before its effects run; a render that
    throws takes the page down, as no component catches it, and the
    clean-ups of the effects run as on unmount. *)

From Stdlib Require Import ZArith String Ascii Bool Lia.
From Stdlib Require DecimalString.
From stdpp Require Import base option list gmap strings.

Local Open Scope string_scope.
Local Open Scope Z_scope.

(** ** JavaScript values *)

(** Numbers are IEEE doubles in the source. The development is parametric
    in them: only the operations the program applies to numbers are
    required, with the one law the model of React relies on. *)
Class JsNumber (Num : Type) := {
  num_truthy : Num -> bool;            (* ToBoolean: false on +0, -0, NaN *)
  num_gt0 : Num -> bool;               (* n > 0 *)
  num_strict_eq : Num -> Num -> bool;  (* n === m *)
  num_same : Num -> Num -> bool;       (* Object.is(n, m) *)
  num_show : Num -> string;            (* ToString *)
  str_to_num : string -> Num;          (* ToNumber on a string *)
  num_lit : Z -> Num;                  (* an integer literal of the source *)
  num_same_eq : forall n m, num_same n m = true -> n = m
}.

Section Values.
Context {Num : Type} `{JsNumber Num}.

Set Warnings "-register-all".

(** What [JSON.parse] and axios hand to the program, plus [undefined].
    An object is the list of its own properties, first binding wins. *)
Inductive JsVal :=
| JUndefined
| JNull
| JBool (b : bool)
| JNum (n : Num)
| JStr (s : string)
| JArr (xs : list JsVal)
| JObj (props : list (string * JsVal)).

(** ToBoolean. *)
Definition truthy (v : JsVal) : bool :=
  match v with
  | JUndefined | JNull => false
  | JBool b => b
  | JNum n => num_truthy n
  | JStr s => negb (String.eqb s "")
  | JArr _ | JObj _ => true
  end.

Fixpoint assoc (k : string) (props : list (string * JsVal)) : JsVal :=
  match props with
  | [] => JUndefined
  | (k', v) :: rest => if String.eqb k k' then v else assoc k rest
  end.

(** Property read [v.k], for the keys this program reads ([type], [data],
    [events], [time], [running], [detail], [average_wait_time], ...), none
    of which lives on a built-in prototype. [None] stands for the
    TypeError raised on [null] and [undefined]. *)
Definition prop (v : JsVal) (k : string) : option JsVal :=
  match v with
  | JUndefined | JNull => None
  | JObj props => Some (assoc k props)
  | _ => Some JUndefined
  end.

(** Optional chaining [v?.k]; it is also how [v.k] reads under a guard
    [v && ...], where [v] is not nullish and the two agree. *)
Definition opt_prop (v : JsVal) (k : string) : JsVal :=
  match prop v k with Some x => x | None => JUndefined end.

(** [v === 'literal']. *)
Definition strict_eq_str (v : JsVal) (lit : string) : bool :=
  match v with JStr s => String.eqb s lit | _ => false end.

(** [Object.is(a, b)] between the state held by React and a value that was
    just produced by [JSON.parse], axios or a literal: primitives compare
    by value, a freshly allocated array or object is identical to nothing
    that existed before. *)
Definition same_value (a b : JsVal) : bool :=
  match a, b with
  | JUndefined, JUndefined => true
  | JNull, JNull => true
  | JBool x, JBool y => Bool.eqb x y
  | JNum x, JNum y => num_same x y
  | JStr x, JStr y => String.eqb x y
  | _, _ => false
  end.

(** ToString, as applied by [+] with a string operand. *)
Fixpoint to_string (v : JsVal) : string :=
  match v with
  | JUndefined => "undefined"
  | JNull => "null"
  | JBool true => "true"
  | JBool false => "false"
  | JNum n => num_show n
  | JStr s => s
  | JArr xs =>
      (fix join (ys : list JsVal) : string :=
         match ys with
         | [] => ""
         | y :: ys' =>
             (match y with JUndefined | JNull => "" | _ => to_string y end)
             ++ (match ys' with [] => "" | _ => "," ++ join ys' end)
         end) xs
  | JObj _ => "[object Object]"
  end.

(** [v > 0]: ToPrimitive, then ToNumber, then the comparison. *)
Definition js_gt0 (v : JsVal) : bool :=
  match v with
  | JUndefined | JNull => false
  | JBool b => b
  | JNum n => num_gt0 n
  | JStr s => num_gt0 (str_to_num s)
  | JArr _ | JObj _ => num_gt0 (str_to_num (to_string v))
  end.

(** [a || b]. *)
Definition js_or (a b : JsVal) : JsVal := if truthy a then a else b.

End Values.
Arguments JsVal Num : clear implicits.

(** [JSON.parse] is the browser's: [None] stands for the SyntaxError it
    throws on text that is not JSON. *)
Class JsonParser (Num : Type) := JSON_parse : string -> option (JsVal Num).

(** Two limits of the browser that the renders of the page run into: the
    largest length [Array.from] accepts, and the seconds
    [Date.prototype.setSeconds] can be given before [toISOString] throws. *)
Class JsLimits (Num : Type) `{JsNumber Num} := {
  num_valid_length : Num -> bool;      (* ToLength(n) <= 2^32 - 1 *)
  num_valid_seconds : Num -> bool;     (* new Date(0) after setSeconds(n) is a valid date *)
  valid_length_25 : num_valid_length (num_lit 25) = true
}.

(** ** The state of Building.jsx *)

Section Building.
Context {Num : Type} `{JsNumber Num}.

(** The three pieces of state of [Building]. *)
Record BuildingState := {
  elevators : JsVal Num;
  waitingPassengers : JsVal Num;
  totalFloors : JsVal Num
}.

Definition Building_initial : BuildingState :=
  {| elevators := JArr []; waitingPassengers := JObj [];
     totalFloors := JNum (num_lit 25) |}.

(** The effect of [Building], dependencies [[simulationState]]. *)
Definition Building_effect (simulationState : JsVal Num) (b : BuildingState) : BuildingState :=
  if truthy simulationState then
    {| elevators := js_or (opt_prop simulationState "elevators") (JArr []);
       waitingPassengers := js_or (opt_prop simulationState "waiting_passengers") (JObj []);
       totalFloors := js_or (opt_prop simulationState "floors") (JNum (num_lit 25)) |}
  else b.


End Building.
Arguments BuildingState Num : clear implicits.

Section Model.
Context {Num : Type} `{JsNumber Num} `{JsonParser Num} {limits : JsLimits Num}.
Abbreviation Val := (JsVal Num).

(** ** The browser: sockets, timers, requests, console *)

Inductive ReadyState := CONNECTING | OPEN | CLOSING | CLOSED.

(** [WebSocket.CONNECTING] ... [WebSocket.CLOSED]. *)
Definition readyState_code (r : ReadyState) : Z :=
  match r with CONNECTING => 0 | OPEN => 1 | CLOSING => 2 | CLOSED => 3 end.
Definition WebSocket_OPEN : Z := readyState_code OPEN.

(** The three closures [App] passes to [createWebSocketClient]. *)
Inductive MessageCallback := App_onMessage.
Inductive ConnectCallback := App_onConnect.
Inductive DisconnectCallback := App_onDisconnect.

(** A [WebSocket] object with the callbacks its [onopen], [onmessage] and
    [onclose] handlers have captured. *)
Record Socket := {
  readyState : ReadyState;
  onMessage : option MessageCallback;
  onConnect : option ConnectCallback;
  onDisconnect : option DisconnectCallback
}.

(** The object [createWebSocketClient] returns: [{ send, close, getState }]
    closed over the socket [ws]. *)
Record Client := { client_ws : nat }.

Inductive ClientMethod := Send | Close | GetState.
Inductive Property := PUndefined | PFunction (m : ClientMethod) | PNumber (n : Z).

(** Property read on a client object: it owns [send], [close] and
    [getState] and nothing else. *)
Definition client_prop (c : Client) (key : string) : Property :=
  if String.eqb key "send" then PFunction Send
  else if String.eqb key "close" then PFunction Close
  else if String.eqb key "getState" then PFunction GetState
  else PUndefined.

(** [p === n] for a number [n]. *)
Definition strict_eq_num (p : Property) (n : Z) : bool :=
  match p with PNumber m => Z.eqb m n | _ => false end.

(** The callbacks handed to [setTimeout] and [setInterval]. *)
Inductive TimerAction := Reconnect | FetchEvents | FetchStats.

Record Timer := {
  due : Z;                (* the clock value from which it may fire *)
  period : option Z;      (* [Some p] for setInterval, [None] for setTimeout *)
  action : TimerAction
}.

Record Request := { method : string; url : string; body : Val }.

(** A rejected axios promise: [error.message], and [error.response.data]
    when the server answered. *)
Record HttpError := { message : string; response : option Val }.

Inductive ErrorValue :=
| TypeError | SyntaxError | RequestFailed (e : HttpError) | ErrorEvent.

Inductive Level := Info | Warn | Error.
Record LogEntry := { level : Level; text : string; attached : option ErrorValue }.

(** What an awaited request settles to: [response.data], or the error. *)
Inductive Outcome := Resolved (data : Val) | Rejected (e : HttpError).

Inductive Phase := Fresh | Mounted | Unmounted.

Definition is_mounted (p : Phase) : bool :=
  match p with Mounted => true | _ => false end.

(** ** The page *)

Record World := {
  activeWebSocket : option Client;      (* api.js: let activeWebSocket *)
  sockets : list Socket;                (* every WebSocket constructed so far, by index *)
  timers : gmap nat Timer;              (* the browser's table of live timers *)
  nextTimer : nat;                      (* the next timer handle (handles are positive) *)
  clock : Z;                            (* milliseconds since the page was loaded *)
  requests : list Request;              (* every HTTP request issued so far, oldest first *)
  console : list LogEntry;              (* console output, oldest first *)
  alerts : list string;                 (* alert dialogs shown, oldest first *)
  phase : Phase;                        (* life cycle of the App component tree *)
  isRunning : Val;                    (* App: useState(false) *)
  simulationState : Val;              (* App: useState(null) *)
  events : Val;                       (* App: useState([]) *)
  wsClientRef : option Client;          (* App: useRef(null) *)
  eventsInterval : option nat;          (* App: let interval of the live events effect *)
  stats : Val;                        (* Statistics: useState({...}) *)
  historicalData : list Val;          (* Statistics: useState([]) *)
  statsInterval : option nat;           (* Statistics: const interval of the live effect *)
  building : BuildingState Num;         (* Building: its three useState *)
  filteredEvents : list Val           (* EventStream: useState([]) *)
}.

Definition set_activeWebSocket (x : option Client) (w : World) : World :=
  {| activeWebSocket := x; sockets := sockets w; timers := timers w;
     nextTimer := nextTimer w; clock := clock w; requests := requests w;
     console := console w; alerts := alerts w; phase := phase w;
     isRunning := isRunning w; simulationState := simulationState w;
     events := events w; wsClientRef := wsClientRef w;
     eventsInterval := eventsInterval w; stats := stats w;
     historicalData := historicalData w; statsInterval := statsInterval w;
     building := building w; filteredEvents := filteredEvents w |}.

Definition set_sockets (x : list Socket) (w : World) : World :=
  {| activeWebSocket := activeWebSocket w; sockets := x; timers := timers w;
     nextTimer := nextTimer w; clock := clock w; requests := requests w;
     console := console w; alerts := alerts w; phase := phase w;
     isRunning := isRunning w; simulationState := simulationState w;
     events := events w; wsClientRef := wsClientRef w;
     eventsInterval := eventsInterval w; stats := stats w;
     historicalData := historicalData w; statsInterval := statsInterval w;
     building := building w; filteredEvents := filteredEvents w |}.

Definition set_timers (x : gmap nat Timer) (w : World) : World :=
  {| activeWebSocket := activeWebSocket w; sockets := sockets w; timers := x;
     nextTimer := nextTimer w; clock := clock w; requests := requests w;
     console := console w; alerts := alerts w; phase := phase w;
     isRunning := isRunning w; simulationState := simulationState w;
     events := events w; wsClientRef := wsClientRef w;
     eventsInterval := eventsInterval w; stats := stats w;
     historicalData := historicalData w; statsInterval := statsInterval w;
     building := building w; filteredEvents := filteredEvents w |}.

Definition set_nextTimer (x : nat) (w : World) : World :=
  {| activeWebSocket := activeWebSocket w; sockets := sockets w;
     timers := timers w; nextTimer := x; clock := clock w;
     requests := requests w; console := console w; alerts := alerts w;
     phase := phase w; isRunning := isRunning w;
     simulationState := simulationState w; events := events w;
     wsClientRef := wsClientRef w; eventsInterval := eventsInterval w;
     stats := stats w; historicalData := historicalData w;
     statsInterval := statsInterval w; building := building w;
     filteredEvents := filteredEvents w |}.

Definition set_clock (x : Z) (w : World) : World :=
  {| activeWebSocket := activeWebSocket w; sockets := sockets w;
     timers := timers w; nextTimer := nextTimer w; clock := x;
     requests := requests w; console := console w; alerts := alerts w;
     phase := phase w; isRunning := isRunning w;
     simulationState := simulationState w; events := events w;
     wsClientRef := wsClientRef w; eventsInterval := eventsInterval w;
     stats := stats w; historicalData := historicalData w;
     statsInterval := statsInterval w; building := building w;
     filteredEvents := filteredEvents w |}.

Definition set_requests (x : list Request) (w : World) : World :=
  {| activeWebSocket := activeWebSocket w; sockets := sockets w;
     timers := timers w; nextTimer := nextTimer w; clock := clock w;
     requests := x; console := console w; alerts := alerts w;
     phase := phase w; isRunning := isRunning w;
     simulationState := simulationState w; events := events w;
     wsClientRef := wsClientRef w; eventsInterval := eventsInterval w;
     stats := stats w; historicalData := historicalData w;
     statsInterval := statsInterval w; building := building w;
     filteredEvents := filteredEvents w |}.

Definition set_console (x : list LogEntry) (w : World) : World :=
  {| activeWebSocket := activeWebSocket w; sockets := sockets w;
     timers := timers w; nextTimer := nextTimer w; clock := clock w;
     requests := requests w; console := x; alerts := alerts w;
     phase := phase w; isRunning := isRunning w;
     simulationState := simulationState w; events := events w;
     wsClientRef := wsClientRef w; eventsInterval := eventsInterval w;
     stats := stats w; historicalData := historicalData w;
     statsInterval := statsInterval w; building := building w;
     filteredEvents := filteredEvents w |}.

Definition set_alerts (x : list string) (w : World) : World :=
  {| activeWebSocket := activeWebSocket w; sockets := sockets w;
     timers := timers w; nextTimer := nextTimer w; clock := clock w;
     requests := requests w; console := console w; alerts := x;
     phase := phase w; isRunning := isRunning w;
     simulationState := simulationState w; events := events w;
     wsClientRef := wsClientRef w; eventsInterval := eventsInterval w;
     stats := stats w; historicalData := historicalData w;
     statsInterval := statsInterval w; building := building w;
     filteredEvents := filteredEvents w |}.

Definition set_phase (x : Phase) (w : World) : World :=
  {| activeWebSocket := activeWebSocket w; sockets := sockets w;
     timers := timers w; nextTimer := nextTimer w; clock := clock w;
     requests := requests w; console := console w; alerts := alerts w;
     phase := x; isRunning := isRunning w;
     simulationState := simulationState w; events := events w;
     wsClientRef := wsClientRef w; eventsInterval := eventsInterval w;
     stats := stats w; historicalData := historicalData w;
     statsInterval := statsInterval w; building := building w;
     filteredEvents := filteredEvents w |}.

Definition set_isRunning (x : Val) (w : World) : World :=
  {| activeWebSocket := activeWebSocket w; sockets := sockets w;
     timers := timers w; nextTimer := nextTimer w; clock := clock w;
     requests := requests w; console := console w; alerts := alerts w;
     phase := phase w; isRunning := x; simulationState := simulationState w;
     events := events w; wsClientRef := wsClientRef w;
     eventsInterval := eventsInterval w; stats := stats w;
     historicalData := historicalData w; statsInterval := statsInterval w;
     building := building w; filteredEvents := filteredEvents w |}.

Definition set_simulationState (x : Val) (w : World) : World :=
  {| activeWebSocket := activeWebSocket w; sockets := sockets w;
     timers := timers w; nextTimer := nextTimer w; clock := clock w;
     requests := requests w; console := console w; alerts := alerts w;
     phase := phase w; isRunning := isRunning w; simulationState := x;
     events := events w; wsClientRef := wsClientRef w;
     eventsInterval := eventsInterval w; stats := stats w;
     historicalData := historicalData w; statsInterval := statsInterval w;
     building := building w; filteredEvents := filteredEvents w |}.

Definition set_events (x : Val) (w : World) : World :=
  {| activeWebSocket := activeWebSocket w; sockets := sockets w;
     timers := timers w; nextTimer := nextTimer w; clock := clock w;
     requests := requests w; console := console w; alerts := alerts w;
     phase := phase w; isRunning := isRunning w;
     simulationState := simulationState w; events := x;
     wsClientRef := wsClientRef w; eventsInterval := eventsInterval w;
     stats := stats w; historicalData := historicalData w;
     statsInterval := statsInterval w; building := building w;
     filteredEvents := filteredEvents w |}.

Definition set_wsClientRef (x : option Client) (w : World) : World :=
  {| activeWebSocket := activeWebSocket w; sockets := sockets w;
     timers := timers w; nextTimer := nextTimer w; clock := clock w;
     requests := requests w; console := console w; alerts := alerts w;
     phase := phase w; isRunning := isRunning w;
     simulationState := simulationState w; events := events w;
     wsClientRef := x; eventsInterval := eventsInterval w; stats := stats w;
     historicalData := historicalData w; statsInterval := statsInterval w;
     building := building w; filteredEvents := filteredEvents w |}.

Definition set_eventsInterval (x : option nat) (w : World) : World :=
  {| activeWebSocket := activeWebSocket w; sockets := sockets w;
     timers := timers w; nextTimer := nextTimer w; clock := clock w;
     requests := requests w; console := console w; alerts := alerts w;
     phase := phase w; isRunning := isRunning w;
     simulationState := simulationState w; events := events w;
     wsClientRef := wsClientRef w; eventsInterval := x; stats := stats w;
     historicalData := historicalData w; statsInterval := statsInterval w;
     building := building w; filteredEvents := filteredEvents w |}.

Definition set_stats (x : Val) (w : World) : World :=
  {| activeWebSocket := activeWebSocket w; sockets := sockets w;
     timers := timers w; nextTimer := nextTimer w; clock := clock w;
     requests := requests w; console := console w; alerts := alerts w;
     phase := phase w; isRunning := isRunning w;
     simulationState := simulationState w; events := events w;
     wsClientRef := wsClientRef w; eventsInterval := eventsInterval w;
     stats := x; historicalData := historicalData w;
     statsInterval := statsInterval w; building := building w;
     filteredEvents := filteredEvents w |}.

Definition set_historicalData (x : list Val) (w : World) : World :=
  {| activeWebSocket := activeWebSocket w; sockets := sockets w;
     timers := timers w; nextTimer := nextTimer w; clock := clock w;
     requests := requests w; console := console w; alerts := alerts w;
     phase := phase w; isRunning := isRunning w;
     simulationState := simulationState w; events := events w;
     wsClientRef := wsClientRef w; eventsInterval := eventsInterval w;
     stats := stats w; historicalData := x; statsInterval := statsInterval w;
     building := building w; filteredEvents := filteredEvents w |}.

Definition set_statsInterval (x : option nat) (w : World) : World :=
  {| activeWebSocket := activeWebSocket w; sockets := sockets w;
     timers := timers w; nextTimer := nextTimer w; clock := clock w;
     requests := requests w; console := console w; alerts := alerts w;
     phase := phase w; isRunning := isRunning w;
     simulationState := simulationState w; events := events w;
     wsClientRef := wsClientRef w; eventsInterval := eventsInterval w;
     stats := stats w; historicalData := historicalData w;
     statsInterval := x; building := building w;
     filteredEvents := filteredEvents w |}.

Definition set_building (x : BuildingState Num) (w : World) : World :=
  {| activeWebSocket := activeWebSocket w; sockets := sockets w;
     timers := timers w; nextTimer := nextTimer w; clock := clock w;
     requests := requests w; console := console w; alerts := alerts w;
     phase := phase w; isRunning := isRunning w;
     simulationState := simulationState w; events := events w;
     wsClientRef := wsClientRef w; eventsInterval := eventsInterval w;
     stats := stats w; historicalData := historicalData w;
     statsInterval := statsInterval w; building := x;
     filteredEvents := filteredEvents w |}.

Definition set_filteredEvents (x : list Val) (w : World) : World :=
  {| activeWebSocket := activeWebSocket w; sockets := sockets w;
     timers := timers w; nextTimer := nextTimer w; clock := clock w;
     requests := requests w; console := console w; alerts := alerts w;
     phase := phase w; isRunning := isRunning w;
     simulationState := simulationState w; events := events w;
     wsClientRef := wsClientRef w; eventsInterval := eventsInterval w;
     stats := stats w; historicalData := historicalData w;
     statsInterval := statsInterval w; building := building w;
     filteredEvents := x |}.

Definition initial_stats : Val :=
  JObj [("average_wait_time", JNum (num_lit 0));
        ("average_ride_time", JNum (num_lit 0));
        ("average_total_time", JNum (num_lit 0));
        ("total_completed_trips", JNum (num_lit 0));
        ("total_waiting_passengers", JNum (num_lit 0));
        ("elevator_utilization", JObj [])].

Definition init : World :=
  {| activeWebSocket := None; sockets := []; timers := ∅; nextTimer := 1;
     clock := 0; requests := []; console := []; alerts := [];
     phase := Fresh; isRunning := JBool false; simulationState := JNull;
     events := JArr []; wsClientRef := None; eventsInterval := None;
     stats := initial_stats; historicalData := []; statsInterval := None;
     building := Building_initial; filteredEvents := [] |}.

Definition console_log (msg : string) (w : World) : World :=
  set_console (console w ++ [{| level := Info; text := msg; attached := None |}]) w.
Definition console_warn (msg : string) (w : World) : World :=
  set_console (console w ++ [{| level := Warn; text := msg; attached := None |}]) w.
Definition console_error (msg : string) (e : ErrorValue) (w : World) : World :=
  set_console (console w ++ [{| level := Error; text := msg; attached := Some e |}]) w.

Definition alert (msg : Val) (w : World) : World :=
  set_alerts (alerts w ++ [to_string msg]) w.

(** [setTimeout(cb, ms)] and [setInterval(cb, ms)] return the new handle. *)
Definition setTimeout (cb : TimerAction) (ms : Z) (w : World) : nat * World :=
  let id := nextTimer w in
  (id, set_nextTimer (S id)
         (set_timers (<[id := {| due := clock w + ms; period := None; action := cb |}]>
                        (timers w)) w)).

Definition setInterval (cb : TimerAction) (ms : Z) (w : World) : nat * World :=
  let id := nextTimer w in
  (id, set_nextTimer (S id)
         (set_timers (<[id := {| due := clock w + ms; period := Some ms; action := cb |}]>
                        (timers w)) w)).

Definition clearInterval (id : nat) (w : World) : World :=
  set_timers (delete id (timers w)) w.

Definition set_readyState (r : ReadyState) (s : Socket) : Socket :=
  {| readyState := r; onMessage := onMessage s; onConnect := onConnect s;
     onDisconnect := onDisconnect s |}.

(** [WebSocket.prototype.close]: a socket that is connecting or open starts
    closing; the close event comes later, from the browser. *)
Definition ws_close (i : nat) (w : World) : World :=
  match sockets w !! i with
  | Some s =>
      match readyState s with
      | CONNECTING | OPEN => set_sockets (<[i := set_readyState CLOSING s]> (sockets w)) w
      | CLOSING | CLOSED => w
      end
  | None => w
  end.

(** ** api.js *)

Definition request (m u : string) (b : Val) (w : World) : World :=
  set_requests (requests w ++ [{| method := m; url := u; body := b |}]) w.

Definition api_startSimulation (config : Val) := request "POST" "/start" config.
Definition api_stopSimulation := request "POST" "/stop" JUndefined.
Definition api_resetSimulation := request "POST" "/reset" JUndefined.
Definition api_getStatus := request "GET" "/status" JUndefined.
Definition api_getEvents (limit skip : Num) :=
  request "GET" ("/events?limit=" ++ num_show limit ++ "&skip=" ++ num_show skip) JUndefined.
Definition api_addPassenger (startFloor destinationFloor : Val) :=
  request "POST" "/passengers"
    (JObj [("start_floor", startFloor); ("destination_floor", destinationFloor)]).
Definition api_pressButton (floor direction : Val) :=
  request "POST" "/button" (JObj [("floor", floor); ("direction", direction)]).
Definition api_getStatistics := request "GET" "/stats" JUndefined.
Definition api_getConfiguration := request "GET" "/config" JUndefined.
Definition api_updateConfiguration (config : Val) := request "PUT" "/config" config.

(** [client.close]: [ws.close(); activeWebSocket = null]. *)
Definition client_close (c : Client) (w : World) : World :=
  set_activeWebSocket None (ws_close (client_ws c) w).

(** [client.send]: the frame leaves the page when the socket is open;
    otherwise the message is dropped with a warning. *)
Definition client_send (c : Client) (data : Val) (w : World) : World :=
  match readyState <$> sockets w !! client_ws c with
  | Some OPEN => w
  | _ => console_warn "WebSocket not connected, message not sent" w
  end.

(** [client.getState]. *)
Definition client_getState (c : Client) (w : World) : option ReadyState :=
  readyState <$> sockets w !! client_ws c.

(** [createWebSocketClient(onMessage, onConnect, onDisconnect)]. The guard
    of the first [if] reads the property [readyState] of the object held in
    [activeWebSocket], which is a client object. *)
Definition createWebSocketClient
    (onMsg : option MessageCallback) (onConn : option ConnectCallback)
    (onDisc : option DisconnectCallback) (w : World) : Client * World :=
  let reusable :=
    match activeWebSocket w with
    | Some active => strict_eq_num (client_prop active "readyState") WebSocket_OPEN
    | None => false
    end in
  match activeWebSocket w, reusable with
  | Some active, true =>
      (active, console_log "Reusing existing WebSocket connection" w)
  | _, _ =>
      let w1 :=
        match activeWebSocket w with
        | Some active =>
            set_activeWebSocket None
              (client_close active
                 (console_log "Closing existing WebSocket connection before creating a new one" w))
        | None => w
        end in
      let w2 := console_log "Creating new WebSocket connection" w1 in
      let ws := length (sockets w2) in
      let w3 :=
        set_sockets (sockets w2 ++ [{| readyState := CONNECTING; onMessage := onMsg;
                                       onConnect := onConn; onDisconnect := onDisc |}]) w2 in
      let client := {| client_ws := ws |} in
      (client, set_activeWebSocket (Some client) w3)
  end.

(** ** Statistics.jsx *)

(** [fetchStats] up to its [await]. *)
Definition fetchStats (w : World) : World := api_getStatistics w.

(** The effect of [Statistics], dependencies [[simulationState]]: its
    clean-up (present only when the guard held) and its body. *)
Definition statistics_cleanup (w : World) : World :=
  match statsInterval w with
  | Some interval => set_statsInterval None (clearInterval interval w)
  | None => w
  end.

Definition statistics_guard (simulationState : Val) : bool :=
  truthy simulationState &&
  match prop simulationState "time" with Some t => js_gt0 t | None => false end.

Definition statistics_effect (w : World) : World :=
  if statistics_guard (simulationState w) then
    let w1 := fetchStats w in
    let '(interval, w2) := setInterval FetchStats 5000 w1 in
    set_statsInterval (Some interval) w2
  else w.

(** The two setters of [fetchStats]; the render that follows them is in
    [fetchStats_resume]. *)
Definition setStats (v : Val) (w : World) : World :=
  if is_mounted (phase w) then set_stats v w else w.

(** [setHistoricalData(prev => ...)]. *)
Definition setHistoricalData (f : list Val -> list Val) (w : World) : World :=
  if is_mounted (phase w) then set_historicalData (f (historicalData w)) w else w.

(** [arr.slice(-n)]: the last [n] elements, all of them when there are
    fewer. *)
Definition slice_last {A} (n : nat) (arr : list A) : list A :=
  drop (length arr - n)%nat arr.

Definition data_point (timestamp : string) (data : Val) : Val :=
  JObj [("time", JStr timestamp);
        ("waitTime", opt_prop data "average_wait_time");
        ("rideTime", opt_prop data "average_ride_time");
        ("totalTime", opt_prop data "average_total_time");
        ("completedTrips", opt_prop data "total_completed_trips");
        ("waitingPassengers", opt_prop data "total_waiting_passengers")].

(** ** App.js *)

(** [fetchEvents] up to its [await]: [api.getEvents(100)]. *)
Definition fetchEvents (w : World) : World :=
  api_getEvents (num_lit 100) (num_lit 0) w.

(** The events effect, dependencies [[isRunning]]. *)
Definition events_cleanup (w : World) : World :=
  match eventsInterval w with
  | Some interval =>
      set_eventsInterval None
        (if Nat.eqb interval 0 then w else clearInterval interval w)
  | None => w
  end.

Definition events_effect (w : World) : World :=
  if truthy (isRunning w) then
    let w1 := fetchEvents w in
    let '(interval, w2) := setInterval FetchEvents 2000 w1 in
    set_eventsInterval (Some interval) w2
  else set_eventsInterval None w.

(** The clean-up of the WebSocket effect of [App], and what React does
    when it takes the page down: the clean-ups of the three effects run. *)
Definition websocket_cleanup (w : World) : World :=
  match wsClientRef w with
  | Some client =>
      set_wsClientRef None
        (client_close client (console_log "Closing WebSocket connection on unmount" w))
  | None => w
  end.

Definition unmount (w : World) : World :=
  match phase w with
  | Mounted =>
      let w1 := websocket_cleanup w in
      let w2 := events_cleanup w1 in
      let w3 := statistics_cleanup w2 in
      set_phase Unmounted w3
  | _ => w
  end.

(** ** Rendering

    A render that throws takes the whole page down: no component of the
    sources is an error boundary. The functions below say, for each
    component, whether its render returns or throws on the state it is
    given. The charts of [Statistics] are drawn by a library that is not
    part of the sources; it is taken to draw whatever numbers it is
    given. [Controls] renders the running flag and its own form state;
    the form state is not part of the page. *)

(** [seconds.toFixed(1) + 's']: only a number has [toFixed]. *)
Definition formatTime_returns (seconds : Val) : bool :=
  match seconds with JNum _ => true | _ => false end.

(** [{value}] inside an element: React renders strings and numbers, skips
    booleans, [null] and [undefined], walks arrays, and throws on any
    other object. *)
Fixpoint valid_child (v : Val) : bool :=
  match v with
  | JObj _ => false
  | JArr xs => forallb valid_child xs
  | _ => true
  end.

(** ToNumber and a test on the result; [on_nan] answers for [undefined],
    whose number is NaN. *)
Definition number_test (test : Num -> bool) (on_nan : bool) (v : Val) : bool :=
  match v with
  | JUndefined => on_nan
  | JNull => test (num_lit 0)
  | JBool b => test (num_lit (if b then 1 else 0))
  | JNum n => test n
  | JStr s => test (str_to_num s)
  | JArr _ | JObj _ => test (str_to_num (to_string v))
  end.

(** [Array.from({ length }, ...)] returns: NaN counts as length 0. *)
Definition Array_from_returns (length : Val) : bool :=
  number_test num_valid_length true length.

(** [formatTime] of [EventStream]:
    [date.setSeconds(time); date.toISOString()] returns. *)
Definition toISOString_returns (time : Val) : bool :=
  number_test num_valid_seconds false time.

(** [Statistics]: the four [formatTime] calls and the two counters handed
    to [MetricCard] as children. *)
Definition Statistics_renders (stats simulationState : Val) : bool :=
  formatTime_returns (opt_prop stats "average_wait_time") &&
  formatTime_returns (opt_prop stats "average_ride_time") &&
  formatTime_returns (opt_prop stats "average_total_time") &&
  valid_child (opt_prop stats "total_completed_trips") &&
  valid_child (opt_prop stats "total_waiting_passengers") &&
  formatTime_returns (js_or (opt_prop simulationState "time") (JNum (num_lit 0))).

(** [Elevator]: [elevator.current_floor] is read first. *)
Definition Elevator_renders (elevator : Val) : bool :=
  match prop elevator "current_floor" with Some _ => true | None => false end.

(** [Building]: [Array.from({ length: totalFloors }, ...)], then
    [elevators.map(...)] with one [Elevator] per entry; only an array has
    [map]. *)
Definition Building_renders (b : BuildingState Num) : bool :=
  Array_from_returns (totalFloors b) &&
  match elevators b with
  | JArr xs => forallb Elevator_renders xs
  | _ => false
  end.

(** [EventStream], the type select: [events.map(event => event.type)],
    then [type.replace(...)] on every type; only a string has [replace].
    The default [events = []] stands in for [undefined]. *)
Definition has_string_type (event : Val) : bool :=
  match prop event "type" with Some (JStr _) => true | _ => false end.

Definition eventTypes_returns (events : Val) : bool :=
  match events with
  | JUndefined => true
  | JArr xs => forallb has_string_type xs
  | _ => false
  end.

(** [EventStream], one row of the list: [getEventTypeClass(event.type)],
    [formatTime(event.time)], [event.type.replace(...)] and
    [formatEventDetails(event)], whose only [toFixed] calls are those of a
    'passenger_arrived' event. *)
Definition row_renders (event : Val) : bool :=
  has_string_type event &&
  toISOString_returns (opt_prop event "time") &&
  (if strict_eq_str (opt_prop event "type") "passenger_arrived"
   then formatTime_returns (opt_prop event "wait_time") &&
        formatTime_returns (opt_prop event "ride_time")
   else true).

Definition EventStream_renders (events : Val) (filteredEvents : list Val) : bool :=
  eventTypes_returns events && forallb row_renders filteredEvents.

(** The children of [App] whose render reads the state of the page, in
    the order [App] renders them. *)
Definition page_renders (w : World) : bool :=
  Building_renders (building w) &&
  Statistics_renders (stats w) (simulationState w) &&
  EventStream_renders (events w) (filteredEvents w).

(** State updates are batched: React renders [next] once the handler has
    returned. When a render throws, nothing of [next] reaches the screen
    and the page that was [committed] is unmounted. *)
Definition rerender (committed next : World) : World :=
  if page_renders next then next else unmount committed.

(** ** State setters of App.js *)

(** The running flag only reaches [Controls], where it chooses a button
    and disables inputs: no render throws on it. *)
Definition setIsRunning (v : Val) (w : World) : World :=
  if is_mounted (phase w) then
    if same_value (isRunning w) v then w
    else events_effect (events_cleanup (set_isRunning v w))
  else w.

(** A new snapshot is rendered; then the effects that depend on it run,
    that of [Statistics] and that of [Building], whose three setters make
    [Building] render once more. *)
Definition setSimulationState (v : Val) (w : World) : World :=
  if is_mounted (phase w) then
    if same_value (simulationState w) v then w
    else
      let w1 := set_simulationState v w in
      if page_renders w1 then
        let w2 := statistics_effect (statistics_cleanup w1) in
        rerender w2 (set_building (Building_effect v (building w2)) w2)
      else unmount w
  else w.

(** The effect of [EventStream] with the type filter left at ['all'] and
    the search box empty: [events.slice(0, maxEvents)] with the default
    [maxEvents = 100], as [App] passes none. *)
Definition EventStream_shown (events : Val) : list Val :=
  match events with JArr xs => take 100 xs | _ => [] end.

(** A new event list is rendered; then the effect of [EventStream] hands
    the events to show to [setFilteredEvents], and [EventStream] renders
    once more. *)
Definition setEvents (v : Val) (w : World) : World :=
  if is_mounted (phase w) then
    if same_value (events w) v then w
    else
      let w1 := set_events v w in
      if page_renders w1 then rerender w1 (set_filteredEvents (EventStream_shown v) w1)
      else unmount w
  else w.

(** [fetchStats] from its [await] on; [timestamp] is what
    [new Date().toLocaleTimeString()] returns at that moment. Its two
    setters are rendered together. *)
Definition fetchStats_resume (timestamp : string) (o : Outcome) (w : World) : World :=
  match o with
  | Resolved data =>
      if truthy data then
        let w1 := setStats data w in
        let w2 := setHistoricalData
                    (fun prev => slice_last 20 (prev ++ [data_point timestamp data])) w1 in
        if is_mounted (phase w) then rerender w w2 else w2
      else w
  | Rejected e => console_error "Failed to fetch statistics:" (RequestFailed e) w
  end.


(** A handler either returns or throws; the page it leaves behind is kept
    in both cases. *)
Inductive Completion := Normal (w : World) | Abrupt (e : ErrorValue) (w : World).

Definition try_catch (body : Completion) (handler : ErrorValue -> World -> Completion)
  : Completion :=
  match body with
  | Normal w => Normal w
  | Abrupt e w => handler e w
  end.

Definition final (c : Completion) : World :=
  match c with Normal w | Abrupt _ w => w end.

(** The message callback of [App]:
    [(data) => { if (data.type === 'state_update') setSimulationState(data.data) }]. *)
Definition App_onMessage_call (data : Val) (w : World) : Completion :=
  match prop data "type" with
  | None => Abrupt TypeError w
  | Some type =>
      if strict_eq_str type "state_update" then
        match prop data "data" with
        | Some payload => Normal (setSimulationState payload w)
        | None => Abrupt TypeError w
        end
      else Normal w
  end.

(** The connect callback of [App]. *)
Definition App_onConnect_call (w : World) : World :=
  console_log "WebSocket connected" w.

(** The disconnect callback of [App]. *)
Definition App_onDisconnect_call (w : World) : World :=
  let w1 := console_log "WebSocket disconnected" w in
  snd (setTimeout Reconnect 3000 w1).

(** The callback of that timeout. *)
Definition reconnect_timeout (w : World) : World :=
  set_wsClientRef None (console_log "Attempting to reconnect WebSocket..." w).

(** [ws.onopen], [ws.onmessage], [ws.onclose] and [ws.onerror] as
    [createWebSocketClient] installs them on socket [s]. *)
Definition ws_onopen (s : Socket) (w : World) : World :=
  let w1 := console_log "WebSocket connection established" w in
  match onConnect s with
  | Some App_onConnect => App_onConnect_call w1
  | None => w1
  end.

Definition ws_onmessage (s : Socket) (raw : string) (w : World) : Completion :=
  try_catch
    (match JSON_parse raw with
     | None => Abrupt SyntaxError w
     | Some data =>
         match onMessage s with
         | Some App_onMessage => App_onMessage_call data w
         | None => Normal w
         end
     end)
    (fun error w' => Normal (console_error "Error parsing WebSocket message:" error w')).

Definition ws_onclose (s : Socket) (code reason : string) (w : World) : World :=
  let w1 := console_log ("WebSocket connection closed: " ++ code ++ " " ++ reason) w in
  let w2 := set_activeWebSocket None w1 in
  match onDisconnect s with
  | Some App_onDisconnect => App_onDisconnect_call w2
  | None => w2
  end.

Definition ws_onerror (w : World) : World :=
  console_error "WebSocket error:" ErrorEvent w.

(** The WebSocket effect of [App], dependencies [[]]. *)
Definition websocket_effect (w : World) : World :=
  match wsClientRef w with
  | None =>
      let '(client, w1) :=
        createWebSocketClient (Some App_onMessage) (Some App_onConnect)
          (Some App_onDisconnect) w in
      set_wsClientRef (Some client) w1
  | Some _ => w
  end.

(** [fetchStatus], before and after its [await]. *)
Definition fetchStatus (w : World) : World := api_getStatus w.

Definition fetchStatus_resume (o : Outcome) (w : World) : World :=
  final
    (try_catch
       (match o with
        | Resolved data =>
            match prop data "running" with
            | Some running => Normal (setIsRunning running w)
            | None => Abrupt TypeError w
            end
        | Rejected e => Abrupt (RequestFailed e) w
        end)
       (fun error w' =>
          Normal (console_error "Failed to fetch simulation status:" error w'))).

Definition fetchEvents_resume (o : Outcome) (w : World) : World :=
  match o with
  | Resolved data =>
      if truthy data && truthy (opt_prop data "events")
      then setEvents (opt_prop data "events") w
      else w
  | Rejected e => console_error "Failed to fetch events:" (RequestFailed e) w
  end.

(** [error.response?.data?.detail]. *)
Definition error_detail (e : HttpError) : Val :=
  match response e with
  | None => JUndefined
  | Some data => opt_prop data "detail"
  end.

(** ['<prefix>' + error.response?.data?.detail || error.message]: [+] binds
    tighter than [||]. *)
Definition failure_message (prefix : string) (e : HttpError) : Val :=
  js_or (JStr (prefix ++ to_string (error_detail e))) (JStr (message e)).

Definition handleStartSimulation (config : Val) (w : World) : World :=
  api_startSimulation config w.

Definition handleStartSimulation_resume (o : Outcome) (w : World) : World :=
  match o with
  | Resolved _ => setIsRunning (JBool true) w
  | Rejected e =>
      alert (failure_message "Failed to start simulation: " e)
        (console_error "Failed to start simulation:" (RequestFailed e) w)
  end.

Definition handleStopSimulation (w : World) : World := api_stopSimulation w.

Definition handleStopSimulation_resume (o : Outcome) (w : World) : World :=
  match o with
  | Resolved _ => setIsRunning (JBool false) w
  | Rejected e => console_error "Failed to stop simulation:" (RequestFailed e) w
  end.

Definition handleResetSimulation (w : World) : World := api_resetSimulation w.

Definition handleResetSimulation_resume (o : Outcome) (w : World) : World :=
  match o with
  | Resolved _ => setSimulationState JNull (setEvents (JArr []) w)
  | Rejected e => console_error "Failed to reset simulation:" (RequestFailed e) w
  end.

Definition handleConfigUpdate (config : Val) (w : World) : World :=
  api_updateConfiguration config w.

Definition handleConfigUpdate_resume (o : Outcome) (w : World) : World :=
  match o with
  | Resolved _ => w
  | Rejected e => console_error "Failed to update configuration:" (RequestFailed e) w
  end.

Definition handleCallElevator (floor direction : Val) (w : World) : World :=
  api_pressButton floor direction w.

Definition handleCallElevator_resume (o : Outcome) (w : World) : World :=
  match o with
  | Resolved _ => w
  | Rejected e => console_error "Failed to call elevator:" (RequestFailed e) w
  end.

(** ** Controls.jsx *)

(** The [customPassenger] state: [parseInt] of the two select boxes. *)
Record Passenger := { start_floor : Num; destination_floor : Num }.

(** [loadConfig], before and after its [await] (the configuration form
    itself is not modelled). *)
Definition loadConfig (w : World) : World := api_getConfiguration w.

Definition loadConfig_resume (o : Outcome) (w : World) : World :=
  match o with
  | Resolved _ => w
  | Rejected e => console_error "Failed to load configuration:" (RequestFailed e) w
  end.

(** [handleAddPassenger] up to its first [return] or [await]. *)
Definition handleAddPassenger (customPassenger : Passenger) (w : World) : World :=
  if num_strict_eq (start_floor customPassenger) (destination_floor customPassenger)
  then alert (JStr "Start and destination floors must be different") w
  else api_addPassenger (JNum (start_floor customPassenger))
         (JNum (destination_floor customPassenger)) w.

Definition handleAddPassenger_resume (o : Outcome) (w : World) : World :=
  match o with
  | Resolved _ => w
  | Rejected e =>
      alert (failure_message "Failed to add passenger: " e)
        (console_error "Failed to add passenger:" (RequestFailed e) w)
  end.

(** ** The page as a transition system *)

Inductive Continuation :=
| After_loadConfig | After_fetchStatus | After_fetchEvents
| After_fetchStats (timestamp : string)
| After_start | After_stop | After_reset | After_configUpdate
| After_callElevator | After_addPassenger.

(** What can happen to the page: React mounts or unmounts the tree, the
    browser delivers a socket event, time passes, a due timer fires, an
    awaited request settles, the user acts. *)
Inductive Event :=
| Mount
| Unmount
| SockOpen (i : nat)
| SockMessage (i : nat) (raw : string)
| SockError (i : nat)
| SockClose (i : nat) (code reason : string)
| Advance (ms : N)
| Fire (id : nat)
| Settle (k : Continuation) (o : Outcome)
| ClickStart (config : Val)
| ClickStop
| ClickReset
| SubmitConfig (config : Val)
| CallElevator (floor direction : Val)
| SubmitPassenger (customPassenger : Passenger).

(** First render: the effects of the children run before those of [App]. *)
Definition mount (w : World) : World :=
  match phase w with
  | Fresh =>
      let w1 := set_phase Mounted w in
      let w2 := loadConfig w1 in
      let w3 := statistics_effect w2 in
      let w4 := websocket_effect w3 in
      let w5 := fetchStatus w4 in
      events_effect w5
  | _ => w
  end.

Definition run_timer (a : TimerAction) (w : World) : World :=
  match a with
  | Reconnect => reconnect_timeout w
  | FetchEvents => fetchEvents w
  | FetchStats => fetchStats w
  end.

(** A timer fires only once its delay has elapsed; a timeout is then
    dropped from the table, an interval is re-armed. *)
Definition fire (id : nat) (w : World) : World :=
  match timers w !! id with
  | Some t =>
      if Z.leb (due t) (clock w) then
        let table :=
          match period t with
          | Some p => <[id := {| due := clock w + p; period := Some p; action := action t |}]>
                        (timers w)
          | None => delete id (timers w)
          end in
        run_timer (action t) (set_timers table w)
      else w
  | None => w
  end.

Definition settle (k : Continuation) (o : Outcome) (w : World) : World :=
  match k with
  | After_loadConfig => loadConfig_resume o w
  | After_fetchStatus => fetchStatus_resume o w
  | After_fetchEvents => fetchEvents_resume o w
  | After_fetchStats timestamp => fetchStats_resume timestamp o w
  | After_start => handleStartSimulation_resume o w
  | After_stop => handleStopSimulation_resume o w
  | After_reset => handleResetSimulation_resume o w
  | After_configUpdate => handleConfigUpdate_resume o w
  | After_callElevator => handleCallElevator_resume o w
  | After_addPassenger => handleAddPassenger_resume o w
  end.

Definition set_socket (i : nat) (r : ReadyState) (s : Socket) (w : World) : World :=
  set_sockets (<[i := set_readyState r s]> (sockets w)) w.

Definition user (handler : World -> World) (w : World) : World :=
  if is_mounted (phase w) then handler w else w.

Definition step (e : Event) (w : World) : World :=
  match e with
  | Mount => mount w
  | Unmount => unmount w
  | SockOpen i =>
      match sockets w !! i with
      | Some s =>
          match readyState s with
          | CONNECTING => ws_onopen s (set_socket i OPEN s w)
          | _ => w
          end
      | None => w
      end
  | SockMessage i raw =>
      match sockets w !! i with
      | Some s =>
          match readyState s with
          | OPEN => final (ws_onmessage s raw w)
          | _ => w
          end
      | None => w
      end
  | SockError i =>
      match sockets w !! i with
      | Some s =>
          match readyState s with
          | CLOSED => w
          | _ => ws_onerror w
          end
      | None => w
      end
  | SockClose i code reason =>
      match sockets w !! i with
      | Some s =>
          match readyState s with
          | CLOSED => w
          | _ => ws_onclose s code reason (set_socket i CLOSED s w)
          end
      | None => w
      end
  | Advance ms => set_clock (clock w + Z.of_N ms) w
  | Fire id => fire id w
  | Settle k o => settle k o w
  | ClickStart config => user (handleStartSimulation config) w
  | ClickStop => user handleStopSimulation w
  | ClickReset => user handleResetSimulation w
  | SubmitConfig config => user (handleConfigUpdate config) w
  | CallElevator floor direction => user (handleCallElevator floor direction) w
  | SubmitPassenger customPassenger => user (handleAddPassenger customPassenger) w
  end.

Definition run (trace : list Event) (w : World) : World :=
  fold_left (fun w' e => step e w') trace w.

Definition reachable (w : World) : Prop := exists trace, w = run trace init.

(** ** Vocabulary of the properties *)

(** The envelope kind of a raw frame is ['state_update']; its payload is
    the [data] field. *)
Definition is_state_update (raw : string) : bool :=
  match JSON_parse raw with
  | Some envelope =>
      match prop envelope "type" with
      | Some kind => strict_eq_str kind "state_update"
      | None => false
      end
  | None => false
  end.

Definition payload_of (raw : string) : Val :=
  match JSON_parse raw with
  | Some envelope => opt_prop envelope "data"
  | None => JUndefined
  end.

(** Poll requests in the network log. *)
Definition is_events_poll (r : Request) : bool :=
  String.eqb (method r) "GET" && String.prefix "/events" (url r).

Definition is_stats_poll (r : Request) : bool :=
  String.eqb (method r) "GET" && String.eqb (url r) "/stats".

Definition events_polls (w : World) : list Request :=
  List.filter is_events_poll (requests w).
Definition stats_polls (w : World) : list Request :=
  List.filter is_stats_poll (requests w).

(** The two poll requests the timers issue. *)
Definition events_poll : Request :=
  {| method := "GET";
     url := "/events?limit=" ++ num_show (num_lit 100) ++ "&skip=" ++ num_show (num_lit 0);
     body := JUndefined |}.

Definition stats_poll : Request :=
  {| method := "GET"; url := "/stats"; body := JUndefined |}.

(** Some live timer runs callback [a]. *)
Definition timer_live (a : TimerAction) (w : World) : Prop :=
  exists id t, timers w !! id = Some t /\ action t = a.

Definition running (w : World) : bool := truthy (isRunning w).

(** Every socket was built with the callbacks of [App]. *)
Definition app_socket (s : Socket) : Prop :=
  onMessage s = Some App_onMessage /\ onConnect s = Some App_onConnect /\
  onDisconnect s = Some App_onDisconnect.


(** Handle [h] names the one live timer that runs callback [a], if there
    is such a timer at all. *)
Definition owns (table : gmap nat Timer) (a : TimerAction) (h : option nat) : Prop :=
  (forall id, h = Some id -> exists t, table !! id = Some t /\ action t = a) /\
  (forall id t, table !! id = Some t -> action t = a -> h = Some id).

(** Live handles are positive and below the next one to be handed out. *)
Definition handles_below (table : gmap nat Timer) (next : nat) : Prop :=
  (0 < next)%nat /\ forall id t, table !! id = Some t -> (0 < id < next)%nat.

(** The timeouts are the reconnect timers, the intervals are the polls. *)
Definition well_kinded (table : gmap nat Timer) : Prop :=
  forall id t, table !! id = Some t -> (period t = None <-> action t = Reconnect).

(** The timer table agrees with the two handles the components hold. *)
Definition table_ok (w : World) : Prop :=
  handles_below (timers w) (nextTimer w) /\ well_kinded (timers w) /\
  owns (timers w) FetchEvents (eventsInterval w) /\
  owns (timers w) FetchStats (statsInterval w).

(** [w'] has the component state and the sockets of [w]. *)
Definition same_components (w w' : World) : Prop :=
  phase w' = phase w /\ isRunning w' = isRunning w /\
  simulationState w' = simulationState w /\ sockets w' = sockets w.

(** [w'] has the running flag of [w], and no events poll was issued in
    between. *)
Definition quiet (w w' : World) : Prop :=
  isRunning w' = isRunning w /\ events_polls w' = events_polls w.

(** The timer and polling invariant of the page. *)
Record timer_invariant (w : World) : Prop := {
  table : table_ok w;
  events_gate : is_Some (eventsInterval w) <->
                  phase w = Mounted /\ truthy (isRunning w) = true;
  stats_gate : is_Some (statsInterval w) <->
                 phase w = Mounted /\ statistics_guard (simulationState w) = true;
  sockets_of_app : Forall app_socket (sockets w)
}.

End Model.

Arguments Request Num : clear implicits.
Arguments HttpError Num : clear implicits.
Arguments ErrorValue Num : clear implicits.
Arguments LogEntry Num : clear implicits.
Arguments Outcome Num : clear implicits.
Arguments World Num : clear implicits.
Arguments Completion Num : clear implicits.
Arguments Event Num : clear implicits.
Arguments Passenger Num : clear implicits.

(** * Relations between pages, and the components that draw them *)

Section Relations.
Context {Num : Type} `{JsNumber Num} `{JsonParser Num} {limits : JsLimits Num}.
Abbreviation Val := (JsVal Num).

(** What the renders of a page read, with its life-cycle phase. *)
Definition drawing (w : World Num) :=
  (building w, stats w, simulationState w, events w, filteredEvents w).

Definition on_screen (w : World Num) := (phase w, drawing w).

(** A page that has not been taken down renders. *)
Definition renders_ok (w : World Num) : Prop :=
  phase w <> Unmounted -> page_renders w = true.

(** A snapshot the page can draw: [Statistics] can format its time, and
    [Building], handed the snapshot, can draw its floors and elevators. *)
Definition drawable (v : Val) : bool :=
  Statistics_renders initial_stats v &&
  Building_renders (Building_effect v Building_initial).

(** An event list the page can show: the type select can be built from
    it, and the rows of the events that are shown can be drawn. *)
Definition listable (v : Val) : bool :=
  EventStream_renders v (EventStream_shown v).

(** The requests and alerts of a page, the state of [App] and of
    [Statistics], and the clock: what the taking down of the page keeps. *)
Definition kept (w : World Num) :=
  (requests w, alerts w, isRunning w, simulationState w, events w, stats w,
   historicalData w, clock w).





(** [w'] differs from [w] at most in the timer table, the two interval
    handles and the network log. *)
Definition only_polling (w w' : World Num) : Prop :=
  activeWebSocket w' = activeWebSocket w /\ sockets w' = sockets w /\
  clock w' = clock w /\ console w' = console w /\ alerts w' = alerts w /\
  phase w' = phase w /\ isRunning w' = isRunning w /\
  simulationState w' = simulationState w /\ events w' = events w /\
  wsClientRef w' = wsClientRef w /\ stats w' = stats w /\
  historicalData w' = historicalData w.

(** The state of the components: what the user sees rendered. *)
Definition same_view (w w' : World Num) : Prop :=
  phase w' = phase w /\ isRunning w' = isRunning w /\
  simulationState w' = simulationState w /\ events w' = events w /\
  stats w' = stats w /\ historicalData w' = historicalData w.

(** The three texts [alert] is ever called with. *)
Definition alert_shape (a : string) : bool :=
  String.eqb a "Start and destination floors must be different"
  || String.prefix "Failed to start simulation: " a
  || String.prefix "Failed to add passenger: " a.

(** A socket that is connecting or open. *)
Definition live (s : Socket) : bool :=
  match readyState s with CONNECTING | OPEN => true | CLOSING | CLOSED => false end.

(** The connection invariant of the page: nothing is built before [App]
    mounts, one socket exists from then on, and while it is live [App] is
    mounted, holds its client and has no reconnect timeout pending. *)
Record socket_invariant (w : World Num) : Prop := {
  before_mount : phase w = Fresh ->
                 sockets w = [] /\ wsClientRef w = None /\ activeWebSocket w = None /\
                 ~ timer_live Reconnect w;
  one_socket : phase w <> Fresh -> length (sockets w) = 1%nat;
  while_live : forall s, sockets w !! 0%nat = Some s -> live s = true ->
               phase w = Mounted /\ wsClientRef w = Some {| client_ws := 0 |} /\
               activeWebSocket w = Some {| client_ws := 0 |} /\
               ~ timer_live Reconnect w
}.

(** The page has been mounted and its one socket is closing or closed. *)
Definition disconnected (w : World Num) : Prop :=
  phase w <> Fresh /\ exists s, sockets w = [s] /\ live s = false.

(** A request to [/passengers] carries two floors that are not strictly
    equal. *)
Definition sound_request (r : Request Num) : Prop :=
  url r = "/passengers" ->
  exists a b, body r = JObj [("start_floor", JNum a); ("destination_floor", JNum b)] /\
              num_strict_eq a b = false.

(** From [w] to [w'] the network log and the list of alerts were only
    appended to, with sound requests and alerts of the three shapes. *)
Definition grows (w w' : World Num) : Prop :=
  exists rs al, requests w' = (requests w ++ rs)%list /\ alerts w' = (alerts w ++ al)%list /\
                Forall sound_request rs /\ Forall (fun a => alert_shape a = true) al.

(** [w'] has the sockets, the clients and the life-cycle phase of [w], and
    no reconnect timeout that [w] did not have. *)
Definition same_connection (w w' : World Num) : Prop :=
  sockets w' = sockets w /\ wsClientRef w' = wsClientRef w /\
  activeWebSocket w' = activeWebSocket w /\ phase w' = phase w /\
  (timer_live Reconnect w' -> timer_live Reconnect w).

(** [w'] has the connection of [w], or it is what is left of such a page
    once a render has thrown and React has taken the page down. *)
Definition connection_or_unmount (w w' : World Num) : Prop :=
  same_connection w w' \/ exists w0, same_connection w w0 /\ w' = unmount w0.

(** The delay each callback is scheduled with: the polls repeat, the
    reconnect timeout runs once. *)
Definition period_of (a : TimerAction) : option Z :=
  match a with
  | Reconnect => None
  | FetchEvents => Some 2000
  | FetchStats => Some 5000
  end.

Definition request_of (a : TimerAction) : list (Request Num) :=
  match a with
  | Reconnect => []
  | FetchEvents => [events_poll]
  | FetchStats => [stats_poll]
  end.

(** Every live timer has the period of its callback. *)
Definition periodic (w : World Num) : Prop :=
  forall id t, timers w !! id = Some t -> period t = period_of (action t).

End Relations.

(** ** EventStream.jsx *)

(** [JSON.stringify], [String.prototype.toLowerCase] and
    [String.prototype.includes] are the browser's. [JSON.stringify] returns
    [undefined] for [undefined]: that is [None] here. *)
Class JsText (Num : Type) := {
  JSON_stringify : JsVal Num -> option string;
  toLowerCase : string -> string;
  includes : string -> string -> bool
}.

Section EventStream.
Context {Num : Type} `{JsNumber Num} `{JsText Num}.

(** [xs.filter(f)] with a callback that may throw: the elements are visited
    in order and the first exception ends the call. *)
Fixpoint Array_filter (f : JsVal Num -> option bool) (xs : list (JsVal Num))
    : option (list (JsVal Num)) :=
  match xs with
  | [] => Some []
  | x :: rest =>
      match f x with
      | None => None
      | Some keep =>
          match Array_filter f rest with
          | None => None
          | Some kept => Some (if keep then x :: kept else kept)
          end
      end
  end.

(** [event => event.type === filter]. *)
Definition has_type (filter : string) (event : JsVal Num) : option bool :=
  match prop event "type" with
  | Some type => Some (strict_eq_str type filter)
  | None => None
  end.

(** [event => JSON.stringify(event).toLowerCase().includes(term)]. *)
Definition mentions (term : string) (event : JsVal Num) : option bool :=
  match JSON_stringify event with
  | Some text => Some (includes (toLowerCase text) term)
  | None => None
  end.

(** The effect of [EventStream] up to [setFilteredEvents], for an array
    [events] and a count [maxEvents]: the list it hands to
    [setFilteredEvents], or [None] when it throws a TypeError. The render
    of [EventStream] comes before its effect and reads the type of every
    event ([eventTypes_returns]), so on the page the effect only runs on
    events that have one. *)
Definition EventStream_effect (events : list (JsVal Num)) (filter searchTerm : string)
    (maxEvents : nat) : option (list (JsVal Num)) :=
  match (if negb (String.eqb filter "all")
         then Array_filter (has_type filter) events
         else Some events) with
  | None => None
  | Some by_type =>
      match (if negb (String.eqb searchTerm "")
             then Array_filter (mentions (toLowerCase searchTerm)) by_type
             else Some by_type) with
      | None => None
      | Some by_term => Some (take maxEvents by_term)
      end
  end.

End EventStream.

(** ** Building.jsx, and the floor options of Controls.jsx *)

(** The rendering of [Building] and of the floor selects of [Controls] when
    the number of floors is an integer. *)

(** [Array.from({ length }, (_, i) => f i)] for an integer [length]:
    a negative length counts as zero, and a length above [2^32 - 1] raises
    a RangeError ([None]). *)
Definition Array_from {A} (length : Z) (f : Z -> A) : option (list A) :=
  if 2 ^ 32 - 1 <? length then None else Some (f <$> seqZ 0 length).

(** [floors] of [Building]: top to bottom. *)
Definition floors (totalFloors : Z) : option (list Z) :=
  Array_from totalFloors (fun i => totalFloors - i).

(** [floorOptions] of [Controls]. *)
Definition floorOptions (num_floors : Z) : option (list Z) :=
  Array_from num_floors (fun i => i + 1).

Definition floorHeight : Z := 48.

(** [top] of the guide line of a floor, and of an elevator standing at it. *)
Definition topPosition (totalFloors current_floor : Z) : Z :=
  (totalFloors - current_floor) * floorHeight.

Definition showUpButton (floorNumber totalFloors : Z) : bool := floorNumber <? totalFloors.
Definition showDownButton (floorNumber : Z) : bool := 1 <? floorNumber.

(** The calls [onCallElevator(floorNumber, direction)] that the buttons of
    one [Floor] can make, and those of the whole building. *)
Definition Floor_calls (floorNumber totalFloors : Z) : list (Z * string) :=
  ((if showUpButton floorNumber totalFloors then [(floorNumber, "up")] else []) ++
   (if showDownButton floorNumber then [(floorNumber, "down")] else []))%list.

Definition Building_calls (totalFloors : Z) : option (list (Z * string)) :=
  match floors totalFloors with
  | Some rows => Some (concat ((fun floorNumber => Floor_calls floorNumber totalFloors) <$> rows))
  | None => None
  end.

(** ** A concrete host, to run the model

    Integers with a NaN, and a parser that knows the frames used in the
    examples below. *)
Module Sample.

Inductive IntOrNaN := NaN | Int (z : Z).

Definition show (n : IntOrNaN) : string :=
  match n with
  | NaN => "NaN"
  | Int z => DecimalString.NilZero.string_of_int (Z.to_int z)
  end.

Definition of_string (s : string) : IntOrNaN :=
  if String.eqb s "" then Int 0
  else match DecimalString.NilZero.int_of_string s with
       | Some d => Int (Z.of_int d)
       | None => NaN
       end.

Definition same (n m : IntOrNaN) : bool :=
  match n, m with
  | NaN, NaN => true
  | Int a, Int b => Z.eqb a b
  | _, _ => false
  end.

Definition strict_eq (n m : IntOrNaN) : bool :=
  match n, m with
  | Int a, Int b => Z.eqb a b
  | _, _ => false
  end.

Definition gt0 (n : IntOrNaN) : bool :=
  match n with Int z => Z.ltb 0 z | NaN => false end.

Definition nonzero (n : IntOrNaN) : bool :=
  match n with Int z => negb (Z.eqb z 0) | NaN => false end.

Definition same_eq (n m : IntOrNaN) : same n m = true -> n = m.
Proof.
  destruct n as [|a], m as [|b]; simpl; try discriminate; try reflexivity.
  intros E. apply Z.eqb_eq in E. now subst.
Defined.

#[export] Instance number : JsNumber IntOrNaN :=
  {| num_truthy := nonzero; num_gt0 := gt0; num_strict_eq := strict_eq;
     num_same := same; num_show := show; str_to_num := of_string;
     num_lit := Int; num_same_eq := same_eq |}.

(** [Array.from] accepts lengths up to [2^32 - 1], and a date holds up to
    8.64e15 milliseconds on either side of the epoch. *)
Definition valid_length (n : IntOrNaN) : bool :=
  match n with Int z => Z.leb z (2 ^ 32 - 1) | NaN => true end.

Definition valid_seconds (n : IntOrNaN) : bool :=
  match n with
  | Int z => Z.leb (- 8640000000000) z && Z.leb z 8640000000000
  | NaN => false
  end.

#[export] Instance limits : JsLimits IntOrNaN :=
  {| num_valid_length := valid_length; num_valid_seconds := valid_seconds;
     valid_length_25 := eq_refl |}.

Definition dq : string := String (ascii_of_nat 34) EmptyString.
Definition quoted (s : string) : string := dq ++ s ++ dq.

(** The text [{"type":"state_update","data":{"time":t}}] and its value. *)
Definition update_text (t : Z) : string :=
  "{" ++ quoted "type" ++ ":" ++ quoted "state_update" ++ "," ++ quoted "data" ++ ":{"
      ++ quoted "time" ++ ":" ++ show (Int t) ++ "}}".

Definition snapshot (t : Z) : JsVal IntOrNaN := JObj [("time", JNum (Int t))].

Definition update_value (t : Z) : JsVal IntOrNaN :=
  JObj [("type", JStr "state_update"); ("data", snapshot t)].

(** The text [{"type":"state_update","data":{"time":"5"}}], a state
    update whose time is a string, and its payload. *)
Definition bad_update_text : string :=
  "{" ++ quoted "type" ++ ":" ++ quoted "state_update" ++ "," ++ quoted "data" ++ ":{"
      ++ quoted "time" ++ ":" ++ quoted "5" ++ "}}".

Definition bad_snapshot : JsVal IntOrNaN := JObj [("time", JStr "5")].

(** The text [{"type":"ping"}]. *)
Definition ping_text : string := "{" ++ quoted "type" ++ ":" ++ quoted "ping" ++ "}".

Definition parse_table : list (string * JsVal IntOrNaN) :=
  [(update_text 0, update_value 0); (update_text 5, update_value 5);
   (update_text 9, update_value 9);
   (bad_update_text, JObj [("type", JStr "state_update"); ("data", bad_snapshot)]);
   (ping_text, JObj [("type", JStr "ping")]);
   ("null", JNull)].

Fixpoint lookup_text (s : string) (table : list (string * JsVal IntOrNaN))
  : option (JsVal IntOrNaN) :=
  match table with
  | [] => None
  | (text, v) :: rest => if String.eqb s text then Some v else lookup_text s rest
  end.

#[export] Instance parser : JsonParser IntOrNaN := fun s => lookup_text s parse_table.

Definition world0 : World IntOrNaN := init.


(** A body of [GET /stats] whose averages are [null]. *)
Definition null_stats_body : JsVal IntOrNaN :=
  JObj [("average_wait_time", JNull);
        ("average_ride_time", JNull);
        ("average_total_time", JNull);
        ("total_completed_trips", JNum (Int 0));
        ("total_waiting_passengers", JNum (Int 0))].


Definition network_error : HttpError IntOrNaN :=
  {| message := "Network Error"; response := None |}.


(** [App] mounted and its socket open. *)
Definition connected : World IntOrNaN := run [Mount; SockOpen 0] world0.

(** The socket of [connected]. *)
Definition socket0 : Socket :=
  {| readyState := OPEN; onMessage := Some App_onMessage;
     onConnect := Some App_onConnect; onDisconnect := Some App_onDisconnect |}.

Definition client0 : Client := {| client_ws := 0 |}.

(** A body of [GET /events], and one without the [events] field. *)
Definition new_passenger_event : JsVal IntOrNaN :=
  JObj [("type", JStr "new_passenger"); ("time", JNum (Int 3))].

Definition events_body : JsVal IntOrNaN := JObj [("events", JArr [new_passenger_event])].



(** [JSON.stringify] for values without [undefined] inside and strings
    without characters to escape, and the ASCII part of [toLowerCase]. *)
Fixpoint text_of (v : JsVal IntOrNaN) : string :=
  match v with
  | JUndefined | JNull => "null"
  | JBool true => "true"
  | JBool false => "false"
  | JNum NaN => "null"
  | JNum n => show n
  | JStr s => quoted s
  | JArr xs =>
      "[" ++ (fix join (ys : list (JsVal IntOrNaN)) : string :=
                match ys with
                | [] => ""
                | y :: ys' => text_of y ++ (match ys' with [] => "" | _ => "," ++ join ys' end)
                end) xs ++ "]"
  | JObj props =>
      "{" ++ (fix join (ps : list (string * JsVal IntOrNaN)) : string :=
                match ps with
                | [] => ""
                | (k, x) :: ps' =>
                    quoted k ++ ":" ++ text_of x
                    ++ (match ps' with [] => "" | _ => "," ++ join ps' end)
                end) props ++ "}"
  end.

Definition stringify (v : JsVal IntOrNaN) : option string :=
  match v with JUndefined => None | _ => Some (text_of v) end.

Definition lower_ascii (c : ascii) : ascii :=
  let n := nat_of_ascii c in
  if ((65 <=? n) && (n <=? 90))%nat then ascii_of_nat (n + 32) else c.

Fixpoint lower (s : string) : string :=
  match s with
  | EmptyString => EmptyString
  | String c rest => String (lower_ascii c) (lower rest)
  end.

Fixpoint contains (s term : string) : bool :=
  String.prefix term s ||
  match s with
  | EmptyString => false
  | String _ rest => contains rest term
  end.

#[export] Instance text : JsText IntOrNaN :=
  {| JSON_stringify := stringify; toLowerCase := lower; includes := contains |}.

(** [connected] once the status request has answered that the simulation
    is running: the events poll is on. *)
Definition polling : World IntOrNaN :=
  step (Settle After_fetchStatus (Resolved (JObj [("running", JBool true)]))) connected.

(** [connected] once a snapshot was pushed: the statistics poll is on. *)
Definition pushed : World IntOrNaN := step (SockMessage 0 (update_text 5)) connected.

(** [polling] once a snapshot was pushed: both polls are on. *)
Definition watching : World IntOrNaN := step (SockMessage 0 (update_text 5)) polling.

(** [watching] once an events poll has brought an event. *)
Definition busy : World IntOrNaN :=
  step (Settle After_fetchEvents (Resolved events_body)) watching.


(** Two calls of [createWebSocketClient] in a row. *)
Definition twice : World IntOrNaN :=
  snd (createWebSocketClient None None None
         (snd (createWebSocketClient None None None world0))).

Definition event_list : list (JsVal IntOrNaN) :=
  [JObj [("type", JStr "new_passenger"); ("start_floor", JNum (Int 3))];
   JObj [("type", JStr "button_press"); ("floor", JNum (Int 3))];
   JObj [("type", JStr "new_passenger"); ("Start_Floor", JNum (Int 7))]].

End Sample.

(** * Properties *)

Section Properties.
Context {Num : Type} `{JsNumber Num} `{JsonParser Num} {limits : JsLimits Num}.

(** ** Values and state setters *)

Lemma same_value_eq (a b : JsVal Num) : same_value a b = true -> a = b.
Proof.
  destruct a, b; simpl; try discriminate; try reflexivity; intros E.
  - apply Bool.eqb_prop in E. now subst.
  - apply num_same_eq in E. now subst.
  - apply String.eqb_eq in E. now subst.
Qed.

Lemma truthy_prop (v : JsVal Num) (k : string) :
  truthy v = true -> prop v k = Some (opt_prop v k).
Proof. unfold opt_prop. destruct v; simpl; try discriminate; reflexivity. Qed.

(** ** Rendering and unmounting *)

Lemma unmount_phase (w : World Num) : phase w = Mounted -> phase (unmount w) = Unmounted.
Proof. intros M. unfold unmount. now rewrite M. Qed.

Lemma unmount_phase_neq (w : World Num) : phase (unmount w) = Mounted -> False.
Proof. unfold unmount. destruct (phase w) eqn:P; simpl; congruence. Qed.

(** [Statistics] renders when its statistics format and the time of the
    snapshot formats. *)
Lemma Statistics_renders_split (stats ss : JsVal Num) :
  Statistics_renders stats ss
  = Statistics_renders stats JNull && Statistics_renders initial_stats ss.
Proof.
  unfold Statistics_renders. cbn.
  destruct (formatTime_returns (opt_prop stats "average_wait_time"));
    destruct (formatTime_returns (opt_prop stats "average_ride_time"));
    destruct (formatTime_returns (opt_prop stats "average_total_time"));
    destruct (valid_child (opt_prop stats "total_completed_trips"));
    destruct (valid_child (opt_prop stats "total_waiting_passengers"));
    reflexivity.
Qed.

Lemma Building_effect_overwrites (v : JsVal Num) (b b' : BuildingState Num) :
  truthy v = true -> Building_effect v b = Building_effect v b'.
Proof. intros T. unfold Building_effect. now rewrite T. Qed.

Lemma Building_initial_renders : Building_renders (Num := Num) Building_initial = true.
Proof. unfold Building_renders. cbn. now rewrite valid_length_25. Qed.

Lemma init_renders : page_renders (Num := Num) init = true.
Proof.
  unfold page_renders. cbn [building stats simulationState events filteredEvents init].
  now rewrite Building_initial_renders.
Qed.

(** ** The state setters *)

(** The four ways [setSimulationState] can end: nothing to do; the first
    render throws; the render of [Building] after its effect throws; the
    snapshot, the statistics timer and [Building] are all updated. *)
Lemma setSimulationState_cases (v : JsVal Num) (w : World Num) :
  let w2 := statistics_effect (statistics_cleanup (set_simulationState v w)) in
  let w3 := set_building (Building_effect v (building w2)) w2 in
  setSimulationState v w = w \/
  (phase w = Mounted /\ same_value (simulationState w) v = false /\
   (setSimulationState v w = unmount w \/
    setSimulationState v w = unmount w2 \/
    (page_renders w3 = true /\ setSimulationState v w = w3))).
Proof.
  cbv zeta. unfold setSimulationState, rerender.
  destruct (phase w) eqn:M; cbn [is_mounted]; auto.
  destruct (same_value (simulationState w) v); auto.
  right. split; [reflexivity|]. split; [reflexivity|].
  destruct (page_renders (set_simulationState v w)); auto.
  destruct (page_renders _) eqn:R; auto.
Qed.

Lemma statistics_pair_app (w : World Num) :
  let w' := statistics_effect (statistics_cleanup w) in
  phase w' = phase w /\ sockets w' = sockets w /\ isRunning w' = isRunning w /\
  events w' = events w /\ historicalData w' = historicalData w /\
  alerts w' = alerts w /\ wsClientRef w' = wsClientRef w /\
  activeWebSocket w' = activeWebSocket w /\ simulationState w' = simulationState w /\
  building w' = building w /\ stats w' = stats w /\
  filteredEvents w' = filteredEvents w /\ console w' = console w /\ clock w' = clock w.
Proof.
  cbv zeta. unfold statistics_effect, statistics_cleanup.
  destruct (statsInterval w); cbn; destruct (statistics_guard _); cbn; tauto.
Qed.


(** The snapshots a page can draw: [Statistics] can format the time, and
    [Building], given the snapshot, can draw its floors and elevators. A
    page that is on screen stays on screen when it is given one. *)
Lemma setSimulationState_drawable (v : JsVal Num) (w : World Num) :
  phase w = Mounted -> page_renders w = true -> drawable v = true ->
  let w' := setSimulationState v w in
  phase w' = Mounted /\ page_renders w' = true /\ simulationState w' = v /\
  (same_value (simulationState w) v = false ->
   w' = set_building (Building_effect v (building w))
          (statistics_effect (statistics_cleanup (set_simulationState v w)))).
Proof.
  intros M R D. cbv zeta.
  assert (V : same_value (simulationState w) v = true ->
              simulationState w = v) by apply same_value_eq.
  unfold setSimulationState, rerender. rewrite M. cbn [is_mounted].
  destruct (same_value (simulationState w) v); [split_and!; auto; discriminate|].
  clear V.
  pose proof (statistics_pair_app (set_simulationState v w)) as F. cbv zeta in F.
  destruct F as (Fp & _ & _ & Fe & _ & _ & _ & _ & Fs & Fb & Ft & Ff & _).
  cbn in Fp, Fe, Fs, Fb, Ft, Ff.
  unfold drawable in D. apply andb_true_iff in D as [D1 D2].
  unfold page_renders in R. apply andb_true_iff in R as [R R3].
  apply andb_true_iff in R as [R1 R2].
  rewrite Statistics_renders_split in R2. apply andb_true_iff in R2 as [R2 _].
  assert (R' : page_renders (set_simulationState v w) = true).
  { unfold page_renders. cbn. rewrite R1, R3, Statistics_renders_split, R2, D1. reflexivity. }
  rewrite R', Fb.
  assert (B : Building_renders (Building_effect v (building w)) = true).
  { destruct (truthy v) eqn:T.
    - now rewrite (Building_effect_overwrites v _ Building_initial T).
    - unfold Building_effect. now rewrite T. }
  assert (R'' : page_renders
                  (set_building (Building_effect v (building w))
                     (statistics_effect (statistics_cleanup (set_simulationState v w))))
                = true).
  { unfold page_renders. cbn. rewrite B, Ft, Fs, Fe, Ff. cbn.
    rewrite Statistics_renders_split, R2, D1, R3. reflexivity. }
  rewrite R''. split_and!.
  - cbn [phase set_building]. congruence.
  - exact R''.
  - cbn [simulationState set_building]. exact Fs.
  - reflexivity.
Qed.

(** The four ways [setEvents] can end, as for [setSimulationState]. *)
Lemma setEvents_cases (v : JsVal Num) (w : World Num) :
  let w1 := set_events v w in
  let w2 := set_filteredEvents (EventStream_shown v) w1 in
  setEvents v w = w \/
  (phase w = Mounted /\ same_value (events w) v = false /\
   (setEvents v w = unmount w \/
    setEvents v w = unmount w1 \/
    (page_renders w2 = true /\ setEvents v w = w2))).
Proof.
  cbv zeta. unfold setEvents, rerender.
  destruct (phase w) eqn:M; cbn [is_mounted]; auto.
  destruct (same_value (events w) v); auto.
  right. split; [reflexivity|]. split; [reflexivity|].
  destruct (page_renders (set_events v w)); auto.
  destruct (page_renders _) eqn:R; auto.
Qed.

(** The three ways a resolved statistics poll can end: nothing to do (a
    falsy body, or a page that is not mounted); the render throws; the
    statistics and the history are updated. *)
Lemma fetchStats_resume_cases (timestamp : string) (data : JsVal Num) (w : World Num) :
  let w2 := set_historicalData
              (slice_last 20 (historicalData w ++ [data_point timestamp data]))
              (set_stats data w) in
  let w' := fetchStats_resume timestamp (Resolved data) w in
  w' = w \/
  (phase w = Mounted /\ truthy data = true /\
   (w' = unmount w \/ (page_renders w2 = true /\ w' = w2))).
Proof.
  cbv zeta. unfold fetchStats_resume, setHistoricalData, setStats, rerender.
  destruct (truthy data); auto.
  destruct (phase w) eqn:M; cbn [is_mounted phase set_stats]; rewrite ?M; cbn [is_mounted]; auto.
  right. split; [reflexivity|]. split; [reflexivity|].
  cbn [historicalData set_stats].
  destruct (page_renders _) eqn:R; auto.
Qed.

(** ** What does not depend on the console *)










(** ** The message handler *)

(** [ws.onmessage] never lets an exception escape. *)
Lemma ws_onmessage_normal (s : Socket) (raw : string) (w : World Num) :
  exists w', ws_onmessage s raw w = Normal w'.
Proof.
  unfold ws_onmessage, App_onMessage_call.
  destruct (JSON_parse raw) as [data|]; simpl; [|eauto].
  destruct (onMessage s) as [[]|]; simpl; [|eauto].
  destruct (prop data "type") as [kind|]; simpl; [|eauto].
  destruct (strict_eq_str kind "state_update"); simpl; [|eauto].
  destruct (prop data "data"); simpl; eauto.
Qed.

(** What [ws.onmessage] does with a frame, by cases: it logs a parse
    error, ignores the frame, logs a TypeError, or hands the payload to
    [setSimulationState]. *)
Lemma ws_onmessage_cases (s : Socket) (raw : string) (w : World Num) :
  let w' := final (ws_onmessage s raw w) in
  (is_state_update raw = false /\
   (w' = w \/ exists e, w' = console_error "Error parsing WebSocket message:" e w)) \/
  (is_state_update raw = true /\
   ((onMessage s = None /\ w' = w) \/
    (onMessage s = Some App_onMessage /\
     w' = setSimulationState (payload_of raw) w))).
Proof.
  cbv zeta. unfold ws_onmessage, App_onMessage_call, is_state_update, payload_of, opt_prop.
  destruct (JSON_parse raw) as [data|]; [|left; split; [reflexivity|right; eexists; reflexivity]].
  destruct (prop data "type") as [kind|] eqn:K.
  - destruct (strict_eq_str kind "state_update") eqn:U.
    + right. split; [reflexivity|].
      destruct (onMessage s) as [[]|]; [right|left; auto]. split; [reflexivity|].
      cbn. destruct (prop data "data") as [payload|] eqn:D; [reflexivity|].
      destruct data; discriminate.
    + left. split; [reflexivity|]. left. now destruct (onMessage s) as [[]|].
  - left. split; [reflexivity|].
    destruct (onMessage s) as [[]|]; [right; eexists; reflexivity|now left].
Qed.








(** ** The add-passenger form *)

(** C8. When the start floor equals the destination floor,
    [handleAddPassenger] shows the validation alert and returns at once:
    the network log is unchanged, no request was issued. *)
Theorem addPassenger_same_floor_rejected (p : Passenger Num) (w : World Num) :
  num_strict_eq (start_floor p) (destination_floor p) = true ->
  handleAddPassenger p w = alert (JStr "Start and destination floors must be different") w /\
  requests (handleAddPassenger p w) = requests w /\
  alerts (handleAddPassenger p w)
    = (alerts w ++ ["Start and destination floors must be different"])%list /\
  (phase w = Mounted ->
   requests (step (SubmitPassenger p) w) = requests w /\
   alerts (step (SubmitPassenger p) w)
     = (alerts w ++ ["Start and destination floors must be different"])%list).
Proof.
  intros E. unfold handleAddPassenger. rewrite E.
  split; [reflexivity|]. split; [reflexivity|]. split; [reflexivity|].
  intros M. simpl. unfold user, handleAddPassenger. rewrite M, E. simpl.
  split; reflexivity.
Qed.

(** ** Statistics polling *)




(** ** The history is written by the statistics poll alone *)


















(** ** What is on screen *)

Lemma drawing_renders (w w' : World Num) :
  drawing w' = drawing w -> page_renders w' = page_renders w.
Proof. unfold drawing, page_renders. now intros [= -> -> -> -> ->]. Qed.

Lemma on_screen_drawing (w w' : World Num) :
  on_screen w' = on_screen w -> drawing w' = drawing w.
Proof. unfold on_screen. intros E. now apply (f_equal snd) in E. Qed.

Lemma on_screen_renders (w w' : World Num) :
  on_screen w' = on_screen w -> page_renders w' = page_renders w /\ phase w' = phase w.
Proof.
  intros E. split; [now apply drawing_renders, on_screen_drawing|].
  unfold on_screen in E. now apply (f_equal fst) in E.
Qed.

Lemma on_screen_events_effect (w : World Num) : on_screen (events_effect w) = on_screen w.
Proof. unfold events_effect. destruct (truthy (isRunning w)); reflexivity. Qed.

Lemma on_screen_events_cleanup (w : World Num) : on_screen (events_cleanup w) = on_screen w.
Proof.
  unfold events_cleanup. destruct (eventsInterval w) as [id|]; [|reflexivity].
  destruct (Nat.eqb id 0); reflexivity.
Qed.


Lemma on_screen_statistics_effect (w : World Num) :
  on_screen (statistics_effect w) = on_screen w.
Proof. unfold statistics_effect. destruct (statistics_guard _); reflexivity. Qed.

Lemma on_screen_ws_close (i : nat) (w : World Num) : on_screen (ws_close i w) = on_screen w.
Proof.
  unfold ws_close. destruct (sockets w !! i) as [s|]; [|reflexivity].
  destruct (readyState s); reflexivity.
Qed.

Lemma on_screen_websocket_effect (w : World Num) :
  on_screen (websocket_effect w) = on_screen w.
Proof.
  unfold websocket_effect, createWebSocketClient.
  destruct (wsClientRef w); [reflexivity|].
  destruct (activeWebSocket w) as [active|]; cbn; [|reflexivity].
  apply (on_screen_ws_close (client_ws active) (console_log _ w)).
Qed.

Lemma on_screen_setIsRunning (v : JsVal Num) (w : World Num) :
  on_screen (setIsRunning v w) = on_screen w.
Proof.
  unfold setIsRunning. destruct (is_mounted (phase w)); [|reflexivity].
  destruct (same_value _ _); [reflexivity|].
  rewrite on_screen_events_effect. apply (on_screen_events_cleanup (set_isRunning v w)).
Qed.

Lemma on_screen_fire (id : nat) (w : World Num) : on_screen (fire id w) = on_screen w.
Proof.
  unfold fire. destruct (timers w !! id) as [t|]; [|reflexivity].
  destruct (due t <=? clock w); [|reflexivity].
  destruct (action t); reflexivity.
Qed.



Lemma renders_ok_same (w w' : World Num) :
  on_screen w' = on_screen w -> renders_ok w -> renders_ok w'.
Proof.
  intros E R. destruct (on_screen_renders w w' E) as [P Q]. unfold renders_ok.
  now rewrite P, Q.
Qed.

Lemma renders_ok_unmount (w : World Num) : renders_ok w -> renders_ok (unmount w).
Proof.
  intros R. unfold unmount. destruct (phase w) eqn:P; try assumption.
  intros N. exfalso. now apply N.
Qed.

Lemma renders_ok_mount (w : World Num) : renders_ok w -> renders_ok (mount w).
Proof.
  intros R. unfold mount. destruct (phase w) eqn:P; try assumption.
  intros _. rewrite <- R by congruence. apply drawing_renders.
  etransitivity; [apply on_screen_drawing, on_screen_events_effect|].
  etransitivity;
    [apply (on_screen_drawing
              (websocket_effect (statistics_effect (loadConfig (set_phase Mounted w)))));
     reflexivity|].
  etransitivity; [apply on_screen_drawing, on_screen_websocket_effect|].
  etransitivity; [apply on_screen_drawing, on_screen_statistics_effect|].
  reflexivity.
Qed.

Lemma renders_ok_setSimulationState (v : JsVal Num) (w : World Num) :
  renders_ok w -> renders_ok (setSimulationState v w).
Proof.
  intros R.
  destruct (setSimulationState_cases v w) as [->|(M & _ & [->|[->|[R' ->]]])];
    [exact R|intros N; exfalso; apply N; now apply unmount_phase| |intros _; exact R'].
  intros N. exfalso. apply N. apply unmount_phase.
  now destruct (statistics_pair_app (set_simulationState v w)) as [-> _].
Qed.

Lemma renders_ok_setEvents (v : JsVal Num) (w : World Num) :
  renders_ok w -> renders_ok (setEvents v w).
Proof.
  intros R.
  destruct (setEvents_cases v w) as [->|(M & _ & [->|[->|[R' ->]]])];
    [exact R|intros N; exfalso; apply N; now apply unmount_phase..|intros _; exact R'].
Qed.

Lemma renders_ok_settle (k : Continuation) (o : Outcome Num) (w : World Num) :
  renders_ok w -> renders_ok (settle k o w).
Proof.
  intros R. destruct k; cbn [settle].
  - destruct o; [exact R|now apply (renders_ok_same w)].
  - unfold fetchStatus_resume. destruct o as [data|e]; [|now apply (renders_ok_same w)].
    destruct (prop data "running"); cbn [try_catch final];
      [|now apply (renders_ok_same w)].
    apply (renders_ok_same w); [apply on_screen_setIsRunning|exact R].
  - unfold fetchEvents_resume. destruct o; [|now apply (renders_ok_same w)].
    destruct (_ && _); [now apply renders_ok_setEvents|exact R].
  - destruct o as [data|e]; [|now apply (renders_ok_same w)].
    destruct (fetchStats_resume_cases timestamp data w) as [->|(M & _ & [->|[R' ->]])];
      [exact R|now apply renders_ok_unmount|intros _; exact R'].
  - destruct o; [|now apply (renders_ok_same w)].
    apply (renders_ok_same w); [apply on_screen_setIsRunning|exact R].
  - destruct o; [|now apply (renders_ok_same w)].
    apply (renders_ok_same w); [apply on_screen_setIsRunning|exact R].
  - destruct o; [|now apply (renders_ok_same w)].
    now apply renders_ok_setSimulationState, renders_ok_setEvents.
  - destruct o; [exact R|now apply (renders_ok_same w)].
  - destruct o; [exact R|now apply (renders_ok_same w)].
  - destruct o; [exact R|now apply (renders_ok_same w)].
Qed.

Lemma renders_ok_step (e : Event Num) (w : World Num) : renders_ok w -> renders_ok (step e w).
Proof.
  intros R. destruct e; cbn [step].
  - now apply renders_ok_mount.
  - now apply renders_ok_unmount.
  - destruct (sockets w !! i) as [s|]; [|exact R].
    destruct (readyState s); try exact R.
    apply (renders_ok_same w); [|exact R].
    unfold ws_onopen. destruct (onConnect s) as [[]|]; reflexivity.
  - destruct (sockets w !! i) as [s|]; [|exact R].
    destruct (readyState s); try exact R.
    destruct (ws_onmessage_cases s raw w) as [[_ [->|[e ->]]]|[_ [[_ ->]|[_ ->]]]];
      [exact R|now apply (renders_ok_same w)|exact R|now apply renders_ok_setSimulationState].
  - destruct (sockets w !! i) as [s|]; [|exact R].
    destruct (readyState s); try exact R; now apply (renders_ok_same w).
  - destruct (sockets w !! i) as [s|]; [|exact R].
    assert (K : renders_ok (ws_onclose s code reason (set_socket i CLOSED s w))).
    { apply (renders_ok_same w); [|exact R].
      unfold ws_onclose. destruct (onDisconnect s) as [[]|]; reflexivity. }
    destruct (readyState s); assumption.
  - now apply (renders_ok_same w).
  - apply (renders_ok_same w); [apply on_screen_fire|exact R].
  - now apply renders_ok_settle.
  - unfold user. destruct (is_mounted (phase w)); [|exact R]. now apply (renders_ok_same w).
  - unfold user. destruct (is_mounted (phase w)); [|exact R]. now apply (renders_ok_same w).
  - unfold user. destruct (is_mounted (phase w)); [|exact R]. now apply (renders_ok_same w).
  - unfold user. destruct (is_mounted (phase w)); [|exact R]. now apply (renders_ok_same w).
  - unfold user. destruct (is_mounted (phase w)); [|exact R]. now apply (renders_ok_same w).
  - unfold user. destruct (is_mounted (phase w)); [|exact R].
    apply (renders_ok_same w); [|exact R].
    unfold handleAddPassenger. destruct (num_strict_eq _ _); reflexivity.
Qed.

(** Every page that is on screen renders. *)
Lemma reachable_renders (w : World Num) :
  reachable w -> phase w = Mounted -> page_renders w = true.
Proof.
  intros [trace ->] M.
  assert (R : renders_ok (run trace init)).
  { unfold run. rewrite <- fold_left_rev_right.
    induction (rev trace) as [|e t IH]; cbn [fold_right].
    - intros _. apply init_renders.
    - now apply renders_ok_step. }
  apply R. congruence.
Qed.



(** ** Events polling *)

(** A truthy event list the page can show is an array. *)
Lemma listable_array (v : JsVal Num) :
  truthy v = true -> listable v = true -> exists xs, v = JArr xs.
Proof.
  unfold listable, EventStream_renders, eventTypes_returns.
  destruct v; cbn; try discriminate; eauto.
Qed.

(** An event list the page can show is put in place, and the events to
    show with it. *)
Lemma setEvents_listable (v : JsVal Num) (w : World Num) :
  phase w = Mounted -> page_renders w = true -> truthy v = true -> listable v = true ->
  setEvents v w = set_filteredEvents (EventStream_shown v) (set_events v w).
Proof.
  intros M R T L. destruct (listable_array v T L) as [xs ->].
  unfold setEvents, rerender. rewrite M. cbn [is_mounted].
  replace (same_value (events w) (JArr xs)) with false by now destruct (events w).
  unfold listable, EventStream_renders in L. apply andb_true_iff in L as [L1 L2].
  unfold page_renders in R. apply andb_true_iff in R as [R R3].
  unfold EventStream_renders in R3. apply andb_true_iff in R3 as [_ R3].
  replace (page_renders (set_events (JArr xs) w)) with true.
  - replace (page_renders _) with true; [reflexivity|].
    unfold page_renders, EventStream_renders.
    cbn [building stats simulationState events filteredEvents set_filteredEvents set_events].
    now rewrite R, L1, L2.
  - unfold page_renders, EventStream_renders.
    cbn [building stats simulationState events filteredEvents set_events].
    now rewrite R, L1, R3.
Qed.


(** ** Commands *)

(** The alert text of a failed command: the [||] never reaches
    [error.message]. *)
Lemma failure_message_text (label : string) (e : HttpError Num) :
  label <> "" ->
  to_string (failure_message label e) = label ++ to_string (error_detail e).
Proof.
  intros N. unfold failure_message, js_or. simpl.
  destruct label as [|c label]; [congruence|]. reflexivity.
Qed.


(** ** The timer table *)

Section Table.
Implicit Types (table : gmap nat Timer) (a : TimerAction) (h : option nat).

Lemma handles_below_fresh table next : handles_below table next -> table !! next = None.
Proof.
  intros [_ B]. destruct (table !! next) as [t|] eqn:L; [|reflexivity].
  apply B in L. lia.
Qed.

Lemma handles_below_insert table next t :
  handles_below table next -> handles_below (<[next := t]> table) (S next).
Proof.
  intros [P B]. split; [lia|]. intros id t' L.
  apply lookup_insert_Some in L as [[<- _]|[_ L]]; [lia|]. apply B in L. lia.
Qed.

Lemma handles_below_rearm table next id t t' :
  handles_below table next -> table !! id = Some t ->
  handles_below (<[id := t']> table) next.
Proof.
  intros [P B] L. split; [assumption|]. intros id' t'' L'.
  apply lookup_insert_Some in L' as [[<- _]|[_ L']]; eauto.
Qed.

Lemma handles_below_delete table next id :
  handles_below table next -> handles_below (delete id table) next.
Proof.
  intros [P B]. split; [assumption|]. intros id' t L.
  apply lookup_delete_Some in L as [_ L]. eauto.
Qed.

Lemma well_kinded_insert table id t :
  well_kinded table -> (period t = None <-> action t = Reconnect) ->
  well_kinded (<[id := t]> table).
Proof.
  intros K Kt id' t' L. apply lookup_insert_Some in L as [[_ <-]|[_ L]]; eauto.
Qed.

Lemma well_kinded_delete table id : well_kinded table -> well_kinded (delete id table).
Proof. intros K id' t L. apply lookup_delete_Some in L as [_ L]. eauto. Qed.

Lemma owns_insert_new table a id t :
  owns table a None -> action t = a -> owns (<[id := t]> table) a (Some id).
Proof.
  intros [_ O] A. split.
  - intros ? [= <-]. exists t. now rewrite lookup_insert_eq.
  - intros id' t' L A'. apply lookup_insert_Some in L as [[<- _]|[_ L]]; [reflexivity|].
    now apply O in L.
Qed.

Lemma owns_insert_other table a h id t :
  owns table a h -> table !! id = None -> action t <> a -> owns (<[id := t]> table) a h.
Proof.
  intros [I O] F A. split.
  - intros id' E. destruct (I id' E) as (t' & L & A'). exists t'. split; [|assumption].
    rewrite lookup_insert_ne; [assumption|]. intros <-. congruence.
  - intros id' t' L A'. apply lookup_insert_Some in L as [[_ <-]|[_ L]]; [congruence|eauto].
Qed.

Lemma owns_rearm table a h id t t' :
  owns table a h -> table !! id = Some t -> action t' = action t ->
  owns (<[id := t']> table) a h.
Proof.
  intros [I O] L A. split.
  - intros id' E. destruct (I id' E) as (t'' & L' & A').
    destruct (decide (id = id')) as [<-|N].
    + exists t'. rewrite lookup_insert_eq. split; [reflexivity|]. congruence.
    + exists t''. now rewrite lookup_insert_ne.
  - intros id' t'' L' A'. apply lookup_insert_Some in L' as [[<- <-]|[_ L']]; [|eauto].
    apply (O id t L). congruence.
Qed.

Lemma owns_delete_own table a id : owns table a (Some id) -> owns (delete id table) a None.
Proof.
  intros [_ O]. split; [discriminate|].
  intros id' t L A. apply lookup_delete_Some in L as [N L].
  specialize (O _ _ L A). congruence.
Qed.

Lemma owns_delete_other table a h id t :
  owns table a h -> table !! id = Some t -> action t <> a -> owns (delete id table) a h.
Proof.
  intros [I O] L A. split.
  - intros id' E. destruct (I id' E) as (t' & L' & A'). exists t'. split; [|assumption].
    rewrite lookup_delete_ne; [assumption|]. intros <-. congruence.
  - intros id' t' L' A'. apply lookup_delete_Some in L' as [_ L']. eauto.
Qed.

Lemma owns_none table a : owns table a None -> forall id t, table !! id = Some t -> action t <> a.
Proof. intros [_ O] id t L A. specialize (O _ _ L A). discriminate. Qed.

End Table.

(** ** The invariant is kept by every operation *)

Lemma table_ok_frame (w w' : World Num) :
  timers w' = timers w -> nextTimer w' = nextTimer w ->
  eventsInterval w' = eventsInterval w -> statsInterval w' = statsInterval w ->
  table_ok w -> table_ok w'.
Proof. unfold table_ok. intros -> -> -> ->. trivial. Qed.

Lemma same_components_refl (w : World Num) : same_components w w.
Proof. repeat split. Qed.

Lemma same_components_trans (w1 w2 w3 : World Num) :
  same_components w1 w2 -> same_components w2 w3 -> same_components w1 w3.
Proof. unfold same_components. intuition congruence. Qed.

Lemma events_cleanup_ok (w : World Num) :
  table_ok w ->
  let w' := events_cleanup w in
  table_ok w' /\ eventsInterval w' = None /\ statsInterval w' = statsInterval w /\
  same_components w w' /\ requests w' = requests w.
Proof.
  intros (B & K & E & S). unfold events_cleanup, table_ok, same_components.
  destruct (eventsInterval w) as [ev|] eqn:EV; simpl.
  - destruct (proj1 E ev eq_refl) as (t & L & A).
    destruct (Nat.eqb_neq ev 0) as [_ ->]; [|apply B in L; lia]. simpl.
    split_and!; try reflexivity.
    + now apply handles_below_delete.
    + now apply well_kinded_delete.
    + now apply owns_delete_own.
    + apply (owns_delete_other _ _ _ _ t); [assumption..|congruence].
  - rewrite EV. split_and!; try reflexivity; assumption.
Qed.

Lemma events_effect_ok (w : World Num) :
  table_ok w -> eventsInterval w = None ->
  let w' := events_effect w in
  table_ok w' /\ (is_Some (eventsInterval w') <-> truthy (isRunning w) = true) /\
  statsInterval w' = statsInterval w /\ same_components w w'.
Proof.
  intros (B & K & E & S) EV. unfold events_effect, table_ok, same_components.
  rewrite EV in E.
  destruct (truthy (isRunning w)) eqn:T; simpl.
  - split_and!; try reflexivity.
    + now apply handles_below_insert.
    + apply well_kinded_insert; [assumption|]. simpl. split; discriminate.
    + now apply owns_insert_new.
    + apply owns_insert_other; [assumption| |discriminate].
      now apply handles_below_fresh.
    + split; eauto.
  - split_and!; try reflexivity; try assumption.
    split; [intros [? [=]]|discriminate].
Qed.

Lemma statistics_cleanup_ok (w : World Num) :
  table_ok w ->
  let w' := statistics_cleanup w in
  table_ok w' /\ statsInterval w' = None /\ eventsInterval w' = eventsInterval w /\
  same_components w w' /\ requests w' = requests w.
Proof.
  intros (B & K & E & S). unfold statistics_cleanup, table_ok, same_components.
  destruct (statsInterval w) as [st|] eqn:ST; simpl.
  - destruct (proj1 S st eq_refl) as (t & L & A).
    split_and!; try reflexivity.
    + now apply handles_below_delete.
    + now apply well_kinded_delete.
    + apply (owns_delete_other _ _ _ _ t); [assumption..|congruence].
    + now apply owns_delete_own.
  - rewrite ST. split_and!; try reflexivity; assumption.
Qed.

Lemma statistics_effect_ok (w : World Num) :
  table_ok w -> statsInterval w = None ->
  let w' := statistics_effect w in
  table_ok w' /\
  (is_Some (statsInterval w') <-> statistics_guard (simulationState w) = true) /\
  eventsInterval w' = eventsInterval w /\ same_components w w'.
Proof.
  intros (B & K & E & S) ST. unfold statistics_effect, table_ok, same_components.
  rewrite ST in S.
  destruct (statistics_guard (simulationState w)) eqn:G; simpl.
  - split_and!; try reflexivity.
    + now apply handles_below_insert.
    + apply well_kinded_insert; [assumption|]. simpl. split; discriminate.
    + apply owns_insert_other; [assumption| |discriminate].
      now apply handles_below_fresh.
    + now apply owns_insert_new.
    + split; eauto.
  - rewrite ST. split_and!; try reflexivity; try assumption.
    split; [intros [? [=]]|discriminate].
Qed.

(** A step that touches no timer, no handle and no component state, and
    leaves the sockets with their callbacks, keeps the invariant. *)
Lemma timer_invariant_frame (w w' : World Num) :
  timers w' = timers w -> nextTimer w' = nextTimer w ->
  eventsInterval w' = eventsInterval w -> statsInterval w' = statsInterval w ->
  phase w' = phase w -> isRunning w' = isRunning w ->
  simulationState w' = simulationState w ->
  (Forall app_socket (sockets w) -> Forall app_socket (sockets w')) ->
  timer_invariant w -> timer_invariant w'.
Proof.
  intros T N E S P R M K [I1 I2 I3 I4].
  constructor.
  - now apply (table_ok_frame w).
  - now rewrite E, P, R.
  - now rewrite S, P, M.
  - now apply K.
Qed.

Lemma setIsRunning_invariant (v : JsVal Num) (w : World Num) :
  timer_invariant w -> timer_invariant (setIsRunning v w).
Proof.
  intros I. unfold setIsRunning.
  destruct (phase w) eqn:P; simpl; try assumption.
  destruct (same_value (isRunning w) v); [assumption|].
  destruct I as [I1 I2 I3 I4].
  assert (T0 : table_ok (set_isRunning v w)) by exact I1.
  destruct (events_cleanup_ok _ T0) as (T1 & E1 & S1 & C1 & _).
  destruct (events_effect_ok _ T1 E1) as (T2 & E2 & S2 & C2).
  pose proof (same_components_trans _ _ _ C1 C2) as (P3 & R3 & M3 & K3).
  simpl in *. destruct C1 as (_ & R1 & _).
  constructor.
  - exact T2.
  - rewrite E2, P3, R3, R1, P. simpl. intuition.
  - rewrite S2, S1, P3, M3. exact I3.
  - now rewrite K3.
Qed.

Lemma statistics_pair_invariant (v : JsVal Num) (w : World Num) :
  timer_invariant w -> phase w = Mounted ->
  timer_invariant (statistics_effect (statistics_cleanup (set_simulationState v w))).
Proof.
  intros I P.
  destruct I as [I1 I2 I3 I4].
  assert (T0 : table_ok (set_simulationState v w)) by exact I1.
  destruct (statistics_cleanup_ok _ T0) as (T1 & S1 & E1 & C1 & _).
  destruct (statistics_effect_ok _ T1 S1) as (T2 & S2 & E2 & C2).
  pose proof (same_components_trans _ _ _ C1 C2) as (P3 & R3 & M3 & K3).
  simpl in *. destruct C1 as (_ & _ & M1 & _).
  constructor.
  - exact T2.
  - rewrite E2, E1, P3, R3. exact I2.
  - rewrite S2, P3, M3, M1, P. simpl. intuition.
  - now rewrite K3.
Qed.


Ltac frame w :=
  apply (timer_invariant_frame w); [reflexivity..|trivial|try assumption].

Lemma app_socket_set_readyState (r : ReadyState) (s : Socket) :
  app_socket s -> app_socket (set_readyState r s).
Proof. trivial. Qed.

Lemma ws_close_sockets (i : nat) (w : World Num) :
  Forall app_socket (sockets w) -> Forall app_socket (sockets (ws_close i w)).
Proof.
  intros F. unfold ws_close.
  destruct (sockets w !! i) as [s|] eqn:L; [|assumption].
  assert (app_socket s) by (eapply Forall_lookup_1; eassumption).
  destruct (readyState s); simpl; try assumption; now apply Forall_insert.
Qed.

Lemma ws_close_invariant (i : nat) (w : World Num) :
  timer_invariant w -> timer_invariant (ws_close i w).
Proof.
  intros I. apply (timer_invariant_frame w); try assumption;
    try (unfold ws_close; destruct (sockets w !! i) as [s|]; [destruct (readyState s)|];
         reflexivity).
  apply ws_close_sockets.
Qed.

Lemma client_close_invariant (c : Client) (w : World Num) :
  timer_invariant w -> timer_invariant (client_close c w).
Proof.
  intros I. unfold client_close.
  frame (ws_close (client_ws c) w). now apply ws_close_invariant.
Qed.

Lemma createWebSocketClient_invariant (w : World Num) :
  timer_invariant w ->
  timer_invariant
    (snd (createWebSocketClient (Some App_onMessage) (Some App_onConnect)
            (Some App_onDisconnect) w)).
Proof.
  intros I. unfold createWebSocketClient.
  destruct (activeWebSocket w) as [active|] eqn:A; simpl.
  - apply (timer_invariant_frame (client_close active w)).
    1-7: unfold client_close, ws_close; simpl;
      destruct (sockets w !! client_ws active) as [s|]; [destruct (readyState s)|];
      reflexivity.
    + intros F. simpl.
      replace (sockets (ws_close (client_ws active) (console_log _ w)))
        with (sockets (client_close active w)).
      * apply Forall_app. split; [assumption|]. repeat constructor.
      * unfold client_close, ws_close. simpl.
        destruct (sockets w !! client_ws active) as [s|]; [destruct (readyState s)|];
          reflexivity.
    + now apply client_close_invariant.
  - apply (timer_invariant_frame w); try reflexivity; [|assumption].
    intros F. simpl. apply Forall_app. split; [assumption|]. repeat constructor.
Qed.

Lemma websocket_effect_invariant (w : World Num) :
  timer_invariant w -> timer_invariant (websocket_effect w).
Proof.
  intros I. unfold websocket_effect.
  destruct (wsClientRef w); [assumption|].
  pose proof (createWebSocketClient_invariant w I) as I'.
  destruct (createWebSocketClient _ _ _ w) as [client w1]. simpl in I'.
  now frame w1.
Qed.

Lemma websocket_cleanup_invariant (w : World Num) :
  timer_invariant w -> timer_invariant (websocket_cleanup w).
Proof.
  intros I. unfold websocket_cleanup.
  destruct (wsClientRef w) as [client|]; [|assumption].
  frame (client_close client (console_log "Closing WebSocket connection on unmount" w)).
  apply client_close_invariant. now frame w.
Qed.


Lemma App_onDisconnect_invariant (w : World Num) :
  timer_invariant w -> timer_invariant (App_onDisconnect_call w).
Proof.
  intros [(B & K & E & S) I2 I3 I4]. unfold App_onDisconnect_call. simpl.
  constructor; try assumption. unfold table_ok. simpl. split_and!.
  - now apply handles_below_insert.
  - apply well_kinded_insert; [assumption|]. simpl. tauto.
  - apply owns_insert_other; [assumption| |discriminate]. now apply handles_below_fresh.
  - apply owns_insert_other; [assumption| |discriminate]. now apply handles_below_fresh.
Qed.

Lemma set_socket_invariant (i : nat) (r : ReadyState) (s : Socket) (w : World Num) :
  sockets w !! i = Some s ->
  timer_invariant w -> timer_invariant (set_socket i r s w).
Proof.
  intros L I. apply (timer_invariant_frame w); try reflexivity; [|assumption].
  intros F. simpl. apply Forall_insert; [assumption|].
  apply app_socket_set_readyState. eapply Forall_lookup_1; eassumption.
Qed.

Lemma ws_onopen_invariant (s : Socket) (w : World Num) :
  timer_invariant w -> timer_invariant (ws_onopen s w).
Proof.
  intros I. unfold ws_onopen. destruct (onConnect s) as [[]|]; now frame w.
Qed.

Lemma ws_onclose_invariant (s : Socket) (code reason : string) (w : World Num) :
  timer_invariant w -> timer_invariant (ws_onclose s code reason w).
Proof.
  intros I. unfold ws_onclose.
  destruct (onDisconnect s) as [[]|]; [apply App_onDisconnect_invariant|]; now frame w.
Qed.

Lemma fire_invariant (id : nat) (w : World Num) :
  timer_invariant w -> timer_invariant (fire id w).
Proof.
  intros I. unfold fire.
  destruct (timers w !! id) as [t|] eqn:L; [|assumption].
  destruct (due t <=? clock w); [|assumption].
  assert (I' : timer_invariant
                 (set_timers
                    match period t with
                    | Some p => <[id := {| due := clock w + p; period := Some p;
                                           action := action t |}]> (timers w)
                    | None => delete id (timers w)
                    end w)).
  { destruct I as [(B & K & E & S) I2 I3 I4].
    constructor; try assumption. unfold table_ok. simpl.
    destruct (period t) as [p|] eqn:P.
    - split_and!.
      + now apply (handles_below_rearm _ _ _ t).
      + apply well_kinded_insert; [assumption|]. simpl.
        split; [discriminate|]. intros A. apply (K _ _ L) in A. congruence.
      + now apply (owns_rearm _ _ _ _ t).
      + now apply (owns_rearm _ _ _ _ t).
    - assert (A : action t = Reconnect) by now apply (K _ _ L).
      split_and!.
      + now apply handles_below_delete.
      + now apply well_kinded_delete.
      + apply (owns_delete_other _ _ _ _ t); [assumption..|congruence].
      + apply (owns_delete_other _ _ _ _ t); [assumption..|congruence]. }
  destruct (action t); simpl; unfold reconnect_timeout, fetchEvents, fetchStats;
    match goal with |- timer_invariant (_ ?x) => idtac end;
    eapply timer_invariant_frame; try exact I'; try reflexivity; trivial.
Qed.

Lemma websocket_effect_frame (w : World Num) :
  let w' := websocket_effect w in
  timers w' = timers w /\ nextTimer w' = nextTimer w /\
  eventsInterval w' = eventsInterval w /\ statsInterval w' = statsInterval w /\
  phase w' = phase w /\ isRunning w' = isRunning w /\
  simulationState w' = simulationState w /\ requests w' = requests w /\
  (Forall app_socket (sockets w) -> Forall app_socket (sockets w')).
Proof.
  unfold websocket_effect, createWebSocketClient.
  destruct (wsClientRef w); [simpl; tauto|].
  destruct (activeWebSocket w) as [active|]; simpl.
  - unfold ws_close. simpl.
    destruct (sockets w !! client_ws active) as [s|] eqn:L; simpl.
    + assert (K : Forall app_socket (sockets w) ->
                  Forall app_socket (<[client_ws active := set_readyState CLOSING s]> (sockets w))).
      { intros F. apply Forall_insert; [assumption|].
        apply app_socket_set_readyState. eapply Forall_lookup_1; eassumption. }
      destruct (readyState s); simpl; split_and!; try reflexivity; intros F;
        apply Forall_app; (split; [auto|repeat constructor]).
    + split_and!; try reflexivity. intros F.
      apply Forall_app; (split; [auto|repeat constructor]).
  - split_and!; try reflexivity. intros F.
    apply Forall_app; (split; [auto|repeat constructor]).
Qed.

Lemma mount_invariant (w : World Num) : timer_invariant w -> timer_invariant (mount w).
Proof.
  intros I. unfold mount. destruct (phase w) eqn:P; try assumption.
  destruct I as [I1 I2 I3 I4].
  assert (EV : eventsInterval w = None).
  { destruct (eventsInterval w) eqn:E; [|reflexivity].
    destruct (proj1 I2) as [M _]; [eauto|congruence]. }
  assert (ST : statsInterval w = None).
  { destruct (statsInterval w) eqn:E; [|reflexivity].
    destruct (proj1 I3) as [M _]; [eauto|congruence]. }
  set (w2 := loadConfig (set_phase Mounted w)).
  assert (T2 : table_ok w2) by exact I1.
  destruct (statistics_effect_ok w2 T2 ST) as (T3 & S3 & E3 & P3 & R3 & M3 & K3).
  set (w3 := statistics_effect w2) in *.
  destruct (websocket_effect_frame w3) as (Ft & Fn & Fe & Fs & Fp & Fr & Fm & _ & Fk).
  set (w4 := websocket_effect w3) in *.
  set (w5 := fetchStatus w4).
  assert (T5 : table_ok w5).
  { apply (table_ok_frame w3); assumption. }
  assert (E5 : eventsInterval w5 = None).
  { change (eventsInterval w4 = None). now rewrite Fe, E3. }
  destruct (events_effect_ok w5 T5 E5) as (T6 & E6 & S6 & P6 & R6 & M6 & K6).
  constructor.
  - exact T6.
  - rewrite E6, P6, R6. change (phase w5) with (phase w4). rewrite Fp, P3. simpl. tauto.
  - rewrite S6, P6, M6. change (statsInterval w5) with (statsInterval w4).
    change (phase w5) with (phase w4). change (simulationState w5) with (simulationState w4).
    rewrite Fs, Fp, Fm, M3, S3, P3. simpl. tauto.
  - rewrite K6. change (sockets w5) with (sockets w4). apply Fk. now rewrite K3.
Qed.

Lemma unmount_invariant (w : World Num) : timer_invariant w -> timer_invariant (unmount w).
Proof.
  intros I. unfold unmount. destruct (phase w) eqn:P; try assumption.
  apply websocket_cleanup_invariant in I. destruct I as [I1 I2 I3 I4].
  set (w1 := websocket_cleanup w) in *.
  destruct (events_cleanup_ok w1 I1) as (T2 & E2 & S2 & (P2 & R2 & M2 & K2) & _).
  set (w2 := events_cleanup w1) in *.
  destruct (statistics_cleanup_ok w2 T2) as (T3 & S3 & E3 & (P3 & R3 & M3 & K3) & _).
  set (w3 := statistics_cleanup w2) in *.
  constructor; simpl.
  - exact T3.
  - rewrite E3, E2. split; [intros [? [=]]|intros [[=] _]].
  - rewrite S3. split; [intros [? [=]]|intros [[=] _]].
  - now rewrite K3, K2.
Qed.

Lemma setSimulationState_invariant (v : JsVal Num) (w : World Num) :
  timer_invariant w -> timer_invariant (setSimulationState v w).
Proof.
  intros I.
  destruct (setSimulationState_cases v w) as [->|(M & _ & [->|[->|[_ ->]]])].
  - exact I.
  - now apply unmount_invariant.
  - now apply unmount_invariant, statistics_pair_invariant.
  - apply (timer_invariant_frame
             (statistics_effect (statistics_cleanup (set_simulationState v w))));
      try reflexivity; [trivial|now apply statistics_pair_invariant].
Qed.

Lemma setEvents_invariant (v : JsVal Num) (w : World Num) :
  timer_invariant w -> timer_invariant (setEvents v w).
Proof.
  intros I.
  destruct (setEvents_cases v w) as [->|(M & _ & [->|[->|[_ ->]]])].
  - exact I.
  - now apply unmount_invariant.
  - apply unmount_invariant. now frame w.
  - now frame w.
Qed.

Lemma ws_onmessage_invariant (s : Socket) (raw : string) (w : World Num) :
  timer_invariant w -> timer_invariant (final (ws_onmessage s raw w)).
Proof.
  intros I.
  destruct (ws_onmessage_cases s raw w) as [[_ [->|[e ->]]]|[_ [[_ ->]|[_ ->]]]];
    [exact I|now frame w|exact I|now apply setSimulationState_invariant].
Qed.

Lemma settle_invariant (k : Continuation) (o : Outcome Num) (w : World Num) :
  timer_invariant w -> timer_invariant (settle k o w).
Proof.
  intros I. destruct k; cbn [settle].
  - destruct o; [assumption|now frame w].
  - unfold fetchStatus_resume. destruct o as [data|e]; [|now frame w].
    destruct (prop data "running"); cbn [try_catch final]; [|now frame w].
    now apply setIsRunning_invariant.
  - unfold fetchEvents_resume. destruct o as [data|e]; [|now frame w].
    destruct (truthy data && truthy (opt_prop data "events")); [|assumption].
    now apply setEvents_invariant.
  - destruct o as [data|e]; [|now frame w].
    destruct (fetchStats_resume_cases timestamp data w) as [->|(_ & _ & [->|[_ ->]])];
      [exact I|now apply unmount_invariant|now frame w].
  - destruct o; [now apply setIsRunning_invariant|now frame w].
  - destruct o; [now apply setIsRunning_invariant|now frame w].
  - destruct o; [|now frame w].
    now apply setSimulationState_invariant, setEvents_invariant.
  - destruct o; [assumption|now frame w].
  - destruct o; [assumption|now frame w].
  - destruct o; [assumption|now frame w].
Qed.

Lemma step_invariant (e : Event Num) (w : World Num) :
  timer_invariant w -> timer_invariant (step e w).
Proof.
  intros I. destruct e; simpl.
  - now apply mount_invariant.
  - now apply unmount_invariant.
  - destruct (sockets w !! i) as [s|] eqn:L; [|assumption].
    destruct (readyState s); try assumption.
    apply ws_onopen_invariant. now apply set_socket_invariant.
  - destruct (sockets w !! i) as [s|] eqn:L; [|assumption].
    destruct (readyState s); try assumption. now apply ws_onmessage_invariant.
  - destruct (sockets w !! i) as [s|] eqn:L; [|assumption].
    destruct (readyState s); try assumption; now frame w.
  - destruct (sockets w !! i) as [s|] eqn:L; [|assumption].
    destruct (readyState s); try assumption;
      apply ws_onclose_invariant; now apply set_socket_invariant.
  - now frame w.
  - now apply fire_invariant.
  - now apply settle_invariant.
  - unfold user. destruct (is_mounted (phase w)); [now frame w|assumption].
  - unfold user. destruct (is_mounted (phase w)); [now frame w|assumption].
  - unfold user. destruct (is_mounted (phase w)); [now frame w|assumption].
  - unfold user. destruct (is_mounted (phase w)); [now frame w|assumption].
  - unfold user. destruct (is_mounted (phase w)); [now frame w|assumption].
  - unfold user, handleAddPassenger. destruct (is_mounted (phase w)); [|assumption].
    destruct (num_strict_eq _ _); now frame w.
Qed.

Lemma init_invariant : timer_invariant (Num := Num) init.
Proof.
  constructor; simpl.
  - unfold table_ok, handles_below, well_kinded, owns. simpl.
    split_and!; try lia; try discriminate; intros *; rewrite lookup_empty; discriminate.
  - split; [intros [? [=]]|intros [[=] _]].
  - split; [intros [? [=]]|intros [[=] _]].
  - constructor.
Qed.

Lemma run_invariant (trace : list (Event Num)) (w : World Num) :
  timer_invariant w -> timer_invariant (run trace w).
Proof.
  revert w. induction trace as [|e trace IH]; intros w I; [assumption|].
  simpl. apply IH. now apply step_invariant.
Qed.

Lemma reachable_invariant (w : World Num) : reachable w -> timer_invariant w.
Proof. intros [trace ->]. apply run_invariant, init_invariant. Qed.

Lemma reachable_step (e : Event Num) (w : World Num) : reachable w -> reachable (step e w).
Proof.
  intros [trace ->]. exists (trace ++ [e])%list. unfold run. now rewrite fold_left_app.
Qed.



Lemma owns_live (w : World Num) (a : TimerAction) (h : option nat) :
  owns (timers w) a h -> (timer_live a w <-> is_Some h).
Proof.
  intros [I O]. split.
  - intros (id & t & L & A). rewrite (O id t L A). eauto.
  - intros [id E]. destruct (I id E) as (t & L & A). now exists id, t.
Qed.


Lemma events_timer_means_running (w : World Num) (id : nat) (t : Timer) :
  timer_invariant w -> timers w !! id = Some t -> action t = FetchEvents ->
  phase w = Mounted /\ running w = true.
Proof.
  intros [(_ & _ & E & _) G _ _] L A. apply G. rewrite (proj2 E id t L A). eauto.
Qed.

Lemma stats_timer_means_guard (w : World Num) (id : nat) (t : Timer) :
  timer_invariant w -> timers w !! id = Some t -> action t = FetchStats ->
  phase w = Mounted /\ statistics_guard (simulationState w) = true.
Proof.
  intros [(_ & _ & _ & S) _ G _] L A. apply G. rewrite (proj2 S id t L A). eauto.
Qed.


Lemma quiet_refl (w : World Num) : quiet w w.
Proof. split; reflexivity. Qed.

Lemma quiet_trans (w1 w2 w3 : World Num) : quiet w1 w2 -> quiet w2 w3 -> quiet w1 w3.
Proof. unfold quiet. intuition congruence. Qed.

Lemma quiet_same_requests (w w' : World Num) :
  isRunning w' = isRunning w -> requests w' = requests w -> quiet w w'.
Proof. unfold quiet, events_polls. intros -> ->. tauto. Qed.

Lemma quiet_request (m u : string) (b : JsVal Num) (w : World Num) :
  is_events_poll {| method := m; url := u; body := b |} = false ->
  quiet w (request m u b w).
Proof.
  intros N. split; [reflexivity|]. unfold events_polls, request. simpl.
  rewrite List.filter_app. simpl. rewrite N. apply app_nil_r.
Qed.

Lemma fetchEvents_polls (w : World Num) :
  isRunning (fetchEvents w) = isRunning w /\
  events_polls (fetchEvents w) = (events_polls w ++ [events_poll])%list.
Proof.
  split; [reflexivity|]. unfold events_polls, fetchEvents, api_getEvents, request. simpl.
  now rewrite List.filter_app.
Qed.

Lemma ws_close_quiet (i : nat) (w : World Num) : quiet w (ws_close i w).
Proof.
  apply quiet_same_requests; unfold ws_close;
    destruct (sockets w !! i) as [s|]; try reflexivity; destruct (readyState s); reflexivity.
Qed.

Lemma statistics_cleanup_quiet (w : World Num) : quiet w (statistics_cleanup w).
Proof.
  apply quiet_same_requests; unfold statistics_cleanup; destruct (statsInterval w);
    reflexivity.
Qed.

Lemma statistics_effect_quiet (w : World Num) : quiet w (statistics_effect w).
Proof.
  unfold statistics_effect. destruct (statistics_guard _); [|apply quiet_refl].
  split; [reflexivity|]. unfold events_polls. simpl. rewrite List.filter_app. simpl.
  apply app_nil_r.
Qed.

Lemma events_cleanup_quiet (w : World Num) : quiet w (events_cleanup w).
Proof.
  apply quiet_same_requests; unfold events_cleanup; destruct (eventsInterval w) as [id|];
    try reflexivity; destruct (Nat.eqb id 0); reflexivity.
Qed.

Lemma events_effect_polls (w : World Num) :
  isRunning (events_effect w) = isRunning w /\
  events_polls (events_effect w)
    = (events_polls w ++ if running w then [events_poll] else [])%list.
Proof.
  unfold events_effect, running. destruct (truthy (isRunning w)); simpl.
  - apply fetchEvents_polls.
  - split; [reflexivity|]. unfold events_polls. simpl. now rewrite app_nil_r.
Qed.

Lemma websocket_effect_quiet (w : World Num) : quiet w (websocket_effect w).
Proof.
  destruct (websocket_effect_frame w) as (_ & _ & _ & _ & _ & R & _ & Q & _).
  now apply quiet_same_requests.
Qed.

Lemma websocket_cleanup_quiet (w : World Num) : quiet w (websocket_cleanup w).
Proof.
  unfold websocket_cleanup. destruct (wsClientRef w) as [c|]; [|apply quiet_refl].
  unfold client_close.
  eapply quiet_trans; [|apply quiet_same_requests; reflexivity].
  eapply quiet_trans; [|apply quiet_same_requests; reflexivity].
  eapply quiet_trans; [|apply ws_close_quiet].
  now apply quiet_same_requests.
Qed.

Lemma mount_quiet (w : World Num) : running w = false -> quiet w (mount w).
Proof.
  intros R. unfold mount. destruct (phase w); try apply quiet_refl.
  set (w1 := set_phase Mounted w).
  assert (Q5 : quiet w (fetchStatus (websocket_effect (statistics_effect (loadConfig w1))))).
  { eapply quiet_trans; [|now apply quiet_request].
    eapply quiet_trans; [|apply websocket_effect_quiet].
    eapply quiet_trans; [|apply statistics_effect_quiet].
    eapply quiet_trans; [|now apply quiet_request].
    now apply quiet_same_requests. }
  set (w5 := fetchStatus _) in *.
  destruct (events_effect_polls w5) as [E P]. destruct Q5 as [Q P5].
  split; [congruence|]. rewrite P. unfold running in *. rewrite Q, R.
  now rewrite app_nil_r.
Qed.

Lemma unmount_quiet (w : World Num) : quiet w (unmount w).
Proof.
  unfold unmount. destruct (phase w); try apply quiet_refl.
  eapply quiet_trans; [|apply quiet_same_requests; reflexivity].
  eapply quiet_trans; [|apply statistics_cleanup_quiet].
  eapply quiet_trans; [|apply events_cleanup_quiet].
  apply websocket_cleanup_quiet.
Qed.

Lemma setSimulationState_quiet (v : JsVal Num) (w : World Num) :
  quiet w (setSimulationState v w).
Proof.
  assert (Q : quiet w (statistics_effect (statistics_cleanup (set_simulationState v w)))).
  { eapply quiet_trans; [|apply statistics_effect_quiet].
    eapply quiet_trans; [|apply statistics_cleanup_quiet].
    now apply quiet_same_requests. }
  destruct (setSimulationState_cases v w) as [->|(_ & _ & [->|[->|[_ ->]]])].
  - apply quiet_refl.
  - apply unmount_quiet.
  - eapply quiet_trans; [exact Q|apply unmount_quiet].
  - eapply quiet_trans; [exact Q|now apply quiet_same_requests].
Qed.

Lemma setEvents_quiet (v : JsVal Num) (w : World Num) : quiet w (setEvents v w).
Proof.
  destruct (setEvents_cases v w) as [->|(_ & _ & [->|[->|[_ ->]]])].
  - apply quiet_refl.
  - apply unmount_quiet.
  - eapply quiet_trans; [|apply unmount_quiet]. now apply quiet_same_requests.
  - now apply quiet_same_requests.
Qed.

Lemma fetchStats_resume_quiet (timestamp : string) (o : Outcome Num) (w : World Num) :
  quiet w (fetchStats_resume timestamp o w).
Proof.
  destruct o as [data|e]; [|now apply quiet_same_requests].
  destruct (fetchStats_resume_cases timestamp data w) as [->|(_ & _ & [->|[_ ->]])];
    [apply quiet_refl|apply unmount_quiet|now apply quiet_same_requests].
Qed.

Lemma ws_onmessage_quiet (s : Socket) (raw : string) (w : World Num) :
  quiet w (final (ws_onmessage s raw w)).
Proof.
  destruct (ws_onmessage_cases s raw w) as [[_ [->|[e ->]]]|[_ [[_ ->]|[_ ->]]]];
    [apply quiet_refl|now apply quiet_same_requests|apply quiet_refl
    |apply setSimulationState_quiet].
Qed.

Lemma user_quiet (m u : string) (b : JsVal Num) (w : World Num) :
  is_events_poll {| method := m; url := u; body := b |} = false ->
  quiet w (user (request m u b) w).
Proof.
  intros N. unfold user. destruct (is_mounted (phase w)); [|apply quiet_refl].
  now apply quiet_request.
Qed.

(** What a step does to the running flag and to the events polls: either
    the flag is untouched and, unless it is set, no events poll is issued;
    or the flag was written on the mounted component and an events poll is
    issued exactly when the new flag is truthy. *)
Lemma setIsRunning_cases (v : JsVal Num) (w : World Num) :
  quiet w (setIsRunning v w) \/
  (phase (setIsRunning v w) = Mounted /\
   events_polls (setIsRunning v w)
     = (events_polls w ++ if running (setIsRunning v w) then [events_poll] else [])%list).
Proof.
  unfold setIsRunning.
  destruct (phase w) eqn:P; simpl; try (left; apply quiet_refl).
  destruct (same_value (isRunning w) v); [left; apply quiet_refl|].
  right.
  set (w1 := events_cleanup (set_isRunning v w)).
  destruct (events_effect_polls w1) as [E Q].
  destruct (events_cleanup_quiet (set_isRunning v w)) as [E1 Q1]. fold w1 in E1, Q1.
  split.
  - unfold events_effect. destruct (truthy (isRunning w1)); simpl; unfold w1, events_cleanup;
      simpl; destruct (eventsInterval w) as [id|]; simpl; try assumption;
      destruct (Nat.eqb id 0); assumption.
  - rewrite Q, Q1. unfold running. now rewrite E.
Qed.

Lemma step_running_cases (e : Event Num) (w : World Num) :
  timer_invariant w ->
  (isRunning (step e w) = isRunning w /\
   (running w = false -> events_polls (step e w) = events_polls w)) \/
  (phase (step e w) = Mounted /\
   events_polls (step e w)
     = (events_polls w ++ if running (step e w) then [events_poll] else [])%list).
Proof.
  intros I.
  assert (L : forall w', quiet w w' ->
    (isRunning w' = isRunning w /\ (running w = false -> events_polls w' = events_polls w)) \/
    (phase w' = Mounted /\
     events_polls w' = (events_polls w ++ if running w' then [events_poll] else [])%list)).
  { intros w' [Q P]. left. auto. }
  assert (Q : forall v : JsVal Num,
    (isRunning (setIsRunning v w) = isRunning w /\
     (running w = false -> events_polls (setIsRunning v w) = events_polls w)) \/
    (phase (setIsRunning v w) = Mounted /\
     events_polls (setIsRunning v w)
       = (events_polls w ++ if running (setIsRunning v w) then [events_poll] else [])%list)).
  { intros v. destruct (setIsRunning_cases v w) as [C|C]; auto. }
  destruct e; simpl step.
  - left. split.
    + unfold mount. destruct (phase w); try reflexivity.
      destruct (events_effect_polls
                  (fetchStatus (websocket_effect (statistics_effect
                     (loadConfig (set_phase Mounted w)))))) as [-> _].
      simpl. now destruct (websocket_effect_frame
                        (statistics_effect (loadConfig (set_phase Mounted w))))
        as (_ & _ & _ & _ & _ & -> & _), (statistics_effect_quiet
                        (loadConfig (set_phase Mounted w))) as [-> _].
    + intros R. now apply mount_quiet.
  - apply L, unmount_quiet.
  - apply L. destruct (sockets w !! i) as [s|]; [|apply quiet_refl].
    destruct (readyState s); try apply quiet_refl.
    unfold ws_onopen. destruct (onConnect s) as [[]|]; now apply quiet_same_requests.
  - apply L. destruct (sockets w !! i) as [s|]; [|apply quiet_refl].
    destruct (readyState s); try apply quiet_refl. apply ws_onmessage_quiet.
  - apply L. destruct (sockets w !! i) as [s|]; [|apply quiet_refl].
    destruct (readyState s); try apply quiet_refl; now apply quiet_same_requests.
  - apply L. destruct (sockets w !! i) as [s|]; [|apply quiet_refl].
    unfold ws_onclose.
    destruct (readyState s); try apply quiet_refl;
      destruct (onDisconnect s) as [[]|]; now apply quiet_same_requests.
  - apply L. now apply quiet_same_requests.
  - left. unfold fire.
    destruct (timers w !! id) as [t|] eqn:T; [|auto].
    destruct (due t <=? clock w); [|auto].
    destruct (action t) eqn:A; simpl.
    + split; [reflexivity|]. intros _. unfold events_polls. reflexivity.
    + pose proof (events_timer_means_running w id t I T A) as [_ R].
      split; [reflexivity|]. intros; congruence.
    + split; [reflexivity|]. intros _. unfold events_polls, fetchStats. simpl.
      rewrite List.filter_app. simpl. apply app_nil_r.
  - destruct k; cbn [settle].
    + apply L. destruct o; [apply quiet_refl|now apply quiet_same_requests].
    + unfold fetchStatus_resume. destruct o as [data|err].
      * destruct (prop data "running"); cbn [try_catch final];
          [apply Q|apply L; now apply quiet_same_requests].
      * cbn [try_catch final]. apply L. now apply quiet_same_requests.
    + apply L. unfold fetchEvents_resume. destruct o; [|now apply quiet_same_requests].
      destruct (_ && _); [apply setEvents_quiet|apply quiet_refl].
    + apply L, fetchStats_resume_quiet.
    + unfold handleStartSimulation_resume.
      destruct o; [apply Q|apply L; now apply quiet_same_requests].
    + unfold handleStopSimulation_resume.
      destruct o; [apply Q|apply L; now apply quiet_same_requests].
    + apply L. unfold handleResetSimulation_resume.
      destruct o; [|now apply quiet_same_requests].
      eapply quiet_trans; [apply setEvents_quiet|apply setSimulationState_quiet].
    + apply L. destruct o; [apply quiet_refl|now apply quiet_same_requests].
    + apply L. destruct o; [apply quiet_refl|now apply quiet_same_requests].
    + apply L. destruct o; [apply quiet_refl|now apply quiet_same_requests].
  - apply L. now apply user_quiet.
  - apply L. now apply user_quiet.
  - apply L. now apply user_quiet.
  - apply L. now apply user_quiet.
  - apply L. now apply user_quiet.
  - apply L. unfold user, handleAddPassenger.
    destruct (is_mounted (phase w)); [|apply quiet_refl].
    destruct (num_strict_eq _ _); [now apply quiet_same_requests|now apply quiet_request].
Qed.


(** ** Polling *)

(** X21. What gates the two polls. On every reachable page: an events
    timer is live exactly when [App] is mounted and the running flag is
    truthy; a
    statistics timer is live exactly when [Statistics] is mounted and the
    snapshot is truthy with [time > 0], whatever the running flag; a step
    that finds and leaves the flag falsy issues no events poll; a step that
    turns the flag from falsy to truthy starts the events timer and issues
    one events poll at once; a step that turns it from truthy to falsy
    leaves no events timer behind. *)
Theorem polling_gates (w : World Num) :
  reachable w ->
  (timer_live FetchEvents w <-> phase w = Mounted /\ running w = true) /\
  (timer_live FetchStats w <->
     phase w = Mounted /\ statistics_guard (simulationState w) = true) /\
  (forall e, running w = false -> running (step e w) = false ->
             events_polls (step e w) = events_polls w) /\
  (forall e, running w = false -> running (step e w) = true ->
             timer_live FetchEvents (step e w) /\
             events_polls (step e w) = (events_polls w ++ [events_poll])%list) /\
  (forall e, running w = true -> running (step e w) = false ->
             ~ timer_live FetchEvents (step e w)).
Proof.
  intros R. pose proof (reachable_invariant w R) as I.
  assert (G : forall w' : World Num, timer_invariant w' ->
            (timer_live FetchEvents w' <-> phase w' = Mounted /\ running w' = true)).
  { intros w' [(_ & _ & E & _) G _ _]. rewrite (owns_live w' _ _ E). exact G. }
  split_and!.
  - now apply G.
  - destruct I as [(_ & _ & _ & S) _ G' _]. rewrite (owns_live w _ _ S). exact G'.
  - intros e R0 R1. destruct (step_running_cases e w I) as [[_ Q]|[_ Q]]; [auto|].
    rewrite Q, R1. apply app_nil_r.
  - intros e R0 R1. destruct (step_running_cases e w I) as [[Q _]|[M Q]].
    + unfold running in *. congruence.
    + split; [|now rewrite Q, R1].
      apply G; [now apply step_invariant|]. auto.
  - intros e R0 R1 L. apply G in L; [|now apply step_invariant].
    destruct L as [_ L]. congruence.
Qed.

(** ** Reconnection *)

(** The close event of a socket that is not yet closed runs [onclose] and
    with it the disconnect callback of [App], which arms one timeout. *)
Lemma close_event_timer (w : World Num) (i : nat) (s : Socket) (code reason : string) :
  timer_invariant w -> sockets w !! i = Some s -> readyState s <> CLOSED ->
  let w' := step (SockClose i code reason) w in
  timers w !! nextTimer w = None /\
  timers w' = <[nextTimer w := {| due := clock w + 3000; period := None;
                                  action := Reconnect |}]> (timers w) /\
  nextTimer w' = S (nextTimer w) /\ clock w' = clock w /\
  sockets w' = <[i := set_readyState CLOSED s]> (sockets w).
Proof.
  intros I L N. simpl. rewrite L.
  assert (A : onDisconnect s = Some App_onDisconnect).
  { destruct I as [_ _ _ F]. apply (Forall_lookup_1 _ _ _ _ F L). }
  split; [apply handles_below_fresh, I|].
  unfold ws_onclose. rewrite A.
  destruct (readyState s); try congruence; repeat split.
Qed.

Lemma unmount_closes_socket (w : World Num) (c : Client) (s : Socket) :
  phase w = Mounted -> wsClientRef w = Some c ->
  sockets w !! client_ws c = Some s -> readyState s <> CLOSED ->
  let w1 := step Unmount w in
  sockets w1 !! client_ws c = Some (set_readyState CLOSING s) /\
  activeWebSocket w1 = None /\ wsClientRef w1 = None /\ phase w1 = Unmounted.
Proof.
  intros M C L N. cbn [step]. unfold unmount. rewrite M.
  assert (S : sockets (websocket_cleanup w) !! client_ws c
              = Some (set_readyState CLOSING s)
              /\ activeWebSocket (websocket_cleanup w) = None
              /\ wsClientRef (websocket_cleanup w) = None).
  { unfold websocket_cleanup, client_close, ws_close. rewrite C. cbn. rewrite L.
    pose proof (lookup_lt_Some _ _ _ L) as B.
    destruct s as [[] m o d]; cbn in *; try congruence;
      rewrite ?list_lookup_insert_eq by assumption; rewrite ?L; auto. }
  set (w1 := websocket_cleanup w) in *.
  unfold events_cleanup, statistics_cleanup.
  destruct (eventsInterval w1) as [ev|]; [destruct (Nat.eqb ev 0)|];
    destruct (statsInterval _); cbn; tauto.
Qed.

(** C3, as the code has it. [client.close()], which the clean-up of [App]
    calls on unmount, puts the socket in CLOSING and clears
    [activeWebSocket], and records nothing about the closure being
    intended. When the close event of that socket arrives, [onclose] calls
    the disconnect callback as for any other closure: one timeout of
    3000 ms is armed with the reconnect callback. *)
Theorem explicit_close_still_arms_reconnect_timer
    (w : World Num) (c : Client) (s : Socket) (code reason : string) :
  reachable w -> phase w = Mounted -> wsClientRef w = Some c ->
  sockets w !! client_ws c = Some s -> readyState s <> CLOSED ->
  let w1 := step Unmount w in
  let w2 := step (SockClose (client_ws c) code reason) w1 in
  client_getState c w1 = Some CLOSING /\ activeWebSocket w1 = None /\
  timers w1 !! nextTimer w1 = None /\
  timers w2 = <[nextTimer w1 := {| due := clock w1 + 3000; period := None;
                                   action := Reconnect |}]> (timers w1).
Proof.
  intros R M C L N.
  destruct (unmount_closes_socket w c s M C L N) as (L1 & A1 & _).
  pose proof (reachable_invariant _ (reachable_step Unmount w R)) as I1.
  destruct (close_event_timer (step Unmount w) (client_ws c) _ code reason I1 L1)
    as (F & T & _); [discriminate|].
  cbv zeta. split_and!; try assumption.
  unfold client_getState. now rewrite L1.
Qed.

(** ** The singleton *)

(** C2, what the code does. With a client in [activeWebSocket] whose
    socket is OPEN, [createWebSocketClient] closes that socket, constructs
    a second WebSocket and returns a client for the new one: the guard
    that should return the active client reads a property the client
    object does not have. *)
Theorem second_acquire_builds_second_socket
    (w : World Num) (active : Client) (s : Socket)
    (onMsg : option MessageCallback) (onConn : option ConnectCallback)
    (onDisc : option DisconnectCallback) :
  activeWebSocket w = Some active ->
  sockets w !! client_ws active = Some s -> readyState s = OPEN ->
  let client := fst (createWebSocketClient onMsg onConn onDisc w) in
  let w' := snd (createWebSocketClient onMsg onConn onDisc w) in
  client <> active /\ client_ws client = length (sockets w) /\
  length (sockets w') = S (length (sockets w)) /\
  client_getState active w' = Some CLOSING /\
  client_getState client w' = Some CONNECTING /\
  activeWebSocket w' = Some client.
Proof.
  intros A L O. pose proof (lookup_lt_Some _ _ _ L) as B.
  unfold createWebSocketClient. rewrite A. cbn.
  unfold ws_close. cbn. rewrite L, O. cbn.
  rewrite length_insert. unfold client_getState. cbn.
  split_and!; try reflexivity.
  - intros E. rewrite <- E in B. cbn in B. lia.
  - rewrite length_app, length_insert. cbn. lia.
  - rewrite lookup_app_l by now rewrite length_insert.
    now rewrite list_lookup_insert_eq.
  - rewrite lookup_app_r by now rewrite length_insert.
    rewrite length_insert, Nat.sub_diag. reflexivity.
Qed.

End Properties.

(** * Further properties of the page and of its components *)

Section PageProperties.
Context {Num : Type} `{JsNumber Num} `{JsonParser Num} {limits : JsLimits Num}.

(** ** Frames of every kind *)


(** ** The rolling history over many polls *)



(** ** One timer per poll *)

(** X3. On every reachable page there is at most one events timer and at
    most one statistics timer: two live interval timers with the same
    callback are one and the same, and it is the one whose handle the
    component holds for its clean-up. *)
Theorem one_timer_per_poll (w : World Num) (i j : nat) (t t' : Timer) :
  reachable w ->
  timers w !! i = Some t -> timers w !! j = Some t' ->
  action t = action t' -> action t <> Reconnect ->
  i = j /\ t = t' /\
  (action t = FetchEvents -> eventsInterval w = Some i) /\
  (action t = FetchStats -> statsInterval w = Some i).
Proof.
  intros R L L' A N.
  destruct (reachable_invariant w R) as [(_ & _ & [_ E] & [_ S]) _ _ _].
  assert (I : i = j).
  { destruct (action t) eqn:K; [congruence| |].
    - pose proof (E _ _ L K). pose proof (E j t' L' (eq_sym A)). congruence.
    - pose proof (S _ _ L K). pose proof (S j t' L' (eq_sym A)). congruence. }
  subst j. split_and!; [reflexivity|congruence|eauto..].
Qed.


(** ** What the effects and the setters leave alone *)

Lemma only_polling_refl (w : World Num) : only_polling w w.
Proof. unfold only_polling. tauto. Qed.

Lemma only_polling_trans (w1 w2 w3 : World Num) :
  only_polling w1 w2 -> only_polling w2 w3 -> only_polling w1 w3.
Proof. unfold only_polling. intuition congruence. Qed.

Lemma events_cleanup_only (w : World Num) : only_polling w (events_cleanup w).
Proof.
  unfold events_cleanup, only_polling. destruct (eventsInterval w) as [id|]; [|tauto].
  destruct (Nat.eqb id 0); simpl; tauto.
Qed.

Lemma events_effect_only (w : World Num) : only_polling w (events_effect w).
Proof.
  unfold events_effect, only_polling. destruct (truthy (isRunning w)); simpl; tauto.
Qed.

Lemma statistics_cleanup_only (w : World Num) : only_polling w (statistics_cleanup w).
Proof.
  unfold statistics_cleanup, only_polling. destruct (statsInterval w); simpl; tauto.
Qed.

Lemma statistics_effect_only (w : World Num) : only_polling w (statistics_effect w).
Proof.
  unfold statistics_effect, only_polling. destruct (statistics_guard _); simpl; tauto.
Qed.

(** [setIsRunning] writes the flag and re-runs the events effect, nothing
    else. *)
Lemma setIsRunning_only (v : JsVal Num) (w : World Num) :
  setIsRunning v w = w \/
  (phase w = Mounted /\ only_polling (set_isRunning v w) (setIsRunning v w)).
Proof.
  unfold setIsRunning. destruct (phase w) eqn:P; simpl; auto.
  destruct (same_value (isRunning w) v); auto. right.
  split; [reflexivity|].
  eapply only_polling_trans; [apply events_cleanup_only|apply events_effect_only].
Qed.

(** What taking the page down keeps. *)
Lemma kept_ws_close (i : nat) (w : World Num) : kept (ws_close i w) = kept w.
Proof.
  unfold ws_close. destruct (sockets w !! i) as [s|]; [|reflexivity].
  destruct (readyState s); reflexivity.
Qed.

Lemma kept_websocket_cleanup (w : World Num) : kept (websocket_cleanup w) = kept w.
Proof.
  unfold websocket_cleanup, client_close. destruct (wsClientRef w) as [c|]; [|reflexivity].
  apply (kept_ws_close (client_ws c) (console_log _ w)).
Qed.

Lemma kept_events_cleanup (w : World Num) : kept (events_cleanup w) = kept w.
Proof.
  unfold events_cleanup. destruct (eventsInterval w) as [id|]; [|reflexivity].
  destruct (Nat.eqb id 0); reflexivity.
Qed.

Lemma kept_statistics_cleanup (w : World Num) : kept (statistics_cleanup w) = kept w.
Proof. unfold statistics_cleanup. destruct (statsInterval w); reflexivity. Qed.

Lemma kept_unmount (w : World Num) : kept (unmount w) = kept w.
Proof.
  unfold unmount. destruct (phase w); try reflexivity.
  transitivity (kept (statistics_cleanup (events_cleanup (websocket_cleanup w))));
    [reflexivity|].
  rewrite kept_statistics_cleanup, kept_events_cleanup. apply kept_websocket_cleanup.
Qed.

Lemma unmount_keeps (w : World Num) :
  let w' := unmount w in
  requests w' = requests w /\ alerts w' = alerts w /\ isRunning w' = isRunning w /\
  simulationState w' = simulationState w /\ events w' = events w /\
  stats w' = stats w /\ historicalData w' = historicalData w /\ clock w' = clock w.
Proof.
  cbv zeta. pose proof (kept_unmount w) as K. unfold kept in K.
  injection K as -> -> -> -> -> -> -> ->. tauto.
Qed.

(** [setSimulationState] never touches the statistics, the events, the
    history, the running flag, the alerts or the clock. *)
Lemma setSimulationState_keeps (v : JsVal Num) (w : World Num) :
  let w' := setSimulationState v w in
  stats w' = stats w /\ events w' = events w /\ historicalData w' = historicalData w /\
  isRunning w' = isRunning w /\ alerts w' = alerts w /\ clock w' = clock w.
Proof.
  cbv zeta.
  pose proof (statistics_pair_app (set_simulationState v w)) as F. cbv zeta in F.
  cbn [phase sockets isRunning events historicalData alerts wsClientRef activeWebSocket
       simulationState building stats filteredEvents console clock set_simulationState] in F.
  destruct F as (_ & _ & Fr & Fe & Fh & Fa & _ & _ & _ & _ & Fs & _ & _ & Fc).
  destruct (setSimulationState_cases v w) as [->|(M & _ & [->|[->|[_ ->]]])].
  - tauto.
  - pose proof (unmount_keeps w) as K. cbv zeta in K. tauto.
  - pose proof (unmount_keeps
                  (statistics_effect (statistics_cleanup (set_simulationState v w)))) as K.
    cbv zeta in K. destruct K as (_ & Ka & Kr & _ & Ke & Ks & Kh & Kc).
    rewrite Ka, Kr, Ke, Ks, Kh, Kc. tauto.
  - cbn [stats events historicalData isRunning alerts clock set_building]. tauto.
Qed.

(** ** After unmount *)

Lemma same_view_refl (w : World Num) : same_view w w.
Proof. unfold same_view. tauto. Qed.

Lemma unmounted_setters (w : World Num) :
  phase w <> Mounted ->
  (forall v, setIsRunning v w = w) /\ (forall v, setSimulationState v w = w) /\
  (forall v, setEvents v w = w) /\ (forall v, setStats v w = w) /\
  (forall f, setHistoricalData f w = w).
Proof.
  intros N. unfold setIsRunning, setSimulationState, setEvents, setStats, setHistoricalData.
  destruct (phase w); try congruence; simpl; auto.
Qed.

(** A step of a page whose components are not mounted issues no request
    and leaves the state of the components as it is. *)
Lemma step_off_screen (e : Event Num) (w : World Num) :
  timer_invariant w -> phase w = Unmounted ->
  same_view w (step e w) /\ requests (step e w) = requests w.
Proof.
  intros I P.
  assert (N : phase w <> Mounted) by congruence.
  destruct (unmounted_setters w N) as (SR & SS & SE & ST & SH).
  assert (K : forall w', same_view w w' /\ requests w' = requests w ->
                         same_view w w' /\ requests w' = requests w) by auto.
  destruct e; cbn [step].
  - unfold mount. rewrite P. split; [apply same_view_refl|reflexivity].
  - unfold unmount. rewrite P. split; [apply same_view_refl|reflexivity].
  - destruct (sockets w !! i) as [s|]; [|split; [apply same_view_refl|reflexivity]].
    destruct (readyState s); try (split; [apply same_view_refl|reflexivity]).
    unfold ws_onopen, same_view. destruct (onConnect s) as [[]|]; simpl; tauto.
  - destruct (sockets w !! i) as [s|]; [|split; [apply same_view_refl|reflexivity]].
    destruct (readyState s); try (split; [apply same_view_refl|reflexivity]).
    unfold ws_onmessage, App_onMessage_call, same_view.
    destruct (JSON_parse raw) as [data|]; simpl; [|tauto].
    destruct (onMessage s) as [[]|]; simpl; [|tauto].
    destruct (prop data "type") as [kind|]; simpl; [|tauto].
    destruct (strict_eq_str kind "state_update"); simpl; [|tauto].
    destruct (prop data "data"); simpl; [|tauto]. rewrite SS. tauto.
  - destruct (sockets w !! i) as [s|]; [|split; [apply same_view_refl|reflexivity]].
    unfold same_view. destruct (readyState s); simpl; tauto.
  - destruct (sockets w !! i) as [s|]; [|split; [apply same_view_refl|reflexivity]].
    unfold ws_onclose, same_view.
    destruct (readyState s); try (simpl; tauto);
      destruct (onDisconnect s) as [[]|]; simpl; tauto.
  - unfold same_view. simpl. tauto.
  - unfold fire. destruct (timers w !! id) as [t|] eqn:L;
      [|split; [apply same_view_refl|reflexivity]].
    destruct (due t <=? clock w); [|split; [apply same_view_refl|reflexivity]].
    destruct (action t) eqn:A.
    + unfold same_view. simpl. tauto.
    + destruct (events_timer_means_running w id t I L A). congruence.
    + destruct (stats_timer_means_guard w id t I L A). congruence.
  - unfold same_view.
    destruct k; cbn [settle]; destruct o as [data|err];
      unfold loadConfig_resume, fetchStatus_resume, fetchEvents_resume, fetchStats_resume,
        handleStartSimulation_resume, handleStopSimulation_resume,
        handleResetSimulation_resume, handleConfigUpdate_resume,
        handleCallElevator_resume, handleAddPassenger_resume;
      rewrite ?SR, ?SE, ?SS; try (simpl; tauto).
    + destruct (prop data "running"); simpl; rewrite ?SR; simpl; tauto.
    + destruct (_ && _); rewrite ?SE; tauto.
    + rewrite P. cbn [is_mounted]. destruct (truthy data); rewrite ?ST, ?SH; tauto.
  - unfold user. rewrite P. split; [apply same_view_refl|reflexivity].
  - unfold user. rewrite P. split; [apply same_view_refl|reflexivity].
  - unfold user. rewrite P. split; [apply same_view_refl|reflexivity].
  - unfold user. rewrite P. split; [apply same_view_refl|reflexivity].
  - unfold user. rewrite P. split; [apply same_view_refl|reflexivity].
  - unfold user. rewrite P. split; [apply same_view_refl|reflexivity].
Qed.

(** X4. Once [App] is unmounted the page is silent for good: whatever
    happens next (late responses, socket events, timers, clicks), no HTTP
    request is issued any more, the state of the components never changes
    again, and neither poll timer is left running. *)
Theorem unmounted_page_is_silent (w : World Num) (trace : list (Event Num)) :
  reachable w -> phase w = Unmounted ->
  let w' := run trace w in
  requests w' = requests w /\ same_view w w' /\
  ~ timer_live FetchEvents w' /\ ~ timer_live FetchStats w'.
Proof.
  intros R P. cbv zeta.
  assert (G : forall w0 : World Num, reachable w0 -> phase w0 = Unmounted ->
              ~ timer_live FetchEvents w0 /\ ~ timer_live FetchStats w0).
  { intros w0 R0 P0. pose proof (reachable_invariant w0 R0) as I0.
    split; intros (id & t & L & A).
    - destruct (events_timer_means_running w0 id t I0 L A). congruence.
    - destruct (stats_timer_means_guard w0 id t I0 L A). congruence. }
  revert w R P. induction trace as [|e trace IH]; intros w R P.
  - cbn. split_and!; [reflexivity|apply same_view_refl|apply G..]; assumption.
  - cbn [run fold_left]. fold (run trace (step e w)).
    destruct (step_off_screen e w (reachable_invariant w R) P) as [V Q].
    destruct (IH (step e w)) as (Q' & V' & T); [now apply reachable_step| |].
    + destruct V as [-> _]. exact P.
    + split_and!; [congruence| |apply T..].
      unfold same_view in *. intuition congruence.
Qed.


(** ** Reset, status, pushed snapshots *)

Lemma events_gate_live (w : World Num) :
  timer_invariant w ->
  (timer_live FetchEvents w <-> phase w = Mounted /\ truthy (isRunning w) = true).
Proof. intros [(_ & _ & E & _) G _ _]. rewrite (owns_live w _ _ E). exact G. Qed.

Lemma stats_gate_live (w : World Num) :
  timer_invariant w ->
  (timer_live FetchStats w <->
   phase w = Mounted /\ statistics_guard (simulationState w) = true).
Proof. intros [(_ & _ & _ & S) _ G _]. rewrite (owns_live w _ _ S). exact G. Qed.

Lemma setIsRunning_value (v : JsVal Num) (w : World Num) :
  phase w = Mounted -> isRunning (setIsRunning v w) = v.
Proof.
  intros M. unfold setIsRunning. rewrite M. simpl.
  destruct (same_value (isRunning w) v) eqn:E; [now apply same_value_eq|].
  pose proof (only_polling_trans _ _ _ (events_cleanup_only (set_isRunning v w))
                (events_effect_only _)) as T.
  apply T.
Qed.

(** The page can draw the snapshot [null] and the empty event list. *)
Lemma drawable_null : drawable (Num := Num) JNull = true.
Proof. unfold drawable. cbn. apply Building_initial_renders. Qed.

Lemma statistics_pair_requests (w : World Num) :
  statistics_guard (simulationState w) = false ->
  requests (statistics_effect (statistics_cleanup w)) = requests w.
Proof.
  intros G. unfold statistics_effect.
  replace (simulationState (statistics_cleanup w)) with (simulationState w)
    by (symmetry; apply (statistics_cleanup_only w)).
  rewrite G. unfold statistics_cleanup. destruct (statsInterval w); reflexivity.
Qed.

Lemma setSimulationState_null_requests (w : World Num) :
  requests (setSimulationState JNull w) = requests w.
Proof.
  assert (Q : requests (statistics_effect (statistics_cleanup (set_simulationState JNull w)))
              = requests w)
    by now rewrite statistics_pair_requests.
  destruct (setSimulationState_cases JNull w) as [->|(M & _ & [->|[->|[_ ->]]])].
  - reflexivity.
  - apply unmount_keeps.
  - rewrite <- Q. apply unmount_keeps.
  - exact Q.
Qed.

(** X5. A reset that succeeds on the mounted page puts the snapshot to
    [null] and the event list to the empty list and cancels the statistics
    timer, without a request of its own; it does not touch the running
    flag, so events polling goes on if it was on, and it keeps the
    statistics history and the last statistics as they are. *)
Theorem reset_clears_snapshot_and_events (body : JsVal Num) (w : World Num) :
  reachable w -> phase w = Mounted ->
  let w' := step (Settle After_reset (Resolved body)) w in
  simulationState w' = JNull /\ events w' = JArr [] /\
  ~ timer_live FetchStats w' /\ requests w' = requests w /\
  isRunning w' = isRunning w /\
  (timer_live FetchEvents w' <-> timer_live FetchEvents w) /\
  historicalData w' = historicalData w /\ stats w' = stats w.
Proof.
  intros R M. cbv zeta.
  pose proof (reachable_invariant _ (reachable_step (Settle After_reset (Resolved body)) w R))
    as I'.
  pose proof (reachable_invariant w R) as I.
  pose proof (reachable_renders w R M) as D.
  cbn [step settle] in *. unfold handleResetSimulation_resume in *.
  assert (E : setEvents (JArr []) w = set_filteredEvents [] (set_events (JArr []) w))
    by now apply (setEvents_listable (JArr []) w).
  assert (D1 : page_renders (setEvents (JArr []) w) = true).
  { apply renders_ok_setEvents; [intros _; exact D|]. rewrite E. cbn. congruence. }
  rewrite E in *.
  set (w1 := set_filteredEvents [] (set_events (JArr []) w)) in *.
  assert (M1 : phase w1 = Mounted) by exact M.
  destruct (setSimulationState_drawable JNull w1 M1 D1 drawable_null) as (P & _ & S & _).
  destruct (setSimulationState_keeps JNull w1) as (ST & EV & HI & RU & _).
  cbv zeta in *.
  split_and!; try assumption.
  - intros L. apply (stats_gate_live _ I') in L as [_ G]. rewrite S in G. discriminate.
  - now rewrite setSimulationState_null_requests.
  - rewrite (events_gate_live _ I'), (events_gate_live _ I), P, RU, M. reflexivity.
Qed.

(** X6. When the status request settles: a rejection, or a body that is
    [null] or [undefined], is only written to the console; any other body
    makes the running flag equal to its [running] field, which is
    [undefined] when the field is missing, and on the mounted page events
    polling is on afterwards exactly when that value is truthy. *)
Theorem status_response_sets_flag (w : World Num) :
  reachable w -> phase w = Mounted ->
  (forall e, fetchStatus_resume (Rejected e) w
             = console_error "Failed to fetch simulation status:" (RequestFailed e) w) /\
  (forall body, prop body "running" = None ->
     fetchStatus_resume (Resolved body) w
     = console_error "Failed to fetch simulation status:" TypeError w) /\
  (forall body, prop body "running" <> None ->
     let w' := fetchStatus_resume (Resolved body) w in
     isRunning w' = opt_prop body "running" /\ console w' = console w /\
     (timer_live FetchEvents w' <-> truthy (opt_prop body "running") = true)).
Proof.
  intros R M. split_and!.
  - reflexivity.
  - intros body N. unfold fetchStatus_resume. now rewrite N.
  - intros body N. cbv zeta.
    pose proof (reachable_invariant _
                  (reachable_step (Settle After_fetchStatus (Resolved body)) w R)) as I'.
    cbn [step settle] in I'.
    unfold fetchStatus_resume, opt_prop in *.
    destruct (prop body "running") as [r|]; [|congruence].
    cbn [try_catch final] in *.
    assert (V : isRunning (setIsRunning r w) = r) by now apply setIsRunning_value.
    assert (P : phase (setIsRunning r w) = Mounted /\ console (setIsRunning r w) = console w).
    { destruct (setIsRunning_only r w) as [->|[_ O]]; [auto|].
      destruct O as (_ & _ & _ & C & _ & P & _). split; [now rewrite P|exact C]. }
    destruct P as [P C]. split_and!; try assumption.
    rewrite (events_gate_live _ I'), V, P. tauto.
Qed.



(** ** What is ever requested, what is ever alerted *)

Lemma grows_refl (w : World Num) : grows w w.
Proof. exists [], []. rewrite !app_nil_r. auto. Qed.

Lemma grows_trans (w1 w2 w3 : World Num) : grows w1 w2 -> grows w2 w3 -> grows w1 w3.
Proof.
  intros (r1 & a1 & R1 & A1 & F1 & G1) (r2 & a2 & R2 & A2 & F2 & G2).
  exists (r1 ++ r2)%list, (a1 ++ a2)%list.
  rewrite R2, R1, A2, A1, <- !app_assoc. split_and!; try reflexivity; now apply Forall_app.
Qed.

Lemma grows_same (w w' : World Num) :
  requests w' = requests w -> alerts w' = alerts w -> grows w w'.
Proof. intros R A. exists [], []. rewrite !app_nil_r. auto. Qed.

Lemma grows_request (m u : string) (b : JsVal Num) (w : World Num) :
  u <> "/passengers" -> grows w (request m u b w).
Proof.
  intros N. exists [{| method := m; url := u; body := b |}], [].
  rewrite app_nil_r. split_and!; try reflexivity; [|constructor].
  constructor; [|constructor]. intros U. simpl in U. congruence.
Qed.

Lemma prefix_append (p x : string) : String.prefix p (p ++ x) = true.
Proof.
  induction p as [|c p IH]; simpl; [now destruct x|].
  destruct (Ascii.ascii_dec c c); [assumption|congruence].
Qed.

Lemma grows_failure_alert (label : string) (e : HttpError Num) (w : World Num) :
  (forall x, alert_shape (label ++ x) = true) -> label <> "" ->
  grows w (alert (failure_message label e) w).
Proof.
  intros S N. exists [], [to_string (failure_message label e)].
  rewrite app_nil_r. split_and!; try reflexivity; [constructor|].
  constructor; [|constructor]. rewrite failure_message_text by assumption. apply S.
Qed.

Lemma only_polling_grows (w w' : World Num) :
  only_polling w w' -> requests w' = requests w -> grows w w'.
Proof. intros O R. apply grows_same; [assumption|apply O]. Qed.

Lemma fetchEvents_grows (w : World Num) : grows w (fetchEvents w).
Proof. unfold fetchEvents, api_getEvents. apply grows_request. simpl. discriminate. Qed.

Lemma fetchStats_grows (w : World Num) : grows w (fetchStats w).
Proof. apply grows_request. discriminate. Qed.

Lemma events_effect_grows (w : World Num) : grows w (events_effect w).
Proof.
  unfold events_effect. destruct (truthy (isRunning w)); [|now apply grows_same].
  eapply grows_trans; [apply fetchEvents_grows|now apply grows_same].
Qed.

Lemma statistics_effect_grows (w : World Num) : grows w (statistics_effect w).
Proof.
  unfold statistics_effect. destruct (statistics_guard _); [|apply grows_refl].
  eapply grows_trans; [apply fetchStats_grows|now apply grows_same].
Qed.

Lemma events_cleanup_grows (w : World Num) : grows w (events_cleanup w).
Proof.
  apply only_polling_grows; [apply events_cleanup_only|].
  unfold events_cleanup. destruct (eventsInterval w) as [id|]; [|reflexivity].
  destruct (Nat.eqb id 0); reflexivity.
Qed.

Lemma statistics_cleanup_grows (w : World Num) : grows w (statistics_cleanup w).
Proof.
  apply only_polling_grows; [apply statistics_cleanup_only|].
  unfold statistics_cleanup. destruct (statsInterval w); reflexivity.
Qed.

Lemma setIsRunning_grows (v : JsVal Num) (w : World Num) : grows w (setIsRunning v w).
Proof.
  unfold setIsRunning. destruct (is_mounted (phase w)); [|apply grows_refl].
  destruct (same_value _ _); [apply grows_refl|].
  eapply grows_trans; [|apply events_effect_grows].
  eapply grows_trans; [|apply events_cleanup_grows]. now apply grows_same.
Qed.

Lemma unmount_grows (w : World Num) : grows w (unmount w).
Proof. apply grows_same; apply unmount_keeps. Qed.

Lemma setSimulationState_grows (v : JsVal Num) (w : World Num) :
  grows w (setSimulationState v w).
Proof.
  assert (G : grows w (statistics_effect (statistics_cleanup (set_simulationState v w)))).
  { eapply grows_trans; [|apply statistics_effect_grows].
    eapply grows_trans; [|apply statistics_cleanup_grows]. now apply grows_same. }
  destruct (setSimulationState_cases v w) as [->|(M & _ & [->|[->|[_ ->]]])].
  - apply grows_refl.
  - apply unmount_grows.
  - eapply grows_trans; [exact G|apply unmount_grows].
  - eapply grows_trans; [exact G|now apply grows_same].
Qed.

Lemma setEvents_grows (v : JsVal Num) (w : World Num) : grows w (setEvents v w).
Proof.
  destruct (setEvents_cases v w) as [->|(M & _ & [->|[->|[_ ->]]])].
  - apply grows_refl.
  - apply unmount_grows.
  - eapply grows_trans; [|apply unmount_grows]. now apply grows_same.
  - now apply grows_same.
Qed.

Lemma ws_close_logs (i : nat) (w : World Num) :
  requests (ws_close i w) = requests w /\ alerts (ws_close i w) = alerts w.
Proof.
  unfold ws_close. destruct (sockets w !! i) as [s|]; [|auto].
  destruct (readyState s); auto.
Qed.

Lemma websocket_effect_grows (w : World Num) : grows w (websocket_effect w).
Proof.
  unfold websocket_effect, createWebSocketClient.
  destruct (wsClientRef w); [apply grows_refl|].
  destruct (activeWebSocket w) as [active|]; cbn; [|now apply grows_same].
  apply grows_same; cbn; apply (ws_close_logs (client_ws active) (console_log _ w)).
Qed.

Lemma mount_grows (w : World Num) : grows w (mount w).
Proof.
  unfold mount. destruct (phase w); try apply grows_refl.
  eapply grows_trans; [|apply events_effect_grows].
  eapply grows_trans; [|apply (grows_request "GET" "/status"); discriminate].
  eapply grows_trans; [|apply websocket_effect_grows].
  eapply grows_trans; [|apply statistics_effect_grows].
  eapply grows_trans; [|apply (grows_request "GET" "/config"); discriminate].
  now apply grows_same.
Qed.

Lemma ws_onmessage_grows (s : Socket) (raw : string) (w : World Num) :
  grows w (final (ws_onmessage s raw w)).
Proof.
  unfold ws_onmessage, App_onMessage_call.
  destruct (JSON_parse raw) as [data|]; simpl; [|now apply grows_same].
  destruct (onMessage s) as [[]|]; simpl; [|apply grows_refl].
  destruct (prop data "type") as [kind|]; simpl; [|now apply grows_same].
  destruct (strict_eq_str kind "state_update"); simpl; [|apply grows_refl].
  destruct (prop data "data"); simpl; [|now apply grows_same].
  apply setSimulationState_grows.
Qed.

Lemma settle_grows (k : Continuation) (o : Outcome Num) (w : World Num) :
  grows w (settle k o w).
Proof.
  destruct k; cbn [settle].
  - destruct o; [apply grows_refl|now apply grows_same].
  - unfold fetchStatus_resume. destruct o as [data|e]; [|now apply grows_same].
    destruct (prop data "running"); cbn [try_catch final];
      [apply setIsRunning_grows|now apply grows_same].
  - unfold fetchEvents_resume. destruct o; [|now apply grows_same].
    destruct (_ && _); [apply setEvents_grows|apply grows_refl].
  - destruct o as [data|e]; [|now apply grows_same].
    destruct (fetchStats_resume_cases timestamp data w) as [->|(M & _ & [->|[_ ->]])];
      [apply grows_refl|apply unmount_grows|now apply grows_same].
  - unfold handleStartSimulation_resume. destruct o; [apply setIsRunning_grows|].
    eapply grows_trans; [|apply grows_failure_alert]; [now apply grows_same| |discriminate].
    intros x. unfold alert_shape.
    rewrite (prefix_append "Failed to start simulation: " x). now rewrite orb_true_r.
  - unfold handleStopSimulation_resume.
    destruct o; [apply setIsRunning_grows|now apply grows_same].
  - unfold handleResetSimulation_resume. destruct o; [|now apply grows_same].
    eapply grows_trans; [apply setEvents_grows|apply setSimulationState_grows].
  - destruct o; [apply grows_refl|now apply grows_same].
  - destruct o; [apply grows_refl|now apply grows_same].
  - unfold handleAddPassenger_resume. destruct o; [apply grows_refl|].
    eapply grows_trans; [|apply grows_failure_alert]; [now apply grows_same| |discriminate].
    intros x. unfold alert_shape.
    rewrite (prefix_append "Failed to add passenger: " x). now rewrite orb_true_r.
Qed.

Lemma handleAddPassenger_grows (p : Passenger Num) (w : World Num) :
  grows w (handleAddPassenger p w).
Proof.
  unfold handleAddPassenger.
  destruct (num_strict_eq (start_floor p) (destination_floor p)) eqn:E.
  - exists [], ["Start and destination floors must be different"].
    rewrite app_nil_r. split_and!; try reflexivity; repeat constructor.
  - exists [{| method := "POST"; url := "/passengers";
               body := JObj [("start_floor", JNum (start_floor p));
                             ("destination_floor", JNum (destination_floor p))] |}], [].
    rewrite app_nil_r. split_and!; try reflexivity; repeat constructor.
    intros _. eauto.
Qed.

Lemma step_grows (e : Event Num) (w : World Num) : grows w (step e w).
Proof.
  destruct e; cbn [step].
  - apply mount_grows.
  - apply unmount_grows.
  - destruct (sockets w !! i) as [s|]; [|apply grows_refl].
    destruct (readyState s); try apply grows_refl.
    unfold ws_onopen. destruct (onConnect s) as [[]|]; now apply grows_same.
  - destruct (sockets w !! i) as [s|]; [|apply grows_refl].
    destruct (readyState s); try apply grows_refl. apply ws_onmessage_grows.
  - destruct (sockets w !! i) as [s|]; [|apply grows_refl].
    destruct (readyState s); try apply grows_refl; now apply grows_same.
  - destruct (sockets w !! i) as [s|]; [|apply grows_refl].
    unfold ws_onclose.
    destruct (readyState s); try apply grows_refl;
      destruct (onDisconnect s) as [[]|]; now apply grows_same.
  - now apply grows_same.
  - unfold fire. destruct (timers w !! id) as [t|]; [|apply grows_refl].
    destruct (due t <=? clock w); [|apply grows_refl].
    destruct (action t); cbn [run_timer].
    + now apply grows_same.
    + eapply grows_trans; [|apply fetchEvents_grows]. now apply grows_same.
    + eapply grows_trans; [|apply fetchStats_grows]. now apply grows_same.
  - apply settle_grows.
  - unfold user. destruct (is_mounted (phase w)); [|apply grows_refl].
    apply grows_request. discriminate.
  - unfold user. destruct (is_mounted (phase w)); [|apply grows_refl].
    apply grows_request. discriminate.
  - unfold user. destruct (is_mounted (phase w)); [|apply grows_refl].
    apply grows_request. discriminate.
  - unfold user. destruct (is_mounted (phase w)); [|apply grows_refl].
    apply grows_request. discriminate.
  - unfold user. destruct (is_mounted (phase w)); [|apply grows_refl].
    apply grows_request. discriminate.
  - unfold user. destruct (is_mounted (phase w)); [|apply grows_refl].
    apply handleAddPassenger_grows.
Qed.

Lemma run_grows (trace : list (Event Num)) (w : World Num) : grows w (run trace w).
Proof.
  revert w. induction trace as [|e trace IH]; intros w; [apply grows_refl|].
  cbn [run fold_left]. eapply grows_trans; [apply step_grows|apply IH].
Qed.

(** X8. No request to add a passenger whose two floors are strictly equal
    is ever sent: on every page reachable from the initial one, each
    [POST /passengers] in the network log carries a start floor and a
    destination floor that differ; and from any page on, requests are only
    ever appended to the log. *)
Theorem no_same_floor_passenger_request (w : World Num) :
  reachable w ->
  Forall sound_request (requests w) /\
  (forall trace, exists rs, requests (run trace w) = (requests w ++ rs)%list /\
                            Forall sound_request rs).
Proof.
  intros [trace ->]. split.
  - destruct (run_grows trace init) as (rs & _ & R & _ & F & _). now rewrite R.
  - intros trace'. destruct (run_grows trace' (run trace init)) as (rs & _ & R & _ & F & _).
    eauto.
Qed.

(** X9. The page only ever raises three kinds of alert: the validation
    message of the add-passenger form, and the failure messages of a start
    and of an add-passenger request. No poll, no status request, no stop,
    reset, configuration update or elevator call ever raises one, whatever
    it settles to. *)
Theorem only_three_alerts (w : World Num) :
  reachable w -> Forall (fun a => alert_shape a = true) (alerts w).
Proof.
  intros [trace ->].
  destruct (run_grows trace init) as (_ & al & _ & A & _ & F). now rewrite A.
Qed.



(** ** The one connection of the page *)

Lemma live_insert (table : gmap nat Timer) (id : nat) (t : Timer) (a : TimerAction) :
  action t <> a ->
  (exists id' t', <[id := t]> table !! id' = Some t' /\ action t' = a) ->
  exists id' t', table !! id' = Some t' /\ action t' = a.
Proof.
  intros N (id' & t' & L & A). apply lookup_insert_Some in L as [[_ <-]|[_ L]];
    [congruence|eauto].
Qed.

Lemma live_delete (table : gmap nat Timer) (id : nat) (a : TimerAction) :
  (exists id' t', delete id table !! id' = Some t' /\ action t' = a) ->
  exists id' t', table !! id' = Some t' /\ action t' = a.
Proof. intros (id' & t' & L & A). apply lookup_delete_Some in L as [_ L]. eauto. Qed.

Lemma same_connection_refl (w : World Num) : same_connection w w.
Proof. unfold same_connection. tauto. Qed.

Lemma same_connection_trans (w1 w2 w3 : World Num) :
  same_connection w1 w2 -> same_connection w2 w3 -> same_connection w1 w3.
Proof.
  intros (S1 & R1 & A1 & P1 & T1) (S2 & R2 & A2 & P2 & T2).
  unfold same_connection. split_and!; try congruence. auto.
Qed.

Lemma same_connection_timers (w w' : World Num) :
  sockets w' = sockets w -> wsClientRef w' = wsClientRef w ->
  activeWebSocket w' = activeWebSocket w -> phase w' = phase w -> timers w' = timers w ->
  same_connection w w'.
Proof. intros S R A P T. unfold same_connection, timer_live. rewrite T. tauto. Qed.

Lemma only_polling_connection (w w' : World Num) :
  only_polling w w' -> (timer_live Reconnect w' -> timer_live Reconnect w) ->
  same_connection w w'.
Proof. intros O T. unfold same_connection. split_and!; try apply O. exact T. Qed.

Lemma events_cleanup_connection (w : World Num) : same_connection w (events_cleanup w).
Proof.
  apply only_polling_connection; [apply events_cleanup_only|].
  unfold events_cleanup, timer_live. destruct (eventsInterval w) as [id|]; [|auto].
  destruct (Nat.eqb id 0); [auto|]. cbn. apply live_delete.
Qed.

Lemma statistics_cleanup_connection (w : World Num) :
  same_connection w (statistics_cleanup w).
Proof.
  apply only_polling_connection; [apply statistics_cleanup_only|].
  unfold statistics_cleanup, timer_live. destruct (statsInterval w) as [id|]; [|auto].
  cbn. apply live_delete.
Qed.

Lemma events_effect_connection (w : World Num) : same_connection w (events_effect w).
Proof.
  apply only_polling_connection; [apply events_effect_only|].
  unfold events_effect, timer_live. destruct (truthy (isRunning w)); [|auto].
  cbn. apply live_insert. discriminate.
Qed.

Lemma statistics_effect_connection (w : World Num) :
  same_connection w (statistics_effect w).
Proof.
  apply only_polling_connection; [apply statistics_effect_only|].
  unfold statistics_effect, timer_live. destruct (statistics_guard _); [|auto].
  cbn. apply live_insert. discriminate.
Qed.

Lemma setIsRunning_connection (v : JsVal Num) (w : World Num) :
  same_connection w (setIsRunning v w).
Proof.
  unfold setIsRunning. destruct (is_mounted (phase w)); [|apply same_connection_refl].
  destruct (same_value _ _); [apply same_connection_refl|].
  eapply same_connection_trans; [|apply events_effect_connection].
  eapply same_connection_trans; [|apply events_cleanup_connection].
  now apply same_connection_timers.
Qed.

Lemma connection_or_unmount_refl (w : World Num) : connection_or_unmount w w.
Proof. left. apply same_connection_refl. Qed.

Lemma connection_or_unmount_crash (w : World Num) : connection_or_unmount w (unmount w).
Proof. right. exists w. split; [apply same_connection_refl|reflexivity]. Qed.

Lemma setSimulationState_connection (v : JsVal Num) (w : World Num) :
  connection_or_unmount w (setSimulationState v w).
Proof.
  assert (C : same_connection w
                (statistics_effect (statistics_cleanup (set_simulationState v w)))).
  { eapply same_connection_trans; [|apply statistics_effect_connection].
    eapply same_connection_trans; [|apply statistics_cleanup_connection].
    now apply same_connection_timers. }
  destruct (setSimulationState_cases v w) as [->|(M & _ & [->|[->|[_ ->]]])].
  - apply connection_or_unmount_refl.
  - apply connection_or_unmount_crash.
  - right. eauto.
  - left. eapply same_connection_trans; [exact C|now apply same_connection_timers].
Qed.

Lemma setEvents_connection (v : JsVal Num) (w : World Num) :
  connection_or_unmount w (setEvents v w).
Proof.
  destruct (setEvents_cases v w) as [->|(M & _ & [->|[->|[_ ->]]])].
  - apply connection_or_unmount_refl.
  - apply connection_or_unmount_crash.
  - right. eexists. split; [|reflexivity]. now apply same_connection_timers.
  - left. now apply same_connection_timers.
Qed.

Lemma ws_onmessage_connection (s : Socket) (raw : string) (w : World Num) :
  connection_or_unmount w (final (ws_onmessage s raw w)).
Proof.
  unfold ws_onmessage, App_onMessage_call.
  destruct (JSON_parse raw) as [data|]; simpl; [|left; now apply same_connection_timers].
  destruct (onMessage s) as [[]|]; simpl; [|apply connection_or_unmount_refl].
  destruct (prop data "type") as [kind|]; simpl; [|left; now apply same_connection_timers].
  destruct (strict_eq_str kind "state_update"); simpl; [|apply connection_or_unmount_refl].
  destruct (prop data "data"); simpl; [|left; now apply same_connection_timers].
  apply setSimulationState_connection.
Qed.

Lemma settle_connection (k : Continuation) (o : Outcome Num) (w : World Num) :
  connection_or_unmount w (settle k o w).
Proof.
  destruct k; cbn [settle].
  - destruct o; [apply connection_or_unmount_refl|left; now apply same_connection_timers].
  - unfold fetchStatus_resume.
    destruct o as [data|e]; [|left; now apply same_connection_timers].
    destruct (prop data "running"); cbn [try_catch final];
      left; [apply setIsRunning_connection|now apply same_connection_timers].
  - unfold fetchEvents_resume. destruct o; [|left; now apply same_connection_timers].
    destruct (_ && _); [apply setEvents_connection|apply connection_or_unmount_refl].
  - destruct o as [data|e]; [|left; now apply same_connection_timers].
    destruct (fetchStats_resume_cases timestamp data w) as [->|(M & _ & [->|[_ ->]])];
      [apply connection_or_unmount_refl|apply connection_or_unmount_crash|].
    left. now apply same_connection_timers.
  - unfold handleStartSimulation_resume.
    destruct o; left; [apply setIsRunning_connection|now apply same_connection_timers].
  - unfold handleStopSimulation_resume.
    destruct o; left; [apply setIsRunning_connection|now apply same_connection_timers].
  - unfold handleResetSimulation_resume.
    destruct o; [|left; now apply same_connection_timers].
    destruct (setEvents_connection (JArr []) w) as [C|(w0 & C & E)].
    + destruct (setSimulationState_connection JNull (setEvents (JArr []) w))
        as [C'|(w0 & C' & E)].
      * left. eapply same_connection_trans; eassumption.
      * right. exists w0. split; [eapply same_connection_trans; eassumption|exact E].
    + right. exists w0. split; [exact C|]. rewrite E. unfold setSimulationState.
      destruct (phase (unmount w0)) eqn:P; try reflexivity.
      now apply unmount_phase_neq in P.
  - destruct o; [apply connection_or_unmount_refl|left; now apply same_connection_timers].
  - destruct o; [apply connection_or_unmount_refl|left; now apply same_connection_timers].
  - unfold handleAddPassenger_resume.
    destruct o; [apply connection_or_unmount_refl|left; now apply same_connection_timers].
Qed.

Lemma user_connection (handler : World Num -> World Num) (w : World Num) :
  (forall w0, same_connection w0 (handler w0)) -> same_connection w (user handler w).
Proof.
  intros Hh. unfold user. destruct (is_mounted (phase w)); [apply Hh|apply same_connection_refl].
Qed.

(** A timer that fires touches no socket; only the reconnect timeout
    touches a client, and it forgets the one [App] holds. *)
Lemma fire_connection (id : nat) (w : World Num) :
  sockets (fire id w) = sockets w /\ phase (fire id w) = phase w /\
  activeWebSocket (fire id w) = activeWebSocket w /\
  (timer_live Reconnect (fire id w) -> timer_live Reconnect w) /\
  (wsClientRef (fire id w) = wsClientRef w \/ timer_live Reconnect w).
Proof.
  unfold fire. destruct (timers w !! id) as [t|] eqn:L; [|tauto].
  destruct (due t <=? clock w); [|tauto].
  assert (T : timer_live Reconnect
                (set_timers
                   match period t with
                   | Some p => <[id := {| due := clock w + p; period := Some p;
                                          action := action t |}]> (timers w)
                   | None => delete id (timers w)
                   end w) -> timer_live Reconnect w).
  { unfold timer_live. cbn [timers set_timers]. destruct (period t).
    - intros (id' & t' & L' & A'). apply lookup_insert_Some in L' as [[<- <-]|[_ L']]; eauto.
    - apply live_delete. }
  destruct (action t) eqn:A; cbn [run_timer].
  - split_and!; try reflexivity; [exact T|]. right. exists id, t. auto.
  - split_and!; try reflexivity; [exact T|]. now left.
  - split_and!; try reflexivity; [exact T|]. now left.
Qed.

Lemma same_connection_invariant (w w' : World Num) :
  same_connection w w' -> socket_invariant w -> socket_invariant w'.
Proof.
  intros (S & R & A & P & T) [B O L]. split; rewrite ?S, ?R, ?A, ?P.
  - intros F. destruct (B F) as (? & ? & ? & ?). tauto.
  - exact O.
  - intros s Ls V. destruct (L s Ls V) as (? & ? & ? & ?). tauto.
Qed.

Lemma ws_close_dead (i : nat) (w : World Num) (s : Socket) :
  sockets w = [s] -> live s = false -> ws_close i w = w.
Proof.
  intros S V. unfold ws_close. rewrite S. destruct i as [|i]; [|reflexivity].
  cbn. destruct (readyState s) eqn:E; unfold live in V; rewrite E in V;
    congruence.
Qed.

Lemma init_socket_invariant : socket_invariant (init (Num := Num)).
Proof.
  split; cbn.
  - intros _. split_and!; try reflexivity. intros (id & t & L & _).
    cbn in L. now rewrite lookup_empty in L.
  - congruence.
  - intros s L. discriminate.
Qed.

Lemma mount_socket_invariant (w : World Num) :
  socket_invariant w -> socket_invariant (mount w).
Proof.
  intros I. unfold mount. destruct (phase w) eqn:P; try assumption.
  destruct (before_mount w I P) as (S & R & A & T).
  set (w3 := statistics_effect (loadConfig (set_phase Mounted w))).
  assert (C3 : same_connection (set_phase Mounted w) w3).
  { eapply same_connection_trans; [|apply statistics_effect_connection].
    now apply same_connection_timers. }
  destruct C3 as (S3 & R3 & A3 & P3 & T3). cbn in S3, R3, A3, P3.
  assert (T3' : ~ timer_live Reconnect w3) by (intros X; apply T, T3, X).
  set (w4 := websocket_effect w3).
  assert (E4 : sockets w4 = [{| readyState := CONNECTING; onMessage := Some App_onMessage;
                                onConnect := Some App_onConnect;
                                onDisconnect := Some App_onDisconnect |}] /\
               wsClientRef w4 = Some {| client_ws := 0 |} /\
               activeWebSocket w4 = Some {| client_ws := 0 |} /\
               phase w4 = Mounted /\ timers w4 = timers w3).
  { unfold w4, websocket_effect, createWebSocketClient. rewrite R3, R, A3, A. cbn.
    rewrite S3, S, P3. auto. }
  destruct E4 as (S4 & R4 & A4 & P4 & T4).
  assert (C : same_connection w4 (events_effect (fetchStatus w4))).
  { eapply same_connection_trans; [|apply events_effect_connection].
    now apply same_connection_timers. }
  destruct C as (S5 & R5 & A5 & P5 & T5).
  split; rewrite ?S5, ?R5, ?A5, ?P5, ?S4, ?R4, ?A4, ?P4.
  - congruence.
  - reflexivity.
  - intros s _ _. split_and!; try reflexivity.
    intros X. apply T3'. apply T5 in X. unfold timer_live in *. now rewrite <- T4.
Qed.

Lemma unmount_socket_invariant (w : World Num) :
  socket_invariant w -> socket_invariant (unmount w).
Proof.
  intros I. unfold unmount. destruct (phase w) eqn:P; try assumption.
  assert (N : phase w <> Fresh) by congruence.
  pose proof (one_socket w I N) as O.
  set (w1 := websocket_cleanup w).
  assert (E1 : phase w1 = Mounted /\ length (sockets w1) = 1%nat /\
               forall s, sockets w1 !! 0%nat = Some s -> live s = false).
  { unfold w1, websocket_cleanup, client_close.
    destruct (wsClientRef w) as [c|] eqn:R.
    - cbn [phase sockets set_wsClientRef set_activeWebSocket].
      unfold ws_close. cbn [sockets console_log set_console].
      destruct (sockets w !! client_ws c) as [s|] eqn:Ls.
      + assert (client_ws c = 0%nat) as E0.
        { apply lookup_lt_Some in Ls. lia. }
        rewrite E0 in *.
        destruct (readyState s) eqn:Q; cbn [phase sockets set_sockets console_log set_console];
          rewrite ?length_insert; split_and!; try assumption.
        * intros s'. rewrite list_lookup_insert_eq by lia. intros [= <-]. reflexivity.
        * intros s'. rewrite list_lookup_insert_eq by lia. intros [= <-]. reflexivity.
        * intros s'. rewrite Ls. intros [= <-]. unfold live. now rewrite Q.
        * intros s'. rewrite Ls. intros [= <-]. unfold live. now rewrite Q.
      + cbn [phase sockets console_log set_console]. split_and!; try assumption.
        intros s Ls'. destruct (live s) eqn:V'; [|reflexivity].
        destruct (while_live w I s Ls' V') as (_ & R' & _). rewrite R in R'.
        injection R' as ->. cbn in Ls. congruence.
    - split_and!; try assumption. intros s Ls. destruct (live s) eqn:V; [|reflexivity].
      destruct (while_live w I s Ls V) as (_ & R' & _). congruence. }
  destruct E1 as (P1 & O1 & D1).
  assert (C : same_connection w1 (statistics_cleanup (events_cleanup w1))).
  { eapply same_connection_trans;
      [apply events_cleanup_connection|apply statistics_cleanup_connection]. }
  destruct C as (S2 & _). split; cbn [phase sockets set_phase wsClientRef activeWebSocket];
    rewrite ?S2.
  - congruence.
  - intros _. exact O1.
  - intros s Ls V. rewrite (D1 s Ls) in V. discriminate.
Qed.

Lemma connection_or_unmount_invariant (w w' : World Num) :
  connection_or_unmount w w' -> socket_invariant w -> socket_invariant w'.
Proof.
  intros [C|(w0 & C & ->)] I; [now apply (same_connection_invariant w)|].
  now apply unmount_socket_invariant, (same_connection_invariant w).
Qed.

Lemma ws_onopen_frame (s : Socket) (w : World Num) :
  sockets (ws_onopen s w) = sockets w /\ wsClientRef (ws_onopen s w) = wsClientRef w /\
  activeWebSocket (ws_onopen s w) = activeWebSocket w /\ phase (ws_onopen s w) = phase w /\
  timers (ws_onopen s w) = timers w.
Proof. unfold ws_onopen. destruct (onConnect s) as [[]|]; cbn; auto. Qed.

Lemma ws_onclose_frame (s : Socket) (code reason : string) (w : World Num) :
  sockets (ws_onclose s code reason w) = sockets w /\
  phase (ws_onclose s code reason w) = phase w /\
  activeWebSocket (ws_onclose s code reason w) = None.
Proof. unfold ws_onclose. destruct (onDisconnect s) as [[]|]; cbn; auto. Qed.

Lemma socket_index (w : World Num) (i : nat) (s : Socket) :
  socket_invariant w -> sockets w !! i = Some s -> i = 0%nat /\ phase w <> Fresh.
Proof.
  intros I L. assert (N : phase w <> Fresh).
  { intros F. destruct (before_mount w I F) as (S & _). rewrite S in L. discriminate. }
  split; [|exact N]. pose proof (one_socket w I N). apply lookup_lt_Some in L. lia.
Qed.

Lemma step_socket_invariant (e : Event Num) (w : World Num) :
  socket_invariant w -> socket_invariant (step e w).
Proof.
  intros I. destruct e; cbn [step].
  - now apply mount_socket_invariant.
  - now apply unmount_socket_invariant.
  - destruct (sockets w !! i) as [s|] eqn:L; [|assumption].
    destruct (socket_index w i s I L) as [-> N].
    destruct (readyState s) eqn:Q; try assumption.
    destruct (ws_onopen_frame s (set_socket 0 OPEN s w)) as (S & R & A & P & T).
    cbn in S, R, A, P, T.
    destruct (while_live w I s L) as (Pm & Rm & Am & Tm); [unfold live; now rewrite Q|].
    split; rewrite ?S, ?R, ?A, ?P.
    + congruence.
    + intros _. rewrite length_insert. now apply (one_socket w I).
    + intros _ _ _. split_and!; try assumption. unfold timer_live. now rewrite T.
  - destruct (sockets w !! i) as [s|] eqn:L; [|assumption].
    destruct (readyState s); try assumption.
    eapply connection_or_unmount_invariant; [apply ws_onmessage_connection|assumption].
  - destruct (sockets w !! i) as [s|] eqn:L; [|assumption].
    destruct (readyState s); try assumption;
      (eapply same_connection_invariant; [|eassumption]); now apply same_connection_timers.
  - destruct (sockets w !! i) as [s|] eqn:L; [|assumption].
    destruct (socket_index w i s I L) as [-> N].
    assert (K : socket_invariant (ws_onclose s code reason (set_socket 0 CLOSED s w))).
    { destruct (ws_onclose_frame s code reason (set_socket 0 CLOSED s w)) as (S & P & A).
      cbn in S, P. split; rewrite ?S, ?P.
      - congruence.
      - intros _. rewrite length_insert. now apply (one_socket w I).
      - intros s'. rewrite list_lookup_insert_eq by (apply lookup_lt_Some in L; exact L).
        intros [= <-]. discriminate. }
    destruct (readyState s); try assumption.
  - eapply same_connection_invariant; [|eassumption]. now apply same_connection_timers.
  - destruct (fire_connection id w) as (S & P & A & T & R).
    split; rewrite ?S, ?P, ?A.
    + intros F. destruct (before_mount w I F) as (S0 & R0 & A0 & T0).
      destruct R as [R|R]; [|contradiction]. rewrite R. tauto.
    + apply (one_socket w I).
    + intros s L V. destruct (while_live w I s L V) as (Pm & Rm & Am & Tm).
      destruct R as [R|R]; [|contradiction]. rewrite R. tauto.
  - eapply connection_or_unmount_invariant; [apply settle_connection|assumption].
  - eapply same_connection_invariant; [apply user_connection|assumption].
    intros w0. now apply same_connection_timers.
  - eapply same_connection_invariant; [apply user_connection|assumption].
    intros w0. now apply same_connection_timers.
  - eapply same_connection_invariant; [apply user_connection|assumption].
    intros w0. now apply same_connection_timers.
  - eapply same_connection_invariant; [apply user_connection|assumption].
    intros w0. now apply same_connection_timers.
  - eapply same_connection_invariant; [apply user_connection|assumption].
    intros w0. now apply same_connection_timers.
  - eapply same_connection_invariant; [apply user_connection|assumption].
    intros w0. unfold handleAddPassenger. destruct (num_strict_eq _ _);
      now apply same_connection_timers.
Qed.

Lemma reachable_socket_invariant (w : World Num) : reachable w -> socket_invariant w.
Proof.
  intros [trace ->]. unfold run. generalize (init (Num := Num)) init_socket_invariant.
  induction trace as [|e trace IH]; intros w I; [exact I|].
  cbn [fold_left]. apply IH. now apply step_socket_invariant.
Qed.

(** X11. [App] opens exactly one WebSocket in the life of the page: none
    before it mounts, and from then on the one socket that carries the
    three callbacks of [App], whatever happens afterwards. *)
Theorem one_socket_per_page (w : World Num) :
  reachable w ->
  match phase w with
  | Fresh => sockets w = []
  | Mounted | Unmounted => exists s, sockets w = [s] /\ app_socket s
  end.
Proof.
  intros R. pose proof (reachable_socket_invariant w R) as I.
  pose proof (sockets_of_app w (reachable_invariant w R)) as F.
  assert (K : phase w <> Fresh -> exists s, sockets w = [s] /\ app_socket s).
  { intros N. pose proof (one_socket w I N) as O.
    destruct (sockets w) as [|s [|s' l]]; try discriminate.
    exists s. split; [reflexivity|]. now inversion F. }
  destruct (phase w) eqn:P; [apply (before_mount w I P)|apply K|apply K]; congruence.
Qed.

(** X12. While a socket of the page is connecting or open, [App] is
    mounted, its ref and the module both hold the client of that socket,
    and no reconnect timeout is pending. So unmounting always closes the
    connection, and a frame only ever reaches a mounted [App]. *)
Theorem live_socket_is_held (w : World Num) (i : nat) (s : Socket) :
  reachable w -> sockets w !! i = Some s -> live s = true ->
  phase w = Mounted /\ wsClientRef w = Some {| client_ws := i |} /\
  activeWebSocket w = Some {| client_ws := i |} /\ ~ timer_live Reconnect w.
Proof.
  intros R L V. pose proof (reachable_socket_invariant w R) as I.
  destruct (socket_index w i s I L) as [-> _]. now apply (while_live w I s).
Qed.

Lemma unmount_disconnected (w : World Num) : disconnected w -> disconnected (unmount w).
Proof.
  intros D. pose proof D as (N & s & S & V).
  unfold unmount. destruct (phase w) eqn:P; [congruence| |exact D].
  assert (E : websocket_cleanup w = w \/
              (sockets (websocket_cleanup w) = sockets w /\
               phase (websocket_cleanup w) = phase w)).
  { unfold websocket_cleanup, client_close. destruct (wsClientRef w) as [c|]; [|now left].
    right. cbn [sockets phase set_wsClientRef set_activeWebSocket].
    rewrite (ws_close_dead (client_ws c) _ s); [auto|exact S|exact V]. }
  destruct (same_connection_trans _ _ _ (events_cleanup_connection (websocket_cleanup w))
              (statistics_cleanup_connection _)) as (S2 & _).
  split; [cbn; congruence|]. exists s. cbn [sockets set_phase]. rewrite S2.
  destruct E as [->|[-> _]]; auto.
Qed.

Lemma same_connection_disconnected (w w' : World Num) :
  same_connection w w' -> disconnected w -> disconnected w'.
Proof.
  intros (S' & _ & _ & P' & _) (N & s & S & V). unfold disconnected. rewrite S', P'. eauto.
Qed.

Lemma connection_or_unmount_disconnected (w w' : World Num) :
  connection_or_unmount w w' -> disconnected w -> disconnected w'.
Proof.
  intros [C|(w0 & C & ->)] D; [now apply (same_connection_disconnected w)|].
  now apply unmount_disconnected, (same_connection_disconnected w).
Qed.

Lemma step_disconnected (e : Event Num) (w : World Num) :
  disconnected w -> disconnected (step e w).
Proof.
  intros D. pose proof D as (N & s & S & V).
  assert (K : forall w', same_connection w w' -> disconnected w')
    by (intros w' C; now apply (same_connection_disconnected w)).
  assert (K' : forall w', connection_or_unmount w w' -> disconnected w')
    by (intros w' C; now apply (connection_or_unmount_disconnected w)).
  destruct e; cbn [step].
  - unfold mount. destruct (phase w); [congruence|exact D..].
  - now apply unmount_disconnected.
  - rewrite S. destruct i as [|i]; [|exact D]. cbn.
    destruct (readyState s) eqn:Q; try exact D.
    unfold live in V. rewrite Q in V. discriminate.
  - destruct (sockets w !! i) as [s0|]; [|exact D].
    destruct (readyState s0); try exact D.
    apply K', ws_onmessage_connection.
  - destruct (sockets w !! i) as [s0|]; [|exact D].
    destruct (readyState s0); try exact D;
      now apply K, same_connection_timers.
  - rewrite S. destruct i as [|i]; [|exact D]. cbn [lookup list_lookup].
    assert (D' : disconnected (ws_onclose s code reason (set_socket 0 CLOSED s w))).
    { destruct (ws_onclose_frame s code reason (set_socket 0 CLOSED s w)) as (S' & P' & _).
      cbn in S', P'. unfold disconnected. rewrite S', P', S. split; [exact N|].
      exists (set_readyState CLOSED s). auto. }
    destruct (readyState s); try assumption; exact D.
  - now apply K, same_connection_timers.
  - destruct (fire_connection id w) as (S' & P' & _). unfold disconnected.
    rewrite S', P'. eauto.
  - apply K', settle_connection.
  - apply K, user_connection. intros w0. now apply same_connection_timers.
  - apply K, user_connection. intros w0. now apply same_connection_timers.
  - apply K, user_connection. intros w0. now apply same_connection_timers.
  - apply K, user_connection. intros w0. now apply same_connection_timers.
  - apply K, user_connection. intros w0. now apply same_connection_timers.
  - apply K, user_connection. intros w0. unfold handleAddPassenger.
    destruct (num_strict_eq _ _); now apply same_connection_timers.
Qed.

(** X13. The page never reconnects. Once its socket is closing or closed,
    then whatever happens next (the close event, the reconnect timeout
    firing three seconds later, responses, clicks), no new WebSocket is
    constructed and the page never has a connecting or open socket again. *)
Theorem page_never_reconnects (w : World Num) (i : nat) (s : Socket) (trace : list (Event Num)) :
  reachable w -> sockets w !! i = Some s -> live s = false ->
  exists s', sockets (run trace w) = [s'] /\ live s' = false.
Proof.
  intros R L V. pose proof (reachable_socket_invariant w R) as I.
  destruct (socket_index w i s I L) as [-> N].
  assert (D : disconnected w).
  { split; [exact N|]. pose proof (one_socket w I N) as O.
    destruct (sockets w) as [|s0 [|]]; try discriminate. injection L as ->. eauto. }
  clear - D. revert w D. induction trace as [|e trace IH]; intros w D.
  - apply D.
  - cbn [run fold_left]. apply IH. now apply step_disconnected.
Qed.


(** ** The reconnect timeout *)

Lemma run_disconnected (trace : list (Event Num)) (w : World Num) :
  disconnected w -> disconnected (run trace w).
Proof.
  revert w. induction trace as [|e trace IH]; intros w D; [exact D|].
  cbn [run fold_left]. apply IH. now apply step_disconnected.
Qed.

(** C4, what [App] does. On every reachable page the close event of the
    socket arms exactly one timer, a timeout of 3000 ms with the reconnect
    callback, under a handle that was not in use; a second close event for
    the closed socket changes nothing. The timeout cannot fire before
    3000 ms have passed. When it fires, its callback writes 'Attempting to
    reconnect WebSocket...' to the console and clears the ref of [App],
    and that is all: the timer is gone, no socket is constructed and no
    request is sent. Nothing that happens later connects the page again:
    its one socket stays closed. *)
Theorem reconnect_timeout_opens_no_socket
    (w : World Num) (i : nat) (s : Socket) (code reason : string) :
  reachable w -> sockets w !! i = Some s -> readyState s <> CLOSED ->
  let w' := step (SockClose i code reason) w in
  let id := nextTimer w in
  timers w !! id = None /\
  timers w' = <[id := {| due := clock w + 3000; period := None; action := Reconnect |}]>
                (timers w) /\
  sockets w' = [set_readyState CLOSED s] /\
  (forall code' reason', step (SockClose i code' reason') w' = w') /\
  (forall ms, Z.of_N ms < 3000 ->
              step (Fire id) (step (Advance ms) w') = step (Advance ms) w') /\
  (forall ms, 3000 <= Z.of_N ms ->
              let w0 := step (Advance ms) w' in
              let w'' := step (Fire id) w0 in
              console w''
              = (console w0 ++ [{| level := Info;
                                   text := "Attempting to reconnect WebSocket...";
                                   attached := None |}])%list /\
              wsClientRef w'' = None /\ timers w'' = timers w /\
              sockets w'' = sockets w' /\ requests w'' = requests w' /\
              activeWebSocket w'' = activeWebSocket w') /\
  (forall trace, exists s', sockets (run trace w') = [s'] /\ live s' = false).
Proof.
  intros R L N.
  pose proof (reachable_socket_invariant w R) as I.
  destruct (socket_index w i s I L) as [-> Nf].
  pose proof (one_socket w I Nf) as O.
  destruct (close_event_timer w 0%nat s code reason (reachable_invariant w R) L N)
    as (F & T & X & C & S).
  assert (S' : sockets (step (SockClose 0 code reason) w) = [set_readyState CLOSED s]).
  { rewrite S. destruct (sockets w) as [|s0 [|]]; try discriminate. reflexivity. }
  assert (P : phase (step (SockClose 0 code reason) w) = phase w).
  { cbn [step]. rewrite L.
    destruct (ws_onclose_frame s code reason (set_socket 0 CLOSED s w)) as (_ & P & _).
    destruct (readyState s); try congruence; exact P. }
  cbv zeta. set (w' := step (SockClose 0 code reason) w) in *. clearbody w'.
  split_and!; try assumption.
  - intros code' reason'. cbn [step]. now rewrite S'.
  - intros ms B. cbn [step]. unfold fire. cbn [timers set_clock clock].
    rewrite T, lookup_insert_eq. cbn [due]. rewrite C.
    destruct (Z.leb_spec (clock w + 3000) (clock w + Z.of_N ms)); [lia|reflexivity].
  - intros ms B. cbn [step]. unfold fire. cbn [timers set_clock clock].
    rewrite T, lookup_insert_eq. cbn [due period action]. rewrite C.
    destruct (Z.leb_spec (clock w + 3000) (clock w + Z.of_N ms)); [|lia].
    cbn. split_and!; try reflexivity. rewrite delete_insert_eq. now apply delete_id.
  - intros trace. apply (run_disconnected trace w').
    split; [congruence|]. exists (set_readyState CLOSED s). auto.
Qed.

(** ** The periods of the polls *)

Lemma periodic_timers (w w' : World Num) :
  timers w' = timers w -> periodic w -> periodic w'.
Proof. unfold periodic. now intros ->. Qed.

Lemma periodic_insert (w w' : World Num) (id : nat) (t : Timer) :
  timers w' = <[id := t]> (timers w) -> period t = period_of (action t) ->
  periodic w -> periodic w'.
Proof.
  unfold periodic. intros -> Pt P id' t' L.
  apply lookup_insert_Some in L as [[_ <-]|[_ L]]; eauto.
Qed.

Lemma periodic_delete (w w' : World Num) (id : nat) :
  timers w' = delete id (timers w) -> periodic w -> periodic w'.
Proof.
  unfold periodic. intros -> P id' t' L. apply lookup_delete_Some in L as [_ L]. eauto.
Qed.

Lemma events_cleanup_periodic (w : World Num) : periodic w -> periodic (events_cleanup w).
Proof.
  unfold events_cleanup. destruct (eventsInterval w) as [id|]; [|auto].
  destruct (Nat.eqb id 0); [now apply periodic_timers|]. now apply (periodic_delete _ _ id).
Qed.

Lemma statistics_cleanup_periodic (w : World Num) :
  periodic w -> periodic (statistics_cleanup w).
Proof.
  unfold statistics_cleanup. destruct (statsInterval w) as [id|]; [|auto].
  now apply (periodic_delete _ _ id).
Qed.

Lemma events_effect_periodic (w : World Num) : periodic w -> periodic (events_effect w).
Proof.
  unfold events_effect. destruct (truthy (isRunning w)); [|now apply periodic_timers].
  now apply (periodic_insert _ _ (nextTimer w)
               {| due := clock w + 2000; period := Some 2000; action := FetchEvents |}).
Qed.

Lemma statistics_effect_periodic (w : World Num) :
  periodic w -> periodic (statistics_effect w).
Proof.
  unfold statistics_effect. destruct (statistics_guard _); [|auto].
  now apply (periodic_insert _ _ (nextTimer w)
               {| due := clock w + 5000; period := Some 5000; action := FetchStats |}).
Qed.

Lemma setIsRunning_periodic (v : JsVal Num) (w : World Num) :
  periodic w -> periodic (setIsRunning v w).
Proof.
  intros P. unfold setIsRunning. destruct (is_mounted (phase w)); [|assumption].
  destruct (same_value _ _); [assumption|].
  apply events_effect_periodic, events_cleanup_periodic. now apply (periodic_timers w).
Qed.

Lemma unmount_periodic (w : World Num) : periodic w -> periodic (unmount w).
Proof.
  intros P. unfold unmount. destruct (phase w); try assumption.
  apply (periodic_timers (statistics_cleanup (events_cleanup (websocket_cleanup w))));
    [reflexivity|].
  apply statistics_cleanup_periodic, events_cleanup_periodic.
  apply (periodic_timers w); [|assumption].
  unfold websocket_cleanup, client_close. destruct (wsClientRef w) as [c|]; [|reflexivity].
  cbn. unfold ws_close. cbn. destruct (sockets w !! client_ws c) as [s|]; [|reflexivity].
  destruct (readyState s); reflexivity.
Qed.

Lemma setSimulationState_periodic (v : JsVal Num) (w : World Num) :
  periodic w -> periodic (setSimulationState v w).
Proof.
  intros P.
  assert (Q : periodic (statistics_effect (statistics_cleanup (set_simulationState v w)))).
  { apply statistics_effect_periodic, statistics_cleanup_periodic.
    now apply (periodic_timers w). }
  destruct (setSimulationState_cases v w) as [->|(M & _ & [->|[->|[_ ->]]])].
  - exact P.
  - now apply unmount_periodic.
  - now apply unmount_periodic.
  - revert Q. now apply periodic_timers.
Qed.

Lemma setEvents_periodic (v : JsVal Num) (w : World Num) :
  periodic w -> periodic (setEvents v w).
Proof.
  intros P.
  destruct (setEvents_cases v w) as [->|(M & _ & [->|[->|[_ ->]]])].
  - exact P.
  - now apply unmount_periodic.
  - apply unmount_periodic. now apply (periodic_timers w).
  - now apply (periodic_timers w).
Qed.

Lemma ws_onmessage_periodic (s : Socket) (raw : string) (w : World Num) :
  periodic w -> periodic (final (ws_onmessage s raw w)).
Proof.
  intros P. unfold ws_onmessage, App_onMessage_call.
  destruct (JSON_parse raw) as [data|]; simpl; [|now apply (periodic_timers w)].
  destruct (onMessage s) as [[]|]; simpl; [|assumption].
  destruct (prop data "type") as [kind|]; simpl; [|now apply (periodic_timers w)].
  destruct (strict_eq_str kind "state_update"); simpl; [|assumption].
  destruct (prop data "data"); simpl; [|now apply (periodic_timers w)].
  now apply setSimulationState_periodic.
Qed.

Lemma settle_periodic (k : Continuation) (o : Outcome Num) (w : World Num) :
  periodic w -> periodic (settle k o w).
Proof.
  intros P. destruct k; cbn [settle].
  - destruct o; [assumption|now apply (periodic_timers w)].
  - unfold fetchStatus_resume. destruct o as [data|e]; [|now apply (periodic_timers w)].
    destruct (prop data "running"); cbn [try_catch final];
      [now apply setIsRunning_periodic|now apply (periodic_timers w)].
  - unfold fetchEvents_resume. destruct o; [|now apply (periodic_timers w)].
    destruct (_ && _); [now apply setEvents_periodic|assumption].
  - destruct o as [data|e]; [|now apply (periodic_timers w)].
    destruct (fetchStats_resume_cases timestamp data w) as [->|(M & _ & [->|[_ ->]])];
      [exact P|now apply unmount_periodic|now apply (periodic_timers w)].
  - unfold handleStartSimulation_resume.
    destruct o; [now apply setIsRunning_periodic|now apply (periodic_timers w)].
  - unfold handleStopSimulation_resume.
    destruct o; [now apply setIsRunning_periodic|now apply (periodic_timers w)].
  - unfold handleResetSimulation_resume. destruct o; [|now apply (periodic_timers w)].
    now apply setSimulationState_periodic, setEvents_periodic.
  - destruct o; [assumption|now apply (periodic_timers w)].
  - destruct o; [assumption|now apply (periodic_timers w)].
  - unfold handleAddPassenger_resume.
    destruct o; [assumption|now apply (periodic_timers w)].
Qed.

Lemma fire_periodic (id : nat) (w : World Num) : periodic w -> periodic (fire id w).
Proof.
  intros P. unfold fire. destruct (timers w !! id) as [t|] eqn:L; [|assumption].
  destruct (due t <=? clock w); [|assumption].
  assert (K : forall w' : World Num, timers w' = match period t with
                                     | Some p => <[id := {| due := clock w + p; period := Some p;
                                                            action := action t |}]> (timers w)
                                     | None => delete id (timers w)
                                     end -> periodic w').
  { intros w' T. destruct (period t) as [p|] eqn:Q.
    - apply (periodic_insert w w' id _ T); [|assumption]. cbn. rewrite <- Q. now apply (P id).
    - now apply (periodic_delete w w' id). }
  destruct (action t); cbn [run_timer]; now apply K.
Qed.

Lemma step_periodic (e : Event Num) (w : World Num) : periodic w -> periodic (step e w).
Proof.
  intros P. destruct e; cbn [step].
  - unfold mount. destruct (phase w); try assumption.
    apply events_effect_periodic.
    apply (periodic_timers (websocket_effect (statistics_effect (loadConfig (set_phase Mounted w)))));
      [reflexivity|].
    apply (periodic_timers (statistics_effect (loadConfig (set_phase Mounted w))));
      [apply websocket_effect_frame|].
    apply statistics_effect_periodic. now apply (periodic_timers w).
  - now apply unmount_periodic.
  - destruct (sockets w !! i) as [s|]; [|assumption].
    destruct (readyState s); try assumption.
    apply (periodic_timers w); [|assumption]. apply (ws_onopen_frame s (set_socket i OPEN s w)).
  - destruct (sockets w !! i) as [s|]; [|assumption].
    destruct (readyState s); try assumption. now apply ws_onmessage_periodic.
  - destruct (sockets w !! i) as [s|]; [|assumption].
    destruct (readyState s); try assumption; now apply (periodic_timers w).
  - destruct (sockets w !! i) as [s|]; [|assumption].
    assert (K : periodic (ws_onclose s code reason (set_socket i CLOSED s w))).
    { unfold ws_onclose. destruct (onDisconnect s) as [[]|]; [|now apply (periodic_timers w)].
      now apply (periodic_insert w _ (nextTimer w)
                   {| due := clock w + 3000; period := None; action := Reconnect |}). }
    destruct (readyState s); assumption.
  - now apply (periodic_timers w).
  - now apply fire_periodic.
  - now apply settle_periodic.
  - unfold user. destruct (is_mounted (phase w)); [|assumption]. now apply (periodic_timers w).
  - unfold user. destruct (is_mounted (phase w)); [|assumption]. now apply (periodic_timers w).
  - unfold user. destruct (is_mounted (phase w)); [|assumption]. now apply (periodic_timers w).
  - unfold user. destruct (is_mounted (phase w)); [|assumption]. now apply (periodic_timers w).
  - unfold user. destruct (is_mounted (phase w)); [|assumption]. now apply (periodic_timers w).
  - unfold user. destruct (is_mounted (phase w)); [|assumption].
    unfold handleAddPassenger. destruct (num_strict_eq _ _); now apply (periodic_timers w).
Qed.

Lemma reachable_periodic (w : World Num) : reachable w -> periodic w.
Proof.
  intros [trace ->]. unfold run.
  assert (I : periodic (init (Num := Num))).
  { intros id t L. cbn in L. now rewrite lookup_empty in L. }
  revert I. generalize (init (Num := Num)).
  induction trace as [|e trace IH]; intros w I; [exact I|].
  cbn [fold_left]. apply IH. now apply step_periodic.
Qed.

(** X20. The polls repeat at fixed periods. On every reachable page a
    timer that runs the events poll has period 2000 and one that runs the
    statistics poll has period 5000; the reconnect timeout has none. When a
    due timer fires, it issues the one request of its callback, and it is
    re-armed under the same handle, one period after the present time, if
    it is a poll, and dropped if it is the reconnect timeout; no other
    timer is touched. *)
Theorem timers_fire_at_fixed_periods (w : World Num) (id : nat) (t : Timer) :
  reachable w -> timers w !! id = Some t -> due t <= clock w ->
  let w' := step (Fire id) w in
  period t = period_of (action t) /\
  requests w' = (requests w ++ request_of (action t))%list /\
  timers w' = match period_of (action t) with
              | Some p => <[id := {| due := clock w + p; period := Some p;
                                     action := action t |}]> (timers w)
              | None => delete id (timers w)
              end.
Proof.
  intros R L D. cbv zeta. pose proof (reachable_periodic w R id t L) as P.
  split; [exact P|]. cbn [step]. unfold fire. rewrite L.
  apply Z.leb_le in D. rewrite D, P.
  destruct (action t); cbn; rewrite ?app_nil_r; auto.
Qed.

(** X14. The close event of a socket that was already replaced clears the
    module's record of the current client. The next call of
    [createWebSocketClient] then finds nothing to close: it leaves the
    current socket as it is and opens another one beside it. *)
Theorem stale_close_forgets_current_client
    (w : World Num) (old : nat) (replaced current : Socket) (client : Client)
    (code reason : string) (onMsg : option MessageCallback)
    (onConn : option ConnectCallback) (onDisc : option DisconnectCallback) :
  activeWebSocket w = Some client ->
  sockets w !! client_ws client = Some current ->
  sockets w !! old = Some replaced -> old <> client_ws client ->
  readyState replaced <> CLOSED ->
  let w1 := step (SockClose old code reason) w in
  let created := createWebSocketClient onMsg onConn onDisc w1 in
  activeWebSocket w1 = None /\
  sockets (snd created) !! client_ws client = Some current /\
  client_ws (fst created) = length (sockets w) /\
  sockets (snd created) !! length (sockets w)
  = Some {| readyState := CONNECTING; onMessage := onMsg; onConnect := onConn;
            onDisconnect := onDisc |} /\
  activeWebSocket (snd created) = Some (fst created).
Proof.
  intros A Lc Lo N Q. cbv zeta. cbn [step]. rewrite Lo.
  set (w1 := ws_onclose replaced code reason (set_socket old CLOSED replaced w)).
  assert (E : match readyState replaced with CLOSED => w | _ => w1 end = w1)
    by (destruct (readyState replaced); congruence).
  rewrite E. destruct (ws_onclose_frame replaced code reason (set_socket old CLOSED replaced w))
    as (S1 & _ & A1). fold w1 in S1, A1. cbn in S1.
  unfold createWebSocketClient. rewrite A1. cbn. rewrite S1, length_insert.
  split_and!; try reflexivity.
  - rewrite lookup_app_l by (apply lookup_lt_Some in Lc; now rewrite length_insert).
    rewrite list_lookup_insert_ne by exact N. exact Lc.
  - rewrite lookup_app_r by (rewrite length_insert; lia).
    rewrite length_insert, Nat.sub_diag. reflexivity.
Qed.

(** ** Renders that throw *)

(** Only an object can be a snapshot the page cannot draw. *)
Lemma undrawable_object (v : JsVal Num) :
  drawable v = false -> exists fields, v = JObj fields.
Proof.
  intros D. destruct v; eauto; exfalso; revert D;
    unfold drawable, Building_effect; cbn;
    repeat match goal with |- context [if ?c then _ else _] => destruct c end;
    unfold Building_renders, Array_from_returns, Building_initial; cbn;
    rewrite valid_length_25; discriminate.
Qed.



(** A snapshot the page cannot draw takes it down: at once when
    [Statistics] cannot format its time, and otherwise once the effects
    have run and [Building] is rendered again. *)
Lemma setSimulationState_undrawable (v : JsVal Num) (w : World Num) :
  phase w = Mounted -> page_renders w = true -> drawable v = false ->
  exists w0, setSimulationState v w = unmount w0 /\ phase w0 = Mounted /\
             wsClientRef w0 = wsClientRef w /\ sockets w0 = sockets w /\
             (Statistics_renders initial_stats v = false -> w0 = w).
Proof.
  intros M R D. destruct (undrawable_object v D) as [fields ->].
  unfold setSimulationState, rerender. rewrite M. cbn [is_mounted].
  replace (same_value (simulationState w) (JObj fields)) with false
    by now destruct (simulationState w).
  destruct (page_renders (set_simulationState (JObj fields) w)) eqn:R1.
  - pose proof (statistics_pair_app (set_simulationState (JObj fields) w)) as F.
    cbv zeta in F. destruct F as (Fp & Fs & _ & _ & _ & _ & Fr & _ & _ & Fb & _).
    cbn [phase sockets wsClientRef building set_simulationState] in Fp, Fs, Fr, Fb.
    assert (S : Statistics_renders initial_stats (JObj fields) = true).
    { unfold page_renders in R1. cbn [building stats simulationState events filteredEvents
                                      set_simulationState] in R1.
      apply andb_true_iff in R1 as [R1 _]. apply andb_true_iff in R1 as [_ R1].
      rewrite Statistics_renders_split in R1. now apply andb_true_iff in R1 as [_ R1]. }
    destruct (page_renders (set_building _ _)) eqn:R3.
    + exfalso. unfold page_renders in R3.
      cbn [building stats simulationState events filteredEvents set_building] in R3.
      apply andb_true_iff in R3 as [R3 _]. apply andb_true_iff in R3 as [R3 _].
      rewrite (Building_effect_overwrites (JObj fields) _ Building_initial eq_refl) in R3.
      unfold drawable in D. rewrite S, R3 in D. discriminate.
    + eexists. split; [reflexivity|]. split_and!; try assumption; congruence.
  - exists w. auto.
Qed.

Lemma unmount_closing (w : World Num) (s : Socket) :
  phase w = Mounted -> wsClientRef w = Some {| client_ws := 0 |} ->
  sockets w = [s] -> readyState s = OPEN ->
  sockets (unmount w) = [set_readyState CLOSING s] /\ wsClientRef (unmount w) = None.
Proof.
  intros M C S O.
  destruct (same_connection_trans _ _ _ (events_cleanup_connection (websocket_cleanup w))
              (statistics_cleanup_connection _)) as (S2 & R2 & _).
  unfold unmount. rewrite M. cbn [sockets wsClientRef set_phase]. rewrite S2, R2.
  unfold websocket_cleanup, client_close, ws_close. rewrite C. cbn. rewrite S. cbn.
  rewrite O. cbn. auto.
Qed.

(** No poll is left running on a page that was taken down. *)
Lemma no_poll_off_screen (w : World Num) :
  reachable w -> phase w = Unmounted ->
  ~ timer_live FetchEvents w /\ ~ timer_live FetchStats w.
Proof.
  intros R P. pose proof (reachable_invariant w R) as I.
  rewrite (events_gate_live w I), (stats_gate_live w I), P. split; intros [X _]; discriminate.
Qed.

(** X22. A pushed state update whose payload the page cannot draw takes
    the whole page down, as nothing catches the error of the render: the
    page is unmounted, the clean-up of [App] closes the socket and forgets
    its client, no poll timer is left, and frames that arrive afterwards
    are not delivered. When it is [Statistics] that cannot format the time
    of the payload, the payload never becomes the snapshot and no request
    is sent. *)
Theorem undrawable_snapshot_unmounts_page
    (w : World Num) (i : nat) (s : Socket) (raw : string) :
  reachable w -> sockets w !! i = Some s -> readyState s = OPEN ->
  is_state_update raw = true -> drawable (payload_of raw) = false ->
  let w' := step (SockMessage i raw) w in
  phase w' = Unmounted /\ sockets w' = [set_readyState CLOSING s] /\
  wsClientRef w' = None /\
  ~ timer_live FetchEvents w' /\ ~ timer_live FetchStats w' /\
  (Statistics_renders initial_stats (payload_of raw) = false ->
   w' = unmount w /\ simulationState w' = simulationState w /\ requests w' = requests w) /\
  (forall next, step (SockMessage i next) w' = w').
Proof.
  intros R L O U D.
  pose proof (reachable_step (SockMessage i raw) w R) as R'.
  pose proof (reachable_socket_invariant w R) as J.
  destruct (socket_index w i s J L) as [-> Nf].
  destruct (while_live w J s L) as (M & C & _); [unfold live; now rewrite O|].
  assert (A : onMessage s = Some App_onMessage).
  { pose proof (sockets_of_app w (reachable_invariant w R)) as F.
    apply (Forall_lookup_1 _ _ _ _ F L). }
  assert (S1 : sockets w = [s]).
  { pose proof (one_socket w J Nf). destruct (sockets w) as [|s0 [|]]; try discriminate.
    now injection L as ->. }
  assert (E : step (SockMessage 0 raw) w = setSimulationState (payload_of raw) w).
  { cbn [step]. rewrite L, O.
    destruct (ws_onmessage_cases s raw w) as [[U' _]|[_ [[A' _]|[_ ->]]]]; congruence. }
  destruct (setSimulationState_undrawable (payload_of raw) w M (reachable_renders w R M) D)
    as (w0 & E0 & M0 & C0 & S0 & K).
  cbv zeta. rewrite E in *. rewrite E0 in *.
  destruct (unmount_closing w0 s M0) as [S' C']; [congruence..|assumption|].
  pose proof (unmount_phase w0 M0) as P'.
  destruct (no_poll_off_screen _ R' P') as [T1 T2].
  split_and!; try assumption.
  - intros X. rewrite (K X). split; [reflexivity|]. split; apply unmount_keeps.
  - intros next. cbn [step]. rewrite S'. reflexivity.
Qed.

(** X23. A statistics poll that resolves with a truthy body [Statistics]
    cannot render (an average that is not a number, a counter that is an
    object) takes the whole page down: the page is unmounted with the
    statistics and the history it had, no poll timer is left and no
    request is sent. *)
Theorem unrenderable_statistics_unmount_page
    (timestamp : string) (data : JsVal Num) (w : World Num) :
  reachable w -> phase w = Mounted -> truthy data = true ->
  Statistics_renders data JNull = false ->
  let w' := step (Settle (After_fetchStats timestamp) (Resolved data)) w in
  w' = unmount w /\ phase w' = Unmounted /\
  historicalData w' = historicalData w /\ stats w' = stats w /\
  ~ timer_live FetchEvents w' /\ ~ timer_live FetchStats w' /\
  requests w' = requests w.
Proof.
  intros R M T D.
  pose proof (reachable_step (Settle (After_fetchStats timestamp) (Resolved data)) w R) as R'.
  assert (E : step (Settle (After_fetchStats timestamp) (Resolved data)) w = unmount w).
  { cbn [step settle]. unfold fetchStats_resume, setHistoricalData, setStats, rerender.
    rewrite T, M. cbn [is_mounted phase set_stats]. rewrite M. cbn [is_mounted].
    replace (page_renders _) with false; [reflexivity|].
    unfold page_renders.
    cbn [building stats simulationState events filteredEvents set_historicalData set_stats].
    rewrite Statistics_renders_split, D. cbn. now rewrite andb_false_r. }
  cbv zeta. rewrite E in *.
  pose proof (unmount_phase w M) as P'.
  destruct (no_poll_off_screen _ R' P') as [T1 T2].
  pose proof (unmount_keeps w) as K. cbv zeta in K.
  split_and!; try assumption; try reflexivity; apply K.
Qed.



End PageProperties.

(** ** The event list that is shown *)

Section EventStreamProperties.
Context {Num : Type} `{JsNumber Num} `{JsText Num}.

Lemma Array_filter_sound (f : JsVal Num -> option bool) (xs kept : list (JsVal Num)) :
  Array_filter f xs = Some kept ->
  sublist kept xs /\ Forall (fun x => f x = Some true) kept.
Proof.
  revert kept. induction xs as [|x xs IH]; intros kept E; cbn in E.
  - injection E as <-. split; constructor.
  - destruct (f x) as [keep|] eqn:F; [|discriminate].
    destruct (Array_filter f xs) as [kept'|]; [|discriminate].
    destruct (IH kept' eq_refl) as [S A]. injection E as <-. destruct keep.
    + split; [now constructor|]. now constructor.
    + split; [now constructor|]. exact A.
Qed.

Lemma Forall_sublist {A} (P : A -> Prop) (l1 l2 : list A) :
  sublist l1 l2 -> Forall P l2 -> Forall P l1.
Proof.
  intros S F. apply Forall_forall. intros x I.
  apply (proj1 (Forall_forall P l2) F), (elem_of_sublist l1 l2 x I S).
Qed.

Lemma strict_eq_str_true (v : JsVal Num) (lit : string) :
  strict_eq_str v lit = true -> v = JStr lit.
Proof.
  destruct v; cbn; try discriminate. intros E. apply String.eqb_eq in E. now subst.
Qed.

(** X15. What [EventStream] shows, when its effect completes, is a
    sub-sequence of the events it was given, in their order and at most
    [maxEvents] long; with a type selected every shown event has exactly
    that type, and with a search term every shown event mentions it. *)
Theorem shown_events_are_selected
    (events shown : list (JsVal Num)) (filter searchTerm : string) (maxEvents : nat) :
  EventStream_effect events filter searchTerm maxEvents = Some shown ->
  sublist shown events /\ (length shown <= maxEvents)%nat /\
  (filter <> "all" -> Forall (fun event => prop event "type" = Some (JStr filter)) shown) /\
  (searchTerm <> "" ->
   Forall (fun event => exists text, JSON_stringify event = Some text /\
                          includes (toLowerCase text) (toLowerCase searchTerm) = true)
          shown).
Proof.
  unfold EventStream_effect. intros E.
  destruct (if negb (String.eqb filter "all") then _ else _) as [by_type|] eqn:E1;
    [|discriminate].
  destruct (if negb (String.eqb searchTerm "") then _ else _) as [by_term|] eqn:E2;
    [|discriminate].
  injection E as <-.
  assert (S1 : sublist by_type events /\
               (filter <> "all" ->
                Forall (fun event => prop event "type" = Some (JStr filter)) by_type)).
  { destruct (String.eqb filter "all") eqn:Q; cbn in E1.
    - injection E1 as <-. split; [reflexivity|]. apply String.eqb_eq in Q. congruence.
    - apply Array_filter_sound in E1 as [S A]. split; [exact S|]. intros _.
      eapply Forall_impl; [exact A|]. intros event. cbv beta. unfold has_type.
      destruct (prop event "type") as [type|]; [|discriminate].
      intros [= T]. now rewrite (strict_eq_str_true _ _ T). }
  assert (S2 : sublist by_term by_type /\
               (searchTerm <> "" ->
                Forall (fun event => exists text, JSON_stringify event = Some text /\
                          includes (toLowerCase text) (toLowerCase searchTerm) = true)
                       by_term)).
  { destruct (String.eqb searchTerm "") eqn:Q; cbn in E2.
    - injection E2 as <-. split; [reflexivity|]. apply String.eqb_eq in Q. congruence.
    - apply Array_filter_sound in E2 as [S A]. split; [exact S|]. intros _.
      eapply Forall_impl; [exact A|]. intros event. cbv beta. unfold mentions.
      destruct (JSON_stringify event) as [text|]; [|discriminate].
      intros [= T]. eauto. }
  destruct S1 as [S1 T1], S2 as [S2 T2].
  assert (S3 : sublist (take maxEvents by_term) by_term) by apply sublist_take.
  split_and!.
  - now rewrite S3, S2.
  - rewrite length_take. lia.
  - intros N. apply (Forall_sublist _ _ by_type); [now rewrite S3, S2|auto].
  - intros N. apply (Forall_sublist _ _ by_term); auto.
Qed.

(** With the type filter at ['all'] and the search box empty, the effect
    hands over what the page model shows. *)
Lemma EventStream_effect_shown (events : list (JsVal Num)) :
  EventStream_effect events "all" "" 100 = Some (EventStream_shown (JArr events)).
Proof. reflexivity. Qed.

End EventStreamProperties.

(** ** The building that is drawn *)

Section BuildingProperties.
Context {Num : Type} `{JsNumber Num}.


End BuildingProperties.

Lemma Array_from_lookup {A} (n : Z) (f : Z -> A) (l : list A) :
  Array_from n f = Some l ->
  n <= 2 ^ 32 - 1 /\ length l = Z.to_nat n /\
  forall k x, l !! k = Some x <-> x = f (Z.of_nat k) /\ Z.of_nat k < n.
Proof.
  unfold Array_from. destruct (2 ^ 32 - 1 <? n) eqn:B; [discriminate|]. intros [= <-].
  apply Z.ltb_ge in B. split; [exact B|]. split; [now rewrite length_fmap, length_seqZ|].
  intros k x. rewrite list_lookup_fmap. split.
  - destruct (seqZ 0 n !! k) as [i|] eqn:L; [|discriminate]. cbn. intros [= <-].
    apply lookup_seqZ in L as [-> L]. now rewrite Z.add_0_l.
  - intros [-> L]. rewrite (lookup_seqZ_lt 0 n k L). now rewrite Z.add_0_l.
Qed.

Lemma elem_of_concat {A} (x : A) (ls : list (list A)) :
  x ∈ concat ls <-> exists l, x ∈ l /\ l ∈ ls.
Proof.
  induction ls as [|l ls IH]; cbn.
  - split; [intros I; inversion I|]. intros (l & _ & I). inversion I.
  - rewrite elem_of_app, IH. split.
    + intros [I|(l' & I & I')]; [exists l|exists l']; split; try assumption; constructor.
      assumption.
    + intros (l' & I & I'). apply elem_of_cons in I' as [->|I']; eauto.
Qed.

(** X18. For a building of [totalFloors] floors the rows are the floors
    [totalFloors], ..., 1 from top to bottom, the guide line of the row at
    index [k] is [48 * k] pixels down, and the floor selects of [Controls]
    for the same number of floors offer the same floors bottom-up. *)
Theorem floors_are_drawn_top_down (totalFloors : Z) (rows : list Z) :
  floors totalFloors = Some rows ->
  length rows = Z.to_nat totalFloors /\
  (forall k floorNumber, rows !! k = Some floorNumber ->
     floorNumber = totalFloors - Z.of_nat k /\ 1 <= floorNumber <= totalFloors /\
     topPosition totalFloors floorNumber = 48 * Z.of_nat k) /\
  (forall floorNumber, 1 <= floorNumber <= totalFloors -> floorNumber ∈ rows) /\
  floorOptions totalFloors = Some (reverse rows).
Proof.
  intros E. destruct (Array_from_lookup _ _ _ E) as (B & Ln & Lk). split_and!.
  - exact Ln.
  - intros k f L. apply Lk in L as [-> L]. unfold topPosition, floorHeight. lia.
  - intros f [F1 F2]. apply (list_elem_of_lookup_2 _ (Z.to_nat (totalFloors - f))).
    apply Lk. lia.
  - assert (E' : floorOptions totalFloors = Some ((fun i => i + 1) <$> seqZ 0 totalFloors)).
    { unfold floorOptions, Array_from. apply Z.ltb_ge in B. now rewrite B. }
    destruct (Array_from_lookup _ _ _ E') as (_ & _ & Lk'). rewrite E'. f_equal.
    apply list_eq. intros k. apply option_eq. intros x.
    rewrite Lk', reverse_lookup_Some, Lk, Ln. lia.
Qed.

Lemma Floor_calls_spec (floorNumber totalFloors f : Z) (d : string) :
  (f, d) ∈ Floor_calls floorNumber totalFloors <->
  f = floorNumber /\ ((d = "up" /\ f < totalFloors) \/ (d = "down" /\ 1 < f)).
Proof.
  unfold Floor_calls, showUpButton, showDownButton. rewrite elem_of_app.
  assert (U : (f, d) ∈ (if floorNumber <? totalFloors then [(floorNumber, "up")] else [])
              <-> f = floorNumber /\ d = "up" /\ f < totalFloors).
  { destruct (Z.ltb_spec floorNumber totalFloors).
    - rewrite list_elem_of_singleton. split; [intros [= -> ->]|intros (-> & -> & _)]; auto.
    - rewrite elem_of_nil. split; [tauto|]. lia. }
  assert (D : (f, d) ∈ (if 1 <? floorNumber then [(floorNumber, "down")] else [])
              <-> f = floorNumber /\ d = "down" /\ 1 < f).
  { destruct (Z.ltb_spec 1 floorNumber).
    - rewrite list_elem_of_singleton. split; [intros [= -> ->]|intros (-> & -> & _)]; auto.
    - rewrite elem_of_nil. split; [tauto|]. lia. }
  rewrite U, D. tauto.
Qed.

(** X19. The calls the building can make. With [totalFloors] floors the
    page offers a call up from every floor from 1 to [totalFloors - 1], a
    call down from every floor from 2 to [totalFloors], and nothing else:
    never a call from a floor outside the building, never up from the top
    floor or down from the first, and no call at all when there is a single
    floor. *)
Theorem call_buttons_stay_in_building (totalFloors : Z) (calls : list (Z * string)) :
  Building_calls totalFloors = Some calls ->
  forall floorNumber direction,
    (floorNumber, direction) ∈ calls <->
    (direction = "up" /\ 1 <= floorNumber < totalFloors) \/
    (direction = "down" /\ 1 < floorNumber <= totalFloors).
Proof.
  unfold Building_calls. destruct (floors totalFloors) as [rows|] eqn:E; [|discriminate].
  intros [= <-] f d. destruct (Array_from_lookup _ _ _ E) as (B & Ln & Lk).
  assert (In : forall x, x ∈ rows <-> 1 <= x <= totalFloors).
  { intros x. rewrite list_elem_of_lookup. split.
    - intros (k & L). apply Lk in L. lia.
    - intros R. exists (Z.to_nat (totalFloors - x)). apply Lk. lia. }
  rewrite elem_of_concat. split.
  - intros (l & I & I'). apply list_elem_of_fmap in I' as (x & -> & I').
    apply Floor_calls_spec in I as [-> I]. apply In in I'.
    destruct I as [[-> L]|[-> L]]; [left|right]; split; try reflexivity; lia.
  - intros K. exists (Floor_calls f totalFloors). split.
    + apply Floor_calls_spec. split; [reflexivity|].
      destruct K as [[-> L]|[-> L]]; [left|right]; split; try reflexivity; lia.
    + apply list_elem_of_fmap. exists f. split; [reflexivity|]. apply In.
      destruct K as [[_ L]|[_ L]]; lia.
Qed.

(** * The model at work *)

Module Examples.
Import Sample.

Lemma connected_reachable : reachable connected.
Proof. exists [Mount; SockOpen 0]. reflexivity. Defined.





Lemma addPassenger_same_floor_rejected_witness :
  requests (handleAddPassenger {| start_floor := Int 5; destination_floor := Int 5 |} connected)
  = requests connected.
Proof.
  exact (proj1 (proj2 (addPassenger_same_floor_rejected
           {| start_floor := Int 5; destination_floor := Int 5 |} connected eq_refl))).
Defined.



Lemma watching_reachable : reachable watching.
Proof.
  apply reachable_step.
  exact (reachable_step
           (Settle After_fetchStatus (Resolved (JObj [("running", JBool true)])))
           connected connected_reachable).
Defined.

Lemma busy_reachable : reachable busy.
Proof. exact (reachable_step _ watching watching_reachable). Defined.



Lemma polling_gates_example :
  timer_live FetchEvents (step (Settle After_start (Resolved JNull)) connected) /\
  events_polls (step (Settle After_start (Resolved JNull)) connected) = [events_poll].
Proof.
  destruct (proj1 (proj2 (proj2 (proj2 (polling_gates connected connected_reachable))))
              (Settle After_start (Resolved JNull)) eq_refl eq_refl) as [L P].
  split; [exact L|]. refine (eq_trans P _). reflexivity.
Defined.

Lemma reconnect_timeout_opens_no_socket_witness :
  let closed := step (SockClose 0 "1006" "") connected in
  let fired := step (Fire 1) (step (Advance 3000) closed) in
  timers closed
  = <[1%nat := {| due := 3000; period := None; action := Reconnect |}]> (timers connected) /\
  step (Fire 1) (step (Advance 2999) closed) = step (Advance 2999) closed /\
  console fired
  = console (console_log "Attempting to reconnect WebSocket..." (step (Advance 3000) closed)) /\
  wsClientRef fired = None /\ sockets fired = [set_readyState CLOSED socket0] /\
  requests fired = requests closed /\
  exists s', sockets (run [Advance 3000; Fire 1; ClickStart JNull; SockOpen 0] closed) = [s'] /\
             live s' = false.
Proof.
  destruct (reconnect_timeout_opens_no_socket connected 0%nat socket0 "1006" ""
              connected_reachable eq_refl) as (_ & T & S & _ & Early & Late & Never);
    [discriminate|].
  destruct (Late 3000%N) as (C & R & _ & S' & Q & _); [cbn; lia|].
  cbv zeta. split_and!.
  - refine (eq_trans T _). reflexivity.
  - apply (Early 2999%N). cbn. lia.
  - exact C.
  - exact R.
  - refine (eq_trans S' _). exact S.
  - exact Q.
  - exact (Never [Advance 3000; Fire 1; ClickStart JNull; SockOpen 0]).
Defined.

Lemma explicit_close_still_arms_reconnect_timer_witness :
  timers (step (SockClose 0 "1000" "") (step Unmount connected))
  = <[1%nat := {| due := 3000; period := None; action := Reconnect |}]>
      (timers (step Unmount connected)).
Proof.
  refine (eq_trans (proj2 (proj2 (proj2
           (explicit_close_still_arms_reconnect_timer connected client0 socket0 "1000" ""
              connected_reachable eq_refl eq_refl eq_refl _)))) _);
    [discriminate|reflexivity].
Defined.

Lemma second_acquire_builds_second_socket_witness :
  fst (createWebSocketClient (Some App_onMessage) (Some App_onConnect)
         (Some App_onDisconnect) connected) <> client0 /\
  length (sockets (snd (createWebSocketClient (Some App_onMessage) (Some App_onConnect)
                          (Some App_onDisconnect) connected))) = 2%nat.
Proof.
  destruct (second_acquire_builds_second_socket connected client0 socket0
              (Some App_onMessage) (Some App_onConnect) (Some App_onDisconnect)
              eq_refl eq_refl eq_refl) as (N & _ & L & _).
  split; assumption.
Defined.

(** C3, against the claim as worded: [App] is unmounted, so its clean-up
    calls [client.close()]; no timer is pending at that point; when the
    close event of the socket is delivered, the reconnect timeout is
    armed. *)
Lemma explicit_close_counterexample :
  let closed := run [Mount; SockOpen 0; Unmount] world0 in
  client_getState client0 closed = Some CLOSING /\
  map_to_list (timers closed) = [] /\
  map_to_list (timers (step (SockClose 0 "1000" "") closed))
  = [(1%nat, {| due := 3000; period := None; action := Reconnect |})].
Proof. vm_compute. repeat split. Qed.

(** C5. What the code does against the claim. With the running flag
    false, a pushed snapshot with a positive time makes [Statistics] issue
    a statistics poll and start its timer; a successful start turns the
    flag to true and starts the events timer only; a successful stop turns
    the flag back, clears the events timer and leaves the statistics timer
    running. *)
Theorem stats_polling_ignores_running_flag :
  let pushed := run [Mount; SockOpen 0; SockMessage 0 (update_text 5)] world0 in
  let started := run [Mount; SockOpen 0; Settle After_start (Resolved JNull)] world0 in
  let stopped :=
    run [Mount; SockOpen 0; Settle After_start (Resolved JNull);
         SockMessage 0 (update_text 5); Settle After_stop (Resolved JNull)] world0 in
  (running pushed = false /\ stats_polls pushed = [stats_poll] /\
   map_to_list (timers pushed)
   = [(1%nat, {| due := 5000; period := Some 5000; action := FetchStats |})]) /\
  (running started = true /\
   map_to_list (timers started)
   = [(1%nat, {| due := 2000; period := Some 2000; action := FetchEvents |})]) /\
  (running stopped = false /\
   map_to_list (timers stopped)
   = [(2%nat, {| due := 5000; period := Some 5000; action := FetchStats |})]).
Proof. vm_compute. repeat split. Qed.



(** ** Further examples *)

Lemma polling_reachable : reachable polling.
Proof.
  exact (reachable_step
           (Settle After_fetchStatus (Resolved (JObj [("running", JBool true)])))
           connected connected_reachable).
Defined.

Lemma unmounted_reachable : reachable (step Unmount connected).
Proof. exact (reachable_step Unmount connected connected_reachable). Defined.

Lemma closed_reachable : reachable (step (SockClose 0 "1006" "") connected).
Proof. exact (reachable_step (SockClose 0 "1006" "") connected connected_reachable). Defined.



Lemma one_timer_per_poll_witness : eventsInterval polling = Some 1%nat.
Proof.
  refine (proj1 (proj2 (proj2
            (one_timer_per_poll polling 1%nat 1%nat
               {| due := 2000; period := Some 2000; action := FetchEvents |}
               {| due := 2000; period := Some 2000; action := FetchEvents |}
               polling_reachable _ _ eq_refl _))) eq_refl);
    [vm_compute; reflexivity|vm_compute; reflexivity|discriminate].
Defined.

Lemma unmounted_page_is_silent_witness :
  requests (run [ClickStart JNull; Settle After_start (Resolved JNull); Advance 5000;
                 SockClose 0 "1000" ""]
              (step Unmount connected))
  = requests (step Unmount connected).
Proof.
  exact (proj1 (unmounted_page_is_silent (step Unmount connected)
                  [ClickStart JNull; Settle After_start (Resolved JNull); Advance 5000;
                   SockClose 0 "1000" ""]
                  unmounted_reachable eq_refl)).
Defined.

Lemma reset_clears_snapshot_and_events_witness :
  simulationState busy = snapshot 5 /\ events busy = JArr [new_passenger_event] /\
  timer_live FetchStats busy /\ timer_live FetchEvents busy /\
  let w' := step (Settle After_reset (Resolved JNull)) busy in
  simulationState w' = JNull /\ events w' = JArr [] /\
  ~ timer_live FetchStats w' /\ timer_live FetchEvents w' /\
  requests w' = requests busy.
Proof.
  assert (E : timer_live FetchEvents busy).
  { exists 1%nat, {| due := 2000; period := Some 2000; action := FetchEvents |}.
    vm_compute. split; reflexivity. }
  destruct (reset_clears_snapshot_and_events JNull busy busy_reachable)
    as (S & V & T & Q & _ & L & _); [vm_compute; reflexivity|].
  split; [vm_compute; reflexivity|]. split; [vm_compute; reflexivity|].
  split.
  { exists 2%nat, {| due := 5000; period := Some 5000; action := FetchStats |}.
    vm_compute. split; reflexivity. }
  split; [exact E|]. cbv zeta.
  split_and!; [exact S|exact V|exact T|now apply L|exact Q].
Defined.

Lemma status_response_sets_flag_witness :
  isRunning (fetchStatus_resume (Resolved (JObj [("running", JBool true)])) connected)
  = JBool true.
Proof.
  refine (proj1 (proj2 (proj2 (status_response_sets_flag connected connected_reachable
                                  eq_refl))
                   (JObj [("running", JBool true)]) _)).
  discriminate.
Defined.


Lemma no_same_floor_passenger_request_witness :
  Forall sound_request
    (requests (run [Mount; SubmitPassenger {| start_floor := Int 1;
                                              destination_floor := Int 10 |}] world0)).
Proof.
  refine (proj1 (no_same_floor_passenger_request _ _)).
  exists [Mount; SubmitPassenger {| start_floor := Int 1; destination_floor := Int 10 |}].
  reflexivity.
Defined.

Lemma only_three_alerts_witness :
  Forall (fun a => alert_shape a = true)
    (alerts (run [Mount; SubmitPassenger {| start_floor := Int 4;
                                            destination_floor := Int 4 |};
                  Settle After_start (Rejected network_error)] world0)).
Proof.
  refine (only_three_alerts _ _).
  exists [Mount; SubmitPassenger {| start_floor := Int 4; destination_floor := Int 4 |};
          Settle After_start (Rejected network_error)].
  reflexivity.
Defined.

Lemma one_socket_per_page_witness : exists s, sockets connected = [s] /\ app_socket s.
Proof. exact (one_socket_per_page connected connected_reachable). Defined.

Lemma live_socket_is_held_witness :
  phase connected = Mounted /\ wsClientRef connected = Some client0.
Proof.
  destruct (live_socket_is_held connected 0%nat socket0 connected_reachable eq_refl eq_refl)
    as (P & R & _).
  exact (conj P R).
Defined.

Lemma page_never_reconnects_witness :
  exists s, sockets (run [Advance 3000; Fire 1; ClickStart JNull; SockOpen 0]
                       (step (SockClose 0 "1006" "") connected)) = [s] /\
            live s = false.
Proof.
  exact (page_never_reconnects (step (SockClose 0 "1006" "") connected) 0%nat
           (set_readyState CLOSED socket0)
           [Advance 3000; Fire 1; ClickStart JNull; SockOpen 0]
           closed_reachable eq_refl eq_refl).
Defined.

Lemma stale_close_forgets_current_client_witness :
  let created := createWebSocketClient None None None (step (SockClose 0 "1000" "") twice) in
  sockets (snd created) !! 1%nat
  = Some {| readyState := CONNECTING; onMessage := None; onConnect := None;
            onDisconnect := None |} /\
  client_ws (fst created) = 2%nat.
Proof.
  destruct (stale_close_forgets_current_client twice 0%nat
              {| readyState := CLOSING; onMessage := None; onConnect := None;
                 onDisconnect := None |}
              {| readyState := CONNECTING; onMessage := None; onConnect := None;
                 onDisconnect := None |}
              {| client_ws := 1 |} "1000" "" None None None
              eq_refl eq_refl eq_refl) as (_ & S & C & _); [cbn; lia|discriminate|].
  exact (conj S C).
Defined.

Lemma shown_events_are_selected_witness :
  Forall (fun event => prop event "type" = Some (JStr "new_passenger"))
    [JObj [("type", JStr "new_passenger"); ("start_floor", JNum (Int 3))];
     JObj [("type", JStr "new_passenger"); ("Start_Floor", JNum (Int 7))]].
Proof.
  refine (proj1 (proj2 (proj2
            (shown_events_are_selected event_list
               [JObj [("type", JStr "new_passenger"); ("start_floor", JNum (Int 3))];
                JObj [("type", JStr "new_passenger"); ("Start_Floor", JNum (Int 7))]]
               "new_passenger" "START_FLOOR" 100 _))) _);
    [reflexivity|discriminate].
Defined.

Lemma floors_are_drawn_top_down_witness : floorOptions 3 = Some [1; 2; 3].
Proof.
  exact (proj2 (proj2 (proj2 (floors_are_drawn_top_down 3 [3; 2; 1] eq_refl)))).
Defined.

Lemma call_buttons_stay_in_building_witness :
  ~ (3, "up") ∈ [(3, "down"); (2, "up"); (2, "down"); (1, "up")].
Proof.
  intros I.
  destruct (proj1 (call_buttons_stay_in_building 3
                     [(3, "down"); (2, "up"); (2, "down"); (1, "up")] eq_refl 3 "up") I)
    as [[_ L]|[E _]]; [lia|discriminate].
Defined.

Lemma timers_fire_at_fixed_periods_witness :
  requests (step (Fire 1) (step (Advance 2000) polling))
  = (requests (step (Advance 2000) polling) ++ [events_poll])%list.
Proof.
  refine (proj1 (proj2 (timers_fire_at_fixed_periods (step (Advance 2000) polling) 1%nat
                          {| due := 2000; period := Some 2000; action := FetchEvents |}
                          _ _ _))).
  - exact (reachable_step (Advance 2000) polling polling_reachable).
  - vm_compute. reflexivity.
  - cbn. lia.
Defined.

Lemma undrawable_snapshot_unmounts_page_witness :
  let w' := step (SockMessage 0 bad_update_text) busy in
  simulationState busy = snapshot 5 /\
  phase w' = Unmounted /\ sockets w' = [set_readyState CLOSING socket0] /\
  simulationState w' = snapshot 5 /\ requests w' = requests busy /\
  step (SockMessage 0 (update_text 9)) w' = w'.
Proof.
  destruct (undrawable_snapshot_unmounts_page busy 0%nat socket0 bad_update_text
              busy_reachable) as (P & S & _ & _ & _ & K & N); try (vm_compute; reflexivity).
  destruct K as (_ & V & Q); [vm_compute; reflexivity|].
  cbv zeta.
  split_and!; [vm_compute; reflexivity|exact P|exact S| |exact Q|apply N].
  rewrite V. vm_compute. reflexivity.
Defined.

Lemma unrenderable_statistics_unmount_page_witness :
  let w' := step (Settle (After_fetchStats "10:00:05") (Resolved null_stats_body)) busy in
  phase w' = Unmounted /\ historicalData w' = historicalData busy /\
  stats w' = stats busy /\ ~ timer_live FetchStats w'.
Proof.
  destruct (unrenderable_statistics_unmount_page "10:00:05" null_stats_body busy
              busy_reachable) as (_ & P & Hd & St & _ & T & _);
    try (vm_compute; reflexivity).
  cbv zeta. auto.
Defined.



End Examples.
